(** * container-use: the MCP tool surface and the prune command

    A shallow embedding of
      - [mcpserver/singletenant.go]: the single-tenant session state, the
        resolution of [environment_source] / [environment_id], the tool
        handlers and their wrappers;
      - [cmd/container-use/main.go]: [calculateMaxTitleLength] and the
        [prune] command.

    Go's [(T, error)] pairs are values of [result]; the packages
    [repository] and [environment], the container runtime, the clock and
    standard output are external: a handler is a finite tree of calls to
    them ([Prog]), run against an arbitrary oracle that answers each call. *)

From Stdlib Require Import ZArith QArith String Ascii DecimalString List Lia.
From stdpp Require Import base gmap strings list.

#[local] Set Warnings "-register-all".
#[local] Open Scope string_scope.
#[local] Open Scope Z_scope.

(** ** Go values *)

(** An [error] is observed through [err.Error()] only. *)
Definition error := string.

(** A Go [(T, error)] return: the value when the error is nil. *)
Inductive result (A : Type) : Type :=
| Ok (a : A)
| Err (e : error).

Arguments Ok {A} a.
Arguments Err {A} e.

(** [v, _ := f()]: the string Go hands back beside a discarded error is the
    zero value. *)
Definition valueOf (r : result string) : string :=
  match r with
  | Ok s => s
  | Err _ => ""
  end.

Definition isErr {A} (r : result A) : bool :=
  match r with
  | Ok _ => false
  | Err _ => true
  end.

Definition isSome {A} (o : option A) : bool :=
  match o with
  | Some _ => true
  | None => false
  end.

Definition isNil {A} (l : list A) : bool :=
  match l with
  | [] => true
  | _ :: _ => false
  end.

(** [strings.Contains]: [sub] occurs in [s]. *)
Definition contains (s sub : string) : Prop :=
  exists pre post, s = pre +:+ sub +:+ post.

(** The same as a test. *)
Fixpoint hasPrefix (s sub : string) {struct sub} : bool :=
  match sub, s with
  | EmptyString, _ => true
  | String a sub', String b s' => Ascii.eqb a b && hasPrefix s' sub'
  | String _ _, EmptyString => false
  end.

Fixpoint containsb (s sub : string) : bool :=
  hasPrefix s sub ||
  match s with
  | EmptyString => false
  | String _ s' => containsb s' sub
  end.

Definition dquote : string := String "034"%char EmptyString.

(** A line feed. *)
Definition nl : string := String "010"%char EmptyString.

(** [%q] of a plain identifier. *)
Definition quoted (s : string) : string := dquote +:+ s +:+ dquote.

(** ** Session state ([singletenant.go], lines 15-67)

    The two package-level variables.  Every accessor holds
    [currentEnvMutex] for its whole body, so concurrent calls take effect
    one at a time, in some order: an interleaving is a list of calls. *)
Module Session.

Record State : Type := mkState {
  currentEnvironmentID : string;
  currentEnvironmentSource : string
}.

(** The zero values the process starts with. *)
Definition initial : State := mkState "" "".

Definition noCurrentEnvironment : error :=
  "no current environment set. Use environment_create or environment_open first".

Definition getCurrentEnvironmentID (st : State) : result string :=
  if String.eqb (currentEnvironmentID st) "" then Err noCurrentEnvironment
  else Ok (currentEnvironmentID st).

Definition getCurrentEnvironmentSource (st : State) : result string :=
  if String.eqb (currentEnvironmentSource st) "" then Err noCurrentEnvironment
  else Ok (currentEnvironmentSource st).

Definition setCurrentEnvironmentID (envID : string) (st : State) : State :=
  mkState envID (currentEnvironmentSource st).

Definition setCurrentEnvironmentSource (envSource : string) (st : State) : State :=
  mkState (currentEnvironmentID st) envSource.

Definition setCurrentEnvironment (envID envSource : string) (_ : State) : State :=
  mkState envID envSource.

(** A call to one of the five accessors, indexed by what it returns. *)
Inductive call : Type -> Type :=
| GetID : call (result string)
| GetSource : call (result string)
| SetID (envID : string) : call unit
| SetSource (envSource : string) : call unit
| SetBoth (envID envSource : string) : call unit.

Definition step {X} (c : call X) (st : State) : X * State :=
  match c in call X return X * State with
  | GetID => (getCurrentEnvironmentID st, st)
  | GetSource => (getCurrentEnvironmentSource st, st)
  | SetID envID => (tt, setCurrentEnvironmentID envID st)
  | SetSource envSource => (tt, setCurrentEnvironmentSource envSource st)
  | SetBoth envID envSource => (tt, setCurrentEnvironment envID envSource st)
  end.

(** A call with its return type hidden, to put calls of both kinds in one
    history. *)
Inductive anyCall : Type :=
| Any {X} (c : call X).

(** The state after a history of calls, oldest first. *)
Fixpoint after (h : list anyCall) (st : State) : State :=
  match h with
  | [] => st
  | Any c :: h' => after h' (snd (step c st))
  end.

(** The spec's words: the last value a setter stored for the ID (the value
    the history started with when no setter ran). *)
Fixpoint lastStoredID (h : list anyCall) (start : string) : string :=
  match h with
  | [] => start
  | Any (SetID envID) :: h' => lastStoredID h' envID
  | Any (SetBoth envID _) :: h' => lastStoredID h' envID
  | Any _ :: h' => lastStoredID h' start
  end.

Fixpoint lastStoredSource (h : list anyCall) (start : string) : string :=
  match h with
  | [] => start
  | Any (SetSource envSource) :: h' => lastStoredSource h' envSource
  | Any (SetBoth _ envSource) :: h' => lastStoredSource h' envSource
  | Any _ :: h' => lastStoredSource h' start
  end.

End Session.

(** ** Tool-call requests (library [mcp-go])

    The arguments of a call are the decoded JSON object
    [request.GetArguments()], a Go [map[string]any]: a JSON number decodes
    to a [float64], which is a rational here.  The accessors follow the
    library: a [Get...] returns its default when the key is absent or holds
    a value of another type, a [Require...] returns an error. *)
Module Mcp.

Inductive Value : Type :=
| VNull
| VBool (b : bool)
| VNumber (q : Q)
| VString (s : string)
| VArray (l : list Value)
| VObject (m : gmap string Value).

Abbreviation Request := (gmap string Value).

Definition GetString (request : Request) (key defaultValue : string) : string :=
  match request !! key with
  | Some (VString str) => str
  | _ => defaultValue
  end.

Definition RequireString (request : Request) (key : string) : result string :=
  match request !! key with
  | Some (VString str) => Ok str
  | Some _ => Err ("argument " +:+ quoted key +:+ " is not a string")
  | None => Err ("required argument " +:+ quoted key +:+ " not found")
  end.

(** [strconv.ParseBool] *)
Definition ParseBool (str : string) : option bool :=
  if existsb (String.eqb str) ["1"; "t"; "T"; "TRUE"; "true"; "True"] then Some true
  else if existsb (String.eqb str) ["0"; "f"; "F"; "FALSE"; "false"; "False"] then Some false
  else None.

Definition GetBool (request : Request) (key : string) (defaultValue : bool) : bool :=
  match request !! key with
  | Some (VBool v) => v
  | Some (VString v) =>
      match ParseBool v with
      | Some b => b
      | None => defaultValue
      end
  | Some (VNumber v) => negb (Qeq_bool v 0)
  | _ => defaultValue
  end.

(** Go's [int] on the 64-bit targets the binary is built for. *)
Definition minInt : Z := - 2 ^ 63.
Definition maxInt : Z := 2 ^ 63 - 1.

(** Two's-complement wrap-around of [int] arithmetic. *)
Definition wrapInt (z : Z) : Z := (z + 2 ^ 63) mod 2 ^ 64 - 2 ^ 63.

(** The integer part of a [float64]: the fractional part is dropped. *)
Definition truncate (q : Q) : Z := Z.quot (Qnum q) (Zpos (Qden q)).

(** [int(v)] of a [float64]: the integer part when that is an [int].  When it
    is not, Go leaves the result to the implementation: [outside v] stands
    for what the implementation gives, which is some [int]. *)
Definition intOf (outside : Q -> Z) (v : Q) : Z :=
  if (minInt <=? truncate v) && (truncate v <=? maxInt) then truncate v
  else wrapInt (outside v).

Definition digitOf (c : ascii) : option Z :=
  let n := Z.of_nat (nat_of_ascii c) in
  if (48 <=? n) && (n <=? 57) then Some (n - 48) else None.

Fixpoint digitsOf (str : string) (acc : Z) : option Z :=
  match str with
  | EmptyString => Some acc
  | String c rest =>
      match digitOf c with
      | Some d => digitsOf rest (10 * acc + d)
      | None => None
      end
  end.

(** [strconv.Atoi]: an optional sign, then decimal digits, within [int]. *)
Definition Atoi (str : string) : option Z :=
  let '(negative, body) :=
    match str with
    | String "-"%char rest => (true, rest)
    | String "+"%char rest => (false, rest)
    | _ => (false, str)
    end in
  match body with
  | EmptyString => None
  | _ =>
      match digitsOf body 0 with
      | Some n =>
          let v := if negative then - n else n in
          if (minInt <=? v) && (v <=? maxInt) then Some v else None
      | None => None
      end
  end.

Definition GetInt (outside : Q -> Z) (request : Request) (key : string)
    (defaultValue : Z) : Z :=
  match request !! key with
  | Some (VNumber v) => intOf outside v
  | Some (VString v) =>
      match Atoi v with
      | Some i => i
      | None => defaultValue
      end
  | _ => defaultValue
  end.

(** The elements of a [[]any] that are strings, in order. *)
Fixpoint stringsOf (l : list Value) : list string :=
  match l with
  | [] => []
  | VString str :: rest => str :: stringsOf rest
  | _ :: rest => stringsOf rest
  end.

Definition GetStringSlice (request : Request) (key : string)
    (defaultValue : list string) : list string :=
  match request !! key with
  | Some (VArray v) => stringsOf v
  | _ => defaultValue
  end.

(** [*mcp.CallToolResult] with a single text content. *)
Record CallToolResult : Type := mkCallToolResult {
  Text : string;
  IsError : bool
}.

Definition NewToolResultText (text : string) : CallToolResult :=
  mkCallToolResult text false.

Definition NewToolResultError (text : string) : CallToolResult :=
  mkCallToolResult text true.

(** The error passed is never nil where the handlers call this. *)
Definition NewToolResultErrorFromErr (text : string) (err : error) : CallToolResult :=
  mkCallToolResult (text +:+ ": " +:+ err) true.

(** A tool definition: its name, its description, and the properties of
    its input schema with their JSON types and the names [mcp.Required()]
    marks.  The descriptions of the properties are left out. *)
Inductive PropertyType : Type := TString | TBoolean | TNumber | TArray | TObject.

Record Tool : Type := mkTool {
  Name : string;
  Description : string;
  Properties : list (string * PropertyType);
  Required : list string
}.

(** A [mcp.ToolOption] changes the tool under construction. *)
Definition ToolOption : Type := Tool -> Tool.

Definition NewTool (name : string) (opts : list ToolOption) : Tool :=
  fold_left (fun tool opt => opt tool) opts (mkTool name "" [] []).

Definition WithDescription (description : string) : ToolOption := fun tool =>
  mkTool (Name tool) description (Properties tool) (Required tool).

Definition withProperty (name : string) (type : PropertyType) (required : bool) :
    ToolOption := fun tool =>
  mkTool (Name tool) (Description tool)
    (Properties tool ++ [(name, type)])%list
    (if required then (Required tool ++ [name])%list else Required tool).

Definition WithString (name : string) (required : bool) : ToolOption :=
  withProperty name TString required.

Definition WithBoolean (name : string) (required : bool) : ToolOption :=
  withProperty name TBoolean required.

Definition WithNumber (name : string) (required : bool) : ToolOption :=
  withProperty name TNumber required.

Definition WithArray (name : string) (required : bool) : ToolOption :=
  withProperty name TArray required.

Definition WithObject (name : string) (required : bool) : ToolOption :=
  withProperty name TObject required.

(** The schema lists [name] among its required properties. *)
Definition requires (t : Tool) (name : string) : bool :=
  existsb (String.eqb name) (Required t).

End Mcp.

(** ** What the server does not own *)

(** Values of other packages that the handlers only pass around: the
    [*repository.Repository] handle, the [*dagger.Client], the unexported
    runtime part of an [*environment.Environment], an [*environment.Service],
    the endpoint mappings [RunBackground] returns, and [time.Time]. *)
Class Handles : Type := {
  Repository : Type;
  DaggerClient : Type;
  Container : Type;
  Service : Type;
  EndpointMappings : Type;
  Time : Type
}.

Module Environment.
Section Types.
Context `{Handles}.

(** Modelled from the spec: [environment.EnvironmentConfig], whose
    declaration is in package [environment]; section 3 lists base_image,
    setup_commands, env and workdir. *)
Record EnvironmentConfig : Type := mkConfig {
  BaseImage : string;
  SetupCommands : list string;
  Env : list string;
  Workdir : string
}.

(** [Config.Copy()]: a deep copy, equal to the original as a value. *)
Definition Copy (c : EnvironmentConfig) : EnvironmentConfig := c.

(** Modelled from the spec: [environment.State], declared in package
    [environment]; section 3 lists Title, Config, UpdatedAt and CreatedAt. *)
Record State : Type := mkState {
  Title : string;
  Config : EnvironmentConfig;
  UpdatedAt : Time;
  CreatedAt : Time
}.

(** Modelled from the spec: [environment.EnvironmentInfo], an ID and the
    state. *)
Record EnvironmentInfo : Type := mkInfo {
  ID : string;
  InfoState : State
}.

(** Modelled from the spec: [environment.Environment], the embedded
    [*EnvironmentInfo], the active services and the runtime part. *)
Record Environment : Type := mkEnvironment {
  Info : EnvironmentInfo;
  Services : list Service;
  Runtime : Container
}.

(** [environment.ServiceConfig], with the fields the server fills in. *)
Record ServiceConfig : Type := mkServiceConfig {
  ServiceName : string;
  Image : string;
  Command : string;
  ExposedPorts : list Z;
  ServiceEnv : list string
}.

(** [env.State.Title = title] *)
Definition setTitle (env : Environment) (title : string) : Environment :=
  mkEnvironment
    (mkInfo (ID (Info env))
       (mkState title (Config (InfoState (Info env))) (UpdatedAt (InfoState (Info env)))
          (CreatedAt (InfoState (Info env)))))
    (Services env) (Runtime env).

End Types.
End Environment.

Import Environment.

(** ** The server's view of the outside *)
Module Server.
Import Mcp.

Section Interface.
Context `{Handles}.

Record EnvironmentResponse : Type := mkResponse {
  RespID : string;
  RespTitle : string;
  RespConfig : EnvironmentConfig;
  RemoteRef : string;
  CheckoutCommand : string;
  LogCommand : string;
  DiffCommand : string;
  RespServices : list Service
}.

(** Calls that leave the process or read the world, indexed by what they
    return.  A method with a pointer receiver may change the environment it
    is called on: it returns the environment as it left it. *)
Inductive extcall : Type -> Type :=
| RepositoryOpen (source : string) : extcall (result Repository)
| RepoCreate (repo : Repository) (dag : DaggerClient)
    (title explanation gitRef : string) : extcall (result Environment)
| RepoGet (repo : Repository) (dag : DaggerClient) (envID : string) :
    extcall (result Environment)
| RepoList (repo : Repository) : extcall (result (list EnvironmentInfo))
| RepoDelete (repo : Repository) (envID : string) : extcall (option error)
| RepoUpdate (repo : Repository) (env : Environment) (explanation : string) :
    extcall (Environment * option error)
| RepoUpdateFile (repo : Repository) (env : Environment)
    (targetFile explanation : string) : extcall (Environment * option error)
| RepoIsDirty (repo : Repository) : extcall (result (bool * string))
| EnvRun (env : Environment) (command shell : string) (useEntrypoint : bool) :
    extcall (Environment * result string)
| EnvRunBackground (env : Environment) (command shell : string)
    (ports : list Z) (useEntrypoint : bool) :
    extcall (Environment * result EndpointMappings)
| EnvFileRead (env : Environment) (targetFile : string)
    (shouldReadEntireFile : bool) (startLine endLine : Z) : extcall (result string)
| EnvFileList (env : Environment) (path : string) : extcall (result string)
| EnvFileWrite (env : Environment) (explanation targetFile contents : string) :
    extcall (Environment * option error)
| EnvFileEdit (env : Environment)
    (explanation targetFile search replace whichMatch : string) :
    extcall (Environment * option error)
| EnvFileDelete (env : Environment) (explanation targetFile : string) :
    extcall (Environment * option error)
| EnvUpdateConfig (env : Environment) (config : EnvironmentConfig) :
    extcall (Environment * option error)
| EnvAddService (env : Environment) (explanation : string) (cfg : ServiceConfig) :
    extcall (Environment * result Service)
| EnvCheckpoint (env : Environment) (destination : string) : extcall (result string)
| TparseParseNow (layout value : string) : extcall (result Time)
| TimeSince (t : Time) : extcall Z
| TimeNow : extcall Time
| Print (text : string) : extcall unit.

(** Pure functions of the standard library and of [encoding/json] that the
    code calls on values of the types above. *)
Class Library : Type := {
  marshalResponse : EnvironmentResponse -> result string;
  marshalResponses : list EnvironmentResponse -> result string;
  marshalEndpoints : EndpointMappings -> result string;
  marshalService : Service -> result string;
  strconvQuote : string -> string;
  timeAdd : Time -> Z -> Time;
  timeBefore : Time -> Time -> bool;
  durationString : Z -> string;
  (* what the conversion [int(v)] gives for a [float64] outside the range
     of [int], which depends on the implementation *)
  intOutside : Q -> Z
}.

(** A call together with the answer it got. *)
Inductive Event : Type :=
| Called {X : Type} (c : extcall X) (answer : X).

(** A Go function body: it returns, panics, reads or writes the session
    state, or calls out and continues with the answer. *)
Inductive Prog (A : Type) : Type :=
| Ret (a : A)
| Panic (msg : string)
| Sess {X : Type} (c : Session.call X) (k : X -> Prog A)
| Ext {X : Type} (c : extcall X) (k : X -> Prog A).

#[global] Arguments Ret {A} a.
#[global] Arguments Panic {A} msg.
#[global] Arguments Sess {A X} c k.
#[global] Arguments Ext {A X} c k.

Fixpoint bind {A B} (p : Prog A) (f : A -> Prog B) : Prog B :=
  match p with
  | Ret a => f a
  | Panic msg => Panic msg
  | Sess c k => Sess c (fun x => bind (k x) f)
  | Ext c k => Ext c (fun x => bind (k x) f)
  end.

Definition sess {X} (c : Session.call X) : Prog X := Sess c Ret.
Definition ext {X} (c : extcall X) : Prog X := Ext c Ret.

(** The outside world: a state of its own and an answer to every call. *)
Definition Oracle (W : Type) : Type := forall X, extcall X -> W -> X * W.

(** What one execution leaves behind: the value returned ([None] after a
    panic), the session state, the calls made, oldest first, and the
    world. *)
Record Run (W A : Type) : Type := mkRun {
  outcome : option A;
  session : Session.State;
  trace : list Event;
  world : W
}.

#[global] Arguments mkRun {W A} _ _ _ _.
#[global] Arguments outcome {W A} _.
#[global] Arguments session {W A} _.
#[global] Arguments trace {W A} _.
#[global] Arguments world {W A} _.

(** The same execution with one more call in front. *)
Definition emit {W A} (ev : Event) (r : Run W A) : Run W A :=
  mkRun (outcome r) (session r) (ev :: trace r) (world r).

Fixpoint run {W A} (o : Oracle W) (p : Prog A) (st : Session.State) (w : W) : Run W A :=
  match p with
  | Ret a => mkRun (Some a) st [] w
  | Panic _ => mkRun None st [] w
  | Sess c k => run o (k (fst (Session.step c st))) (snd (Session.step c st)) w
  | Ext c k =>
      emit (Called c (fst (o _ c w))) (run o (k (fst (o _ c w))) st (snd (o _ c w)))
  end.

(** One execution followed by another that starts where the first
    stopped; nothing follows a panic. *)
Definition andThen {W A B} (r1 : Run W A) (f : A -> Session.State -> W -> Run W B) :
    Run W B :=
  match outcome r1 with
  | Some a =>
      let r2 := f a (session r1) (world r1) in
      mkRun (outcome r2) (session r2) (trace r1 ++ trace r2)%list (world r2)
  | None => mkRun None (session r1) (trace r1) (world r1)
  end.

Definition isCreate (ev : Event) : bool :=
  match ev with
  | Called (RepoCreate _ _ _ _ _) _ => true
  | _ => false
  end.

Definition isDelete (ev : Event) : bool :=
  match ev with
  | Called (RepoDelete _ _) _ => true
  | _ => false
  end.

(** [Update] or [UpdateFile]: the reconciliation of the worktree. *)
Definition isReconcile (ev : Event) : bool :=
  match ev with
  | Called (RepoUpdate _ _ _) _ => true
  | Called (RepoUpdateFile _ _ _ _) _ => true
  | _ => false
  end.

(** A call that changes a file or runs a command in the container. *)
Definition isMutation (ev : Event) : bool :=
  match ev with
  | Called (EnvRun _ _ _ _) _ => true
  | Called (EnvRunBackground _ _ _ _ _) _ => true
  | Called (EnvFileWrite _ _ _ _) _ => true
  | Called (EnvFileEdit _ _ _ _ _ _) _ => true
  | Called (EnvFileDelete _ _ _) _ => true
  | _ => false
  end.

(** The call came back with an error. *)
Definition cameBackWithError (ev : Event) : bool :=
  match ev with
  | Called c answer =>
      match c in extcall X return X -> bool with
      | EnvRun _ _ _ _ => fun a => isErr (snd a)
      | EnvRunBackground _ _ _ _ _ => fun a => isErr (snd a)
      | EnvFileWrite _ _ _ _ => fun a => isSome (snd a)
      | EnvFileEdit _ _ _ _ _ _ => fun a => isSome (snd a)
      | EnvFileDelete _ _ _ => fun a => isSome (snd a)
      | _ => fun _ => false
      end answer
  end.

(** What is left of the trace starts with a reconciliation. *)
Definition reconcileNext (rest : list Event) : bool :=
  match rest with
  | next :: _ => isReconcile next
  | [] => false
  end.

(** Every mutation in the trace is directly followed by [Update] or
    [UpdateFile], whatever the mutation returned. *)
Fixpoint alwaysReconciled (tr : list Event) : bool :=
  match tr with
  | [] => true
  | ev :: rest =>
      (if isMutation ev then reconcileNext rest else true) && alwaysReconciled rest
  end.

(** Every mutation that returned without error is directly followed by
    [Update] or [UpdateFile]; one that returned an error is the last call
    made. *)
Fixpoint reconciledOnSuccess (tr : list Event) : bool :=
  match tr with
  | [] => true
  | ev :: rest =>
      (if isMutation ev then
         if cameBackWithError ev then isNil rest else reconcileNext rest
       else true)
      && reconciledOnSuccess rest
  end.

(** Calls that only read or print. *)
Definition isReadOrPrint (ev : Event) : bool :=
  match ev with
  | Called (RepositoryOpen _) _ => true
  | Called (RepoList _) _ => true
  | Called (TparseParseNow _ _) _ => true
  | Called (TimeSince _) _ => true
  | Called TimeNow _ => true
  | Called (Print _) _ => true
  | _ => false
  end.

(** What the execution printed, in order. *)
Fixpoint printed (tr : list Event) : list string :=
  match tr with
  | [] => []
  | Called (Print text) _ :: rest => text :: printed rest
  | _ :: rest => printed rest
  end.

End Interface.

Declare Scope prog_scope.
Delimit Scope prog_scope with prog.

Notation "x <- p ;; q" := (bind p (fun x => q))
  (at level 100, p at next level, right associativity) : prog_scope.

(** [v, err := p; if err != nil { return nil, err }] *)
Notation "x <-? p ;; q" :=
  (bind p (fun r__ => match r__ with Ok x => q | Err e__ => Ret (Err e__) end))
  (at level 100, p at next level, right associativity) : prog_scope.

End Server.

(** ** The tool surface ([mcpserver/singletenant.go], from line 68) *)
Module McpServer.
Import Mcp Server.
#[local] Open Scope prog_scope.

Section Handlers.
Context `{Handles} `{!Library}.

(** The two values the handlers read from their [context.Context]; [None]
    when the key was never set. *)
Record Ctx : Type := mkCtx {
  singleTenantValue : option bool;
  daggerClientValue : option DaggerClient
}.

(** [singleTenant, _ := ctx.Value(singleTenantKey{}).(bool)] *)
Definition singleTenantOf (ctx : Ctx) : bool := default false (singleTenantValue ctx).

Definition ToolHandlerFunc : Type := Ctx -> Request -> Prog (result CallToolResult).

Record Tool : Type := mkServerTool {
  ToolDefinition : Mcp.Tool;
  Handler : ToolHandlerFunc
}.

Definition openRepository (ctx : Ctx) (request : Request) : Prog (result Repository) :=
  let singleTenant := singleTenantOf ctx in
  source <-? (if singleTenant then
                let source := GetString request "environment_source" "" in
                if String.eqb source "" then sess Session.GetSource
                else Ret (Ok source)
              else Ret (RequireString request "environment_source")) ;;
  r <- ext (RepositoryOpen source) ;;
  match r with
  | Err err => Ret (Err ("unable to open repository: " +:+ err))
  | Ok repo => Ret (Ok repo)
  end.

Definition openEnvironment (ctx : Ctx) (request : Request) :
    Prog (result (Repository * Environment)) :=
  repo <-? openRepository ctx request ;;
  let singleTenant := singleTenantOf ctx in
  envID <-? (if singleTenant then
               let envID := GetString request "environment_id" "" in
               if String.eqb envID "" then sess Session.GetID
               else Ret (Ok envID)
             else Ret (RequireString request "environment_id")) ;;
  match daggerClientValue ctx with
  | None => Ret (Err "dagger client not found in context")
  | Some dag =>
      r <- ext (RepoGet repo dag envID) ;;
      match r with
      | Err err => Ret (Err ("unable to get environment: " +:+ err))
      | Ok env => Ret (Ok (repo, env))
      end
  end.


(** *** Tool definitions (lines 1012-1061) *)

Definition explanationArgument : ToolOption := WithString "explanation" false.
Definition environmentSourceArgument : ToolOption := WithString "environment_source" true.
Definition environmentIDArgument : ToolOption := WithString "environment_id" true.

Definition newRepositoryTool (name description : string)
    (args : list ToolOption) : Mcp.Tool :=
  let opts := [WithDescription description; explanationArgument; environmentSourceArgument] in
  let opts := (opts ++ args)%list in
  NewTool name opts.

Record envToolOptions : Type := mkEnvToolOptions {
  name : string;
  description : string;
  useCurrentEnvironment : bool
}.

Definition newEnvironmentTool (toolOptions : envToolOptions)
    (mcpToolOptions : list ToolOption) : Mcp.Tool :=
  let opts := [WithDescription (description toolOptions); explanationArgument] in
  let opts :=
    if negb (useCurrentEnvironment toolOptions)
    then ((opts ++ [environmentSourceArgument]) ++ [environmentIDArgument])%list
    else opts in
  let opts := (opts ++ mcpToolOptions)%list in
  NewTool (name toolOptions) opts.

(** *** Responses

    Below, the [Handler] closure of each [create...Tool] has a name of its
    own, after its tool. *)

Definition environmentResponseFromEnvInfo (envInfo : EnvironmentInfo) : EnvironmentResponse :=
  mkResponse
    (ID envInfo)
    (Title (InfoState envInfo))
    (Config (InfoState envInfo))
    ("container-use/" +:+ ID envInfo)
    ("container-use checkout " +:+ ID envInfo)
    ("container-use log " +:+ ID envInfo)
    ("container-use diff " +:+ ID envInfo)
    [].

Definition environmentResponseFromEnv (env : Environment) : EnvironmentResponse :=
  let resp := environmentResponseFromEnvInfo (Info env) in
  mkResponse (RespID resp) (RespTitle resp) (RespConfig resp) (RemoteRef resp)
    (CheckoutCommand resp) (LogCommand resp) (DiffCommand resp) (Services env).

Definition marshalEnvironment (env : Environment) : result string :=
  match marshalResponse (environmentResponseFromEnv env) with
  | Err err => Err ("failed to marshal response: " +:+ err)
  | Ok out => Ok out
  end.

Definition marshalEnvironmentInfo (envInfo : EnvironmentInfo) : result string :=
  match marshalResponse (environmentResponseFromEnvInfo envInfo) with
  | Err err => Err ("failed to marshal response: " +:+ err)
  | Ok out => Ok out
  end.

Definition EnvironmentToCallResult (env : Environment) : result CallToolResult :=
  match marshalEnvironment env with
  | Err err => Err err
  | Ok out => Ok (NewToolResultText out)
  end.

Definition EnvironmentInfoToCallResult (envInfo : EnvironmentInfo) : result CallToolResult :=
  match marshalEnvironmentInfo envInfo with
  | Err err => Err err
  | Ok out => Ok (NewToolResultText out)
  end.

(** *** [environment_open] *)

Definition environmentOpenHandler : ToolHandlerFunc := fun ctx request =>
  x <-? openEnvironment ctx request ;;
  let env := snd x in
  _ <- (if singleTenantOf ctx then
          let source := valueOf (RequireString request "environment_source") in
          sess (Session.SetBoth (ID (Info env)) source)
        else Ret tt) ;;
  Ret (EnvironmentToCallResult env).

Definition createEnvironmentOpenTool : Tool :=
  mkServerTool
    (newEnvironmentTool
       (mkEnvToolOptions "environment_open"
          "Opens an existing environment. Return format is same as environment_create."
          false)
       [])
    environmentOpenHandler.

(** *** [environment_create] *)

Definition alreadyExists (currentEnvID : string) : error :=
  "environment_id " +:+ currentEnvID +:+
  " already exists for this session. Tools can be used directly. You can environment_open "
  +:+ currentEnvID +:+
  " for more information, or set allow_replace=true to destructively replace it".

Definition dirtyWarning (out source status : string) : string :=
  out +:+ nl +:+ nl +:+
  "CRITICAL: You MUST inform the user that the repository " +:+ source +:+
  " has uncommitted changes that are NOT included in this environment. The environment was created from the last committed state only."
  +:+ nl +:+ nl +:+
  "Uncommitted changes detected:" +:+ nl +:+
  status +:+ nl +:+ nl +:+
  "You MUST tell the user: To include these changes in the environment, they need to commit them first using git commands outside the environment.".

Definition environmentCreateHandler : ToolHandlerFunc := fun ctx request =>
  repo <-? openRepository ctx request ;;
  title <-? Ret (RequireString request "title") ;;
  let create : Prog (result CallToolResult) :=
    match daggerClientValue ctx with
    | None => Ret (Err "dagger client not found in context")
    | Some dag =>
        let gitRef := GetString request "from_git_ref" "HEAD" in
        r <- ext (RepoCreate repo dag title (GetString request "explanation" "") gitRef) ;;
        match r with
        | Err err => Ret (Err ("failed to create environment: " +:+ err))
        | Ok env =>
            _ <- (if singleTenantOf ctx then
                    let source := valueOf (RequireString request "environment_source") in
                    sess (Session.SetBoth (ID (Info env)) source)
                  else Ret tt) ;;
            match marshalEnvironment env with
            | Err err => Ret (Err ("failed to marshal environment: " +:+ err))
            | Ok out =>
                d <- ext (RepoIsDirty repo) ;;
                match d with
                | Err err => Ret (Err ("unable to check if environment is dirty: " +:+ err))
                | Ok (dirty, status) =>
                    if negb dirty then Ret (Ok (NewToolResultText out))
                    else Ret (Ok (NewToolResultText
                           (dirtyWarning out (GetString request "environment_source" "") status)))
                end
            end
        end
    end in
  if singleTenantOf ctx then
    let allowReplace := GetBool request "allow_replace" false in
    if negb allowReplace then
      c <- sess Session.GetID ;;
      match c with
      | Ok currentEnvID => Ret (Err (alreadyExists currentEnvID))
      | Err _ => create
      end
    else create
  else create.

Definition createEnvironmentCreateTool (singleTenant : bool) : Tool :=
  let args := [WithString "title" true; WithString "from_git_ref" false] in
  let args := if singleTenant then (args ++ [WithBoolean "allow_replace" false])%list else args in
  mkServerTool
    (newRepositoryTool "environment_create"
       ("Creates a new development environment." +:+ nl +:+
        "The environment is the result of a the setups commands on top of the base image."
        +:+ nl +:+
        "Environment configuration is managed by the user via cu config commands.")
       args)
    environmentCreateHandler.

(** *** [environment_update_metadata] *)

Definition environmentUpdateMetadataHandler : ToolHandlerFunc := fun ctx request =>
  x <-? openEnvironment ctx request ;;
  let repo := fst x in
  let env := snd x in
  let env :=
    let title := GetString request "title" "" in
    if negb (String.eqb title "") then setTitle env title else env in
  u <- ext (RepoUpdate repo env (GetString request "explanation" "")) ;;
  let env := fst u in
  match snd u with
  | Some err => Ret (Err ("unable to update the environment: " +:+ err))
  | None =>
      match marshalEnvironment env with
      | Err err => Ret (Err ("failed to marshal environment: " +:+ err))
      | Ok out =>
          Ret (Ok (NewToolResultText
                 ("Environment metadata updated successfully." +:+ nl +:+ out)))
      end
  end.

Definition createEnvironmentUpdateMetadataTool (singleTenant : bool) : Tool :=
  mkServerTool
    (newEnvironmentTool
       (mkEnvToolOptions "environment_update_metadata"
          "Update environment metadata such as title. This updates the descriptive information about what work is being done in the environment."
          singleTenant)
       [WithString "title" false])
    environmentUpdateMetadataHandler.

(** *** [environment_config] *)

(** [for i, v := range l { out[i] = v.(string) }]: [None] when an
    assertion panics. *)
Fixpoint assertStrings (l : list Value) : option (list string) :=
  match l with
  | [] => Some []
  | VString str :: rest =>
      match assertStrings rest with
      | Some strs => Some (str :: strs)
      | None => None
      end
  | _ :: _ => None
  end.

Definition notAString : string := "interface conversion: interface {} is not string".
Definition notAFloat : string := "interface conversion: interface {} is not float64".

Definition configMessage (envID out : string) : string :=
  "SUCCESS: Configuration successfully applied. Environment has been restarted, all previous commands have been lost."
  +:+ nl +:+
  "IMPORTANT: The configuration changes are LOCAL to this environment." +:+ nl +:+
  "TELL THE USER: To make these changes persistent, they will have to run "
  +:+ dquote +:+ "cu config import " +:+ envID +:+ dquote +:+ nl +:+ nl +:+
  out +:+ nl.

Definition environmentConfigHandler : ToolHandlerFunc := fun ctx request =>
  x <-? openEnvironment ctx request ;;
  let repo := fst x in
  let env := snd x in
  let updatedConfig := Copy (Config (InfoState (Info env))) in
  match request !! "config" with
  | Some (VObject newConfig) =>
      let updatedConfig :=
        match newConfig !! "base_image" with
        | Some (VString baseImage) =>
            mkConfig baseImage (SetupCommands updatedConfig) (Env updatedConfig)
              (Workdir updatedConfig)
        | _ => updatedConfig
        end in
      updatedConfig <-
        match newConfig !! "setup_commands" with
        | Some (VArray setupCommands) =>
            match assertStrings setupCommands with
            | Some commands =>
                Ret (mkConfig (BaseImage updatedConfig) commands (Env updatedConfig)
                       (Workdir updatedConfig))
            | None => Panic notAString
            end
        | _ => Ret updatedConfig
        end ;;
      updatedConfig <-
        match newConfig !! "envs" with
        | Some (VArray envs) =>
            match assertStrings envs with
            | Some envs =>
                Ret (mkConfig (BaseImage updatedConfig) (SetupCommands updatedConfig) envs
                       (Workdir updatedConfig))
            | None => Panic notAString
            end
        | _ => Ret updatedConfig
        end ;;
      c <- ext (EnvUpdateConfig env updatedConfig) ;;
      let env := fst c in
      match snd c with
      | Some err => Ret (Err ("unable to update the environment: " +:+ err))
      | None =>
          u <- ext (RepoUpdate repo env (GetString request "explanation" "")) ;;
          let env := fst u in
          match snd u with
          | Some err => Ret (Err ("failed to update repository: " +:+ err))
          | None =>
              match marshalEnvironment env with
              | Err err => Ret (Err ("failed to marshal environment: " +:+ err))
              | Ok out => Ret (Ok (NewToolResultText (configMessage (ID (Info env)) out)))
              end
          end
      end
  | _ => Ret (Err "invalid config")
  end.

Definition createEnvironmentConfigTool (singleTenant : bool) : Tool :=
  mkServerTool
    (newEnvironmentTool
       (mkEnvToolOptions "environment_config"
          ("Make environment config changes such as base image and setup commands." +:+
           "If the environment is missing any tools or instructions, you MUST call this function to update the environment." +:+
           "You MUST update the environment with any useful tools. You will be resumed with no other context than the information provided here")
          singleTenant)
       [WithObject "config" true])
    environmentConfigHandler.

(** *** [environment_list] *)

Definition environmentListHandler : ToolHandlerFunc := fun ctx request =>
  repo <-? openRepository ctx request ;;
  l <- ext (RepoList repo) ;;
  match l with
  | Err err => Ret (Err ("invalid source: " +:+ err))
  | Ok envInfos =>
      let responses := map environmentResponseFromEnvInfo envInfos in
      match marshalResponses responses with
      | Err err => Ret (Err err)
      | Ok out =>
          let result := out +:+ nl +:+ nl +:+
            "DO NOT change environments without explicit permission from the user" in
          Ret (Ok (NewToolResultText result))
      end
  end.

Definition createEnvironmentListTool (_ : bool) : Tool :=
  mkServerTool
    (newRepositoryTool "environment_list" "List available environments" [])
    environmentListHandler.

(** *** [environment_run_cmd] *)

(** [for _, port := range portList { ports = append(ports, int(port.(float64))) }]:
    [None] when an assertion panics. *)
Fixpoint portsOf (portList : list Value) : option (list Z) :=
  match portList with
  | [] => Some []
  | VNumber port :: rest =>
      match portsOf rest with
      | Some ports => Some (intOf intOutside port :: ports)
      | None => None
      end
  | _ :: _ => None
  end.

Definition parsePorts (request : Request) : Prog (list Z) :=
  match request !! "ports" with
  | Some (VArray portList) =>
      match portsOf portList with
      | Some ports => Ret ports
      | None => Panic notAFloat
      end
  | _ => Ret []
  end.

Definition backgroundMessage (out workdir envID : string) : string :=
  "Command started in the background in NEW container. Endpoints are " +:+ out
  +:+ nl +:+ nl +:+
  "To access from the user's machine: use host_external. To access from other commands in this environment: use environment_internal."
  +:+ nl +:+ nl +:+
  "Any changes to the container workdir (" +:+ workdir +:+
  ") WILL NOT be committed to container-use/" +:+ envID
  +:+ nl +:+ nl +:+
  "Background commands are unaffected by filesystem and any other kind of changes. You need to start a new command for changes to take effect.".

Definition environmentRunCmdHandler : ToolHandlerFunc := fun ctx request =>
  x <-? openEnvironment ctx request ;;
  let repo := fst x in
  let env := snd x in
  let command := GetString request "command" "" in
  let shell := GetString request "shell" "sh" in
  let updateRepo (env : Environment) : Prog (Environment * option error) :=
    u <- ext (RepoUpdate repo env (GetString request "explanation" "")) ;;
    match snd u with
    | Some err => Ret (fst u, Some ("failed to update repository: " +:+ err))
    | None => Ret (fst u, None)
    end in
  let background := GetBool request "background" false in
  if background then
    ports <- parsePorts request ;;
    b <- ext (EnvRunBackground env command shell ports
                (GetBool request "use_entrypoint" false)) ;;
    let env := fst b in
    let runResult := snd b in
    (* We want to update the repository even if the command failed. *)
    u <- updateRepo env ;;
    let env := fst u in
    match snd u with
    | Some err => Ret (Err err)
    | None =>
        match runResult with
        | Err runErr => Ret (Err ("failed to run command: " +:+ runErr))
        | Ok endpoints =>
            match marshalEndpoints endpoints with
            | Err err => Ret (Err err)
            | Ok out =>
                Ret (Ok (NewToolResultText
                       (backgroundMessage out (Workdir (Config (InfoState (Info env))))
                          (ID (Info env)))))
            end
        end
    end
  else
    b <- ext (EnvRun env command shell (GetBool request "use_entrypoint" false)) ;;
    let env := fst b in
    let runResult := snd b in
    (* We want to update the repository even if the command failed. *)
    u <- updateRepo env ;;
    let env := fst u in
    match snd u with
    | Some err => Ret (Err err)
    | None =>
        match runResult with
        | Err runErr => Ret (Err ("failed to run command: " +:+ runErr))
        | Ok stdout =>
            Ret (Ok (NewToolResultText
                   (stdout +:+ nl +:+ nl +:+ "Any changes to the container workdir (" +:+
                    Workdir (Config (InfoState (Info env))) +:+
                    ") have been committed and pushed to container-use/" +:+
                    ID (Info env) +:+ " remote ref")))
        end
    end.

Definition createEnvironmentRunCmdTool (singleTenant : bool) : Tool :=
  mkServerTool
    (newEnvironmentTool
       (mkEnvToolOptions "environment_run_cmd"
          "Run a terminal command inside a NEW container within the environment."
          singleTenant)
       [WithString "command" false; WithString "shell" false;
        WithBoolean "background" false; WithBoolean "use_entrypoint" false;
        WithArray "ports" false])
    environmentRunCmdHandler.

(** *** [environment_file_read], [environment_file_list] *)

Definition environmentFileReadHandler : ToolHandlerFunc := fun ctx request =>
  x <-? openEnvironment ctx request ;;
  let env := snd x in
  targetFile <-? Ret (RequireString request "target_file") ;;
  let shouldReadEntireFile := GetBool request "should_read_entire_file" false in
  let startLineOneIndexedInclusive := GetInt intOutside request "start_line_one_indexed_inclusive" 0 in
  let endLineOneIndexedInclusive := GetInt intOutside request "end_line_one_indexed_inclusive" 0 in
  f <- ext (EnvFileRead env targetFile shouldReadEntireFile
              startLineOneIndexedInclusive endLineOneIndexedInclusive) ;;
  match f with
  | Err err => Ret (Err ("failed to read file: " +:+ err))
  | Ok fileContents => Ret (Ok (NewToolResultText fileContents))
  end.

Definition createEnvironmentFileReadTool (singleTenant : bool) : Tool :=
  mkServerTool
    (newEnvironmentTool
       (mkEnvToolOptions "environment_file_read"
          "Read the contents of a file, specifying a line range or the entire file."
          singleTenant)
       [WithString "target_file" true; WithBoolean "should_read_entire_file" false;
        WithNumber "start_line_one_indexed_inclusive" false;
        WithNumber "end_line_one_indexed_inclusive" false])
    environmentFileReadHandler.

Definition environmentFileListHandler : ToolHandlerFunc := fun ctx request =>
  x <-? openEnvironment ctx request ;;
  let env := snd x in
  path <-? Ret (RequireString request "path") ;;
  f <- ext (EnvFileList env path) ;;
  match f with
  | Err err => Ret (Err ("failed to list directory: " +:+ err))
  | Ok out => Ret (Ok (NewToolResultText out))
  end.

Definition createEnvironmentFileListTool (singleTenant : bool) : Tool :=
  mkServerTool
    (newEnvironmentTool
       (mkEnvToolOptions "environment_file_list" "List the contents of a directory"
          singleTenant)
       [WithString "path" true])
    environmentFileListHandler.

(** *** [environment_file_edit], [environment_file_write], [environment_file_delete] *)

Definition environmentFileEditHandler : ToolHandlerFunc := fun ctx request =>
  o <- openEnvironment ctx request ;;
  match o with
  | Err err => Ret (Ok (NewToolResultErrorFromErr "unable to open the environment" err))
  | Ok x =>
      let repo := fst x in
      let env := snd x in
      targetFile <-? Ret (RequireString request "target_file") ;;
      search <-? Ret (RequireString request "search_text") ;;
      replace <-? Ret (RequireString request "replace_text") ;;
      e <- ext (EnvFileEdit env (GetString request "explanation" "") targetFile
                  search replace (GetString request "which_match" "")) ;;
      let env := fst e in
      match snd e with
      | Some err => Ret (Ok (NewToolResultErrorFromErr "failed to write file" err))
      | None =>
          u <- ext (RepoUpdateFile repo env targetFile (GetString request "explanation" "")) ;;
          let env := fst u in
          match snd u with
          | Some err =>
              Ret (Ok (NewToolResultErrorFromErr "unable to update the environment" err))
          | None =>
              Ret (Ok (NewToolResultText
                     ("file " +:+ targetFile +:+
                      " edited successfully and committed to container-use/" +:+
                      ID (Info env) +:+ " remote ref")))
          end
      end
  end.

Definition createEnvironmentFileEditTool (singleTenant : bool) : Tool :=
  mkServerTool
    (newEnvironmentTool
       (mkEnvToolOptions "environment_file_edit" "Find and replace text in a file."
          singleTenant)
       [WithString "target_file" true; WithString "search_text" true;
        WithString "replace_text" true; WithString "which_match" false])
    environmentFileEditHandler.

Definition environmentFileWriteHandler : ToolHandlerFunc := fun ctx request =>
  x <-? openEnvironment ctx request ;;
  let repo := fst x in
  let env := snd x in
  targetFile <-? Ret (RequireString request "target_file") ;;
  contents <-? Ret (RequireString request "contents") ;;
  f <- ext (EnvFileWrite env (GetString request "explanation" "") targetFile contents) ;;
  let env := fst f in
  match snd f with
  | Some err => Ret (Err ("failed to write file: " +:+ err))
  | None =>
      u <- ext (RepoUpdateFile repo env targetFile (GetString request "explanation" "")) ;;
      let env := fst u in
      match snd u with
      | Some err => Ret (Err ("unable to update the environment: " +:+ err))
      | None =>
          Ret (Ok (NewToolResultText
                 ("file " +:+ targetFile +:+
                  " written successfully and committed to container-use/" +:+
                  ID (Info env) +:+ " remote ref")))
      end
  end.

Definition createEnvironmentFileWriteTool (singleTenant : bool) : Tool :=
  mkServerTool
    (newEnvironmentTool
       (mkEnvToolOptions "environment_file_write" "Write the contents of a file."
          singleTenant)
       [WithString "target_file" true; WithString "contents" true])
    environmentFileWriteHandler.

Definition environmentFileDeleteHandler : ToolHandlerFunc := fun ctx request =>
  x <-? openEnvironment ctx request ;;
  let repo := fst x in
  let env := snd x in
  targetFile <-? Ret (RequireString request "target_file") ;;
  f <- ext (EnvFileDelete env (GetString request "explanation" "") targetFile) ;;
  let env := fst f in
  match snd f with
  | Some err => Ret (Err ("failed to delete file: " +:+ err))
  | None =>
      u <- ext (RepoUpdate repo env (GetString request "explanation" "")) ;;
      let env := fst u in
      match snd u with
      | Some err => Ret (Err ("failed to update env: " +:+ err))
      | None =>
          Ret (Ok (NewToolResultText
                 ("file " +:+ targetFile +:+
                  " deleted successfully and committed to container-use/" +:+
                  ID (Info env) +:+ " remote ref")))
      end
  end.

Definition createEnvironmentFileDeleteTool (singleTenant : bool) : Tool :=
  mkServerTool
    (newEnvironmentTool
       (mkEnvToolOptions "environment_file_delete" "Deletes a file at the specified path."
          singleTenant)
       [WithString "target_file" true])
    environmentFileDeleteHandler.

(** *** [environment_checkpoint], [environment_add_service] *)

Definition environmentCheckpointHandler : ToolHandlerFunc := fun ctx request =>
  x <-? openEnvironment ctx request ;;
  let env := snd x in
  destination <-? Ret (RequireString request "destination") ;;
  c <- ext (EnvCheckpoint env destination) ;;
  match c with
  | Err err => Ret (Err ("failed to checkpoint environment: " +:+ err))
  | Ok endpoint =>
      Ret (Ok (NewToolResultText
             ("Checkpoint pushed to " +:+ strconvQuote endpoint +:+
              ". You MUST use the full content addressed (@sha256:...) reference in `docker` commands. The entrypoint is set to `sh`, keep that in mind when giving commands to the container.")))
  end.

Definition createEnvironmentCheckpointTool (singleTenant : bool) : Tool :=
  mkServerTool
    (newEnvironmentTool
       (mkEnvToolOptions "environment_checkpoint"
          "Checkpoints an environment in its current state as a container." singleTenant)
       [WithString "destination" true])
    environmentCheckpointHandler.

Definition environmentAddServiceHandler : ToolHandlerFunc := fun ctx request =>
  x <-? openEnvironment ctx request ;;
  let repo := fst x in
  let env := snd x in
  serviceName <-? Ret (RequireString request "name") ;;
  image <-? Ret (RequireString request "image") ;;
  let command := GetString request "command" "" in
  ports <- parsePorts request ;;
  let envs := GetStringSlice request "envs" [] in
  a <- ext (EnvAddService env (GetString request "explanation" "")
              (mkServiceConfig serviceName image command ports envs)) ;;
  let env := fst a in
  match snd a with
  | Err err => Ret (Err ("failed to add service: " +:+ err))
  | Ok service =>
      u <- ext (RepoUpdate repo env (GetString request "explanation" "")) ;;
      match snd u with
      | Some err => Ret (Err ("failed to update env: " +:+ err))
      | None =>
          match marshalService service with
          | Err err => Ret (Err ("failed to marshal service: " +:+ err))
          | Ok output =>
              Ret (Ok (NewToolResultText
                     ("Service added and started successfully: " +:+ output)))
          end
      end
  end.

Definition createEnvironmentAddServiceTool (singleTenant : bool) : Tool :=
  mkServerTool
    (newEnvironmentTool
       (mkEnvToolOptions "environment_add_service"
          "Add a service to the environment (e.g. database, cache, etc.)" singleTenant)
       [WithString "name" true; WithString "image" true; WithString "command" false;
        WithArray "ports" false; WithArray "envs" false])
    environmentAddServiceHandler.

(** *** Registration *)

(** The two [slog.Info] lines around the call are not modelled. *)
Definition wrapTool (tool : Tool) : Tool :=
  mkServerTool (ToolDefinition tool)
    (fun ctx request =>
       r <- Handler tool ctx request ;;
       match r with
       | Err err => Ret (Ok (NewToolResultError err))
       | Ok response => Ret (Ok response)
       end).

Definition wrapToolWithClient (tool : Tool) (dag : DaggerClient) (singleTenant : bool) : Tool :=
  mkServerTool (ToolDefinition tool)
    (fun ctx request =>
       let ctx := mkCtx (singleTenantValue ctx) (Some dag) in
       let ctx := mkCtx (Some singleTenant) (daggerClientValue ctx) in
       Handler tool ctx request).

Definition createTools (singleTenant : bool) : list Tool :=
  [ wrapTool createEnvironmentOpenTool;
    wrapTool (createEnvironmentCreateTool singleTenant);
    wrapTool (createEnvironmentUpdateMetadataTool singleTenant);
    wrapTool (createEnvironmentConfigTool singleTenant);
    wrapTool (createEnvironmentListTool singleTenant);
    wrapTool (createEnvironmentRunCmdTool singleTenant);
    wrapTool (createEnvironmentFileReadTool singleTenant);
    wrapTool (createEnvironmentFileListTool singleTenant);
    wrapTool (createEnvironmentFileWriteTool singleTenant);
    wrapTool (createEnvironmentFileEditTool singleTenant);
    wrapTool (createEnvironmentFileDeleteTool singleTenant);
    wrapTool (createEnvironmentAddServiceTool singleTenant);
    wrapTool (createEnvironmentCheckpointTool singleTenant) ].

Definition Tools : list Tool := createTools false.



(** The tools [RunStdioServer] hands to [s.AddTool], in order. *)
Definition registeredTools (dag : DaggerClient) (singleTenant : bool) : list Tool :=
  map (fun t => wrapToolWithClient t dag singleTenant) (createTools singleTenant).

End Handlers.
End McpServer.

(** ** The command line ([cmd/container-use/main.go]) *)
Module Cli.
Import Mcp Server.
#[local] Open Scope prog_scope.

(** [calculateMaxTitleLength]: the subtraction is Go's, on [int]. *)
Definition calculateMaxTitleLength (terminalWidth : Z) : Z :=
  let avgEnvIDLength := 12 in
  let tabSeparator := 1 in
  let descSuffix := 11 in
  let avgTimeLength := 10 in
  let closeParen := 1 in
  let padding := 5 in
  let usedSpace :=
    avgEnvIDLength + tabSeparator + descSuffix + avgTimeLength + closeParen + padding in
  let maxTitleLength := wrapInt (terminalWidth - usedSpace) in
  if maxTitleLength <? 10 then 10
  else if maxTitleLength >? 100 then 100
  else maxTitleLength.

(** The spec's words: [terminalWidth] minus 40, clamped below at 10 and
    above at 100, over the integers. *)
Definition clampedTitleLength (terminalWidth : Z) : Z :=
  Z.max 10 (Z.min 100 (terminalWidth - 40)).

Section Prune.
Context `{Handles} `{!Library}.

(** [%d] *)
Definition decimal (n : Z) : string := NilZero.string_of_int (Z.to_int n).

Definition RFC3339 : string := "2006-01-02T15:04:05Z07:00".

(** [time.Hour], in nanoseconds. *)
Definition Hour : Z := 3600 * 1000000000.

(** The first loop of [RunE]: the IDs of the environments last updated
    before [cutoff], in the order [List] gave them. *)
Fixpoint olderThan (cutoff : Time) (envs : list EnvironmentInfo) : list string :=
  match envs with
  | [] => []
  | env :: rest =>
      if timeBefore (UpdatedAt (InfoState env)) cutoff
      then ID env :: olderThan cutoff rest
      else olderThan cutoff rest
  end.

(** The loop of the dry run. *)
Fixpoint printAll (envsToPrune : list string) : Prog unit :=
  match envsToPrune with
  | [] => Ret tt
  | envID :: rest =>
      _ <- ext (Print ("  - " +:+ envID +:+ nl)) ;;
      printAll rest
  end.

(** The deleting loop; it returns [deletedCount]. *)
Fixpoint deleteAll (repo : Repository) (envsToPrune : list string) (deletedCount : Z) :
    Prog Z :=
  match envsToPrune with
  | [] => Ret deletedCount
  | envID :: rest =>
      d <- ext (RepoDelete repo envID) ;;
      match d with
      | Some err =>
          _ <- ext (Print ("Failed to delete environment '" +:+ envID +:+ "': " +:+ err +:+ nl)) ;;
          deleteAll repo rest deletedCount
      | None =>
          _ <- ext (Print ("Environment '" +:+ envID +:+ "' deleted successfully." +:+ nl)) ;;
          deleteAll repo rest (wrapInt (deletedCount + 1))
      end
  end.

(** What a dry run prints once it has the list and the cutoff: the IDs to
    prune under a header, or that there are none. *)
Definition dryRunReport (duration : Z) (envsToPrune : list string) : list string :=
  if isNil envsToPrune then
    ["No environments older than " +:+ durationString duration +:+ " found." +:+ nl]
  else
    ("Would prune " +:+ decimal (Z.of_nat (length envsToPrune)) +:+
     " environment(s) older than " +:+ durationString duration +:+ ":" +:+ nl)
    :: map (fun envID => "  - " +:+ envID +:+ nl) envsToPrune.

Definition prints (texts : list string) : list Event :=
  map (fun text => Called (Print text) tt) texts.

(** [pruneCmd.RunE], given the values of the flags [--before] and
    [--dry-run]; it returns the command's error. *)
Definition pruneCmd (before : string) (dryRun : bool) : Prog (option error) :=
  r <- ext (RepositoryOpen ".") ;;
  match r with
  | Err err => Ret (Some ("failed to open repository: " +:+ err))
  | Ok repo =>
      d <- (if String.eqb before "" then Ret (Ok (7 * 24 * Hour))
            else
              t <- ext (TparseParseNow RFC3339 ("now-" +:+ before)) ;;
              match t with
              | Err err => Ret (Err ("invalid --before format: " +:+ err))
              | Ok targetTime =>
                  since <- ext (TimeSince targetTime) ;;
                  Ret (Ok since)
              end) ;;
      match d with
      | Err err => Ret (Some err)
      | Ok duration =>
          l <- ext (RepoList repo) ;;
          match l with
          | Err err => Ret (Some ("failed to list environments: " +:+ err))
          | Ok envs =>
              if (length envs =? 0)%nat then
                _ <- ext (Print ("No environments found." +:+ nl)) ;;
                Ret None
              else
                now <- ext TimeNow ;;
                let cutoff := timeAdd now (wrapInt (- duration)) in
                let envsToPrune := olderThan cutoff envs in
                if (length envsToPrune =? 0)%nat then
                  _ <- ext (Print ("No environments older than " +:+
                                   durationString duration +:+ " found." +:+ nl)) ;;
                  Ret None
                else if dryRun then
                  _ <- ext (Print ("Would prune " +:+
                                   decimal (Z.of_nat (length envsToPrune)) +:+
                                   " environment(s) older than " +:+
                                   durationString duration +:+ ":" +:+ nl)) ;;
                  _ <- printAll envsToPrune ;;
                  Ret None
                else
                  _ <- ext (Print ("Pruning " +:+
                                   decimal (Z.of_nat (length envsToPrune)) +:+
                                   " environment(s) older than " +:+
                                   durationString duration +:+ "..." +:+ nl)) ;;
                  deletedCount <- deleteAll repo envsToPrune 0 ;;
                  _ <- ext (Print ("Successfully deleted " +:+ decimal deletedCount +:+
                                   " environment(s)." +:+ nl)) ;;
                  Ret None
          end
      end
  end.

End Prune.
End Cli.

(** ** A small world to run the handlers in

    Every environment asked for exists, and four switches decide whether
    the repository can be opened, whether file operations fail, whether
    commands fail and whether the source tree is dirty. *)
Module Demo.
Import Mcp Server McpServer.

Definition handles : Handles :=
  {| Repository := string;
     DaggerClient := unit;
     Container := unit;
     Service := string;
     EndpointMappings := string;
     Time := Z |}.

#[local] Existing Instance handles.

Definition library : Library :=
  {| marshalResponse := fun r => Ok ("{id:" +:+ RespID r +:+ "}");
     marshalResponses := fun l => Ok (String.concat "," (map RespID l));
     marshalEndpoints := fun e => Ok e;
     marshalService := fun s => Ok s;
     strconvQuote := quoted;
     timeAdd := fun t d => t + d;
     timeBefore := fun t u => t <? u;
     durationString := fun d => Cli.decimal d +:+ "ns";
     intOutside := fun _ => minInt |}.

#[local] Existing Instance library.

Record World : Type := mkWorld {
  repositoryMissing : bool;
  filesFail : bool;
  commandsFail : bool;
  sourceDirty : bool
}.

Definition quiet : World := mkWorld false false false false.
Definition noRepository : World := mkWorld true false false false.
Definition readOnly : World := mkWorld false true false false.
Definition failing : World := mkWorld false false true false.
Definition dirty : World := mkWorld false false false true.

Definition environment (envID title : string) (updatedAt : Z) : Environment :=
  mkEnvironment
    (mkInfo envID
       (Environment.mkState title (mkConfig "ubuntu:24.04" [] [] "/workdir") updatedAt 0))
    [] tt.

Definition fileAnswer (env : Environment) (w : World) : Environment * option error :=
  (env, if filesFail w then Some "read-only file system" else None).

Definition oracle : Oracle World := fun X c =>
  match c in extcall X return World -> X * World with
  | RepositoryOpen source => fun w =>
      (if repositoryMissing w then Err "not a git repository" else Ok source, w)
  | RepoCreate _ _ title _ _ => fun w => (Ok (environment "fresh-env" title 0), w)
  | RepoGet _ _ envID => fun w => (Ok (environment envID "demo" 0), w)
  | RepoList _ => fun w =>
      (Ok [Info (environment "old-env" "old" 0); Info (environment "new-env" "new" 100)], w)
  | RepoDelete _ _ => fun w => (None, w)
  | RepoUpdate _ env _ => fun w => ((env, None), w)
  | RepoUpdateFile _ env _ _ => fun w => ((env, None), w)
  | RepoIsDirty _ => fun w =>
      (Ok (sourceDirty w, if sourceDirty w then " M main.go" else ""), w)
  | EnvRun env _ _ _ => fun w =>
      ((env, if commandsFail w then Err "exit status 1" else Ok "done"), w)
  | EnvRunBackground env _ _ _ _ => fun w =>
      ((env, if commandsFail w then Err "exit status 1" else Ok "{}"), w)
  | EnvFileRead _ _ _ _ _ => fun w => (Ok "contents", w)
  | EnvFileList _ _ => fun w => (Ok "listing", w)
  | EnvFileWrite env _ _ _ => fun w => (fileAnswer env w, w)
  | EnvFileEdit env _ _ _ _ _ => fun w => (fileAnswer env w, w)
  | EnvFileDelete env _ _ => fun w => (fileAnswer env w, w)
  | EnvUpdateConfig env _ => fun w => ((env, None), w)
  | EnvAddService env _ cfg => fun w => ((env, Ok (ServiceName cfg)), w)
  | EnvCheckpoint _ destination => fun w => (Ok destination, w)
  | TparseParseNow _ _ => fun w => (Ok 0, w)
  | TimeSince t => fun w => (1000 - t, w)
  | TimeNow => fun w => (50 + 7 * 24 * Cli.Hour, w)
  | Print _ => fun w => (tt, w)
  end.

Definition singleTenantCtx : Ctx := mkCtx (Some true) (Some tt).
Definition multiTenantCtx : Ctx := mkCtx (Some false) (Some tt).

(** A session that already has a current environment. *)
Definition busy : Session.State := Session.mkState "env-1" "/repo".

Definition createRequest : Request :=
  <["environment_source" := VString "/repo"]> (<["title" := VString "fix bug"]> ∅).

(** [environment_open] with a source and no [environment_id]. *)
Definition openRequest : Request := <["environment_source" := VString "/repo"]> ∅.

Definition writeRequest : Request :=
  <["environment_source" := VString "/repo"]>
    (<["environment_id" := VString "env-1"]>
       (<["target_file" := VString "a.txt"]> (<["contents" := VString "hello"]> ∅))).

End Demo.

(** ** What a trace shows

    Projections of a trace onto the calls of one kind. *)
Module Observe.
Import Mcp Server.

Section Observations.
Context `{Handles}.

Definition deletion (ev : Event) : option (Repository * string) :=
  match ev with
  | Called (RepoDelete repo envID) _ => Some (repo, envID)
  | _ => None
  end.

(** The repositories and IDs [Delete] was called with, oldest first. *)
Definition deleted (tr : list Event) : list (Repository * string) := omap deletion tr.

Definition deleteSucceeded (ev : Event) : bool :=
  match ev with
  | Called c answer =>
      match c in extcall X return X -> bool with
      | RepoDelete _ _ => fun a => negb (isSome a)
      | _ => fun _ => false
      end answer
  end.

(** How many [Delete] calls returned no error. *)
Definition successes (tr : list Event) : nat := length (List.filter deleteSucceeded tr).

(** What [prune] prints about one [Delete] call. *)
Definition deleteLine (ev : Event) : option string :=
  match ev with
  | Called c answer =>
      match c in extcall X return X -> option string with
      | RepoDelete _ envID => fun a =>
          match a with
          | Some err =>
              Some ("Failed to delete environment '" +:+ envID +:+ "': " +:+ err +:+ nl)
          | None => Some ("Environment '" +:+ envID +:+ "' deleted successfully." +:+ nl)
          end
      | _ => fun _ => None
      end answer
  end.

(** Calls that delete or print. *)
Definition deletesOrPrints (ev : Event) : bool :=
  isDelete ev || match ev with Called (Print _) _ => true | _ => false end.

Definition clockReading (ev : Event) : option Time :=
  match ev with
  | Called c answer =>
      match c in extcall X return X -> option Time with
      | TimeNow => fun now => Some now
      | _ => fun _ => None
      end answer
  end.

(** What [time.Now] returned, call after call. *)
Definition clockReadings (tr : list Event) : list Time := omap clockReading tr.

Definition createdEnv (ev : Event) : option Environment :=
  match ev with
  | Called c answer =>
      match c in extcall X return X -> option Environment with
      | RepoCreate _ _ _ _ _ => fun a => match a with Ok env => Some env | Err _ => None end
      | _ => fun _ => None
      end answer
  end.

(** The environments [Create] returned. *)
Definition created (tr : list Event) : list Environment := omap createdEnv tr.

Definition fetchedEnv (ev : Event) : option Environment :=
  match ev with
  | Called c answer =>
      match c in extcall X return X -> option Environment with
      | RepoGet _ _ _ => fun a => match a with Ok env => Some env | Err _ => None end
      | _ => fun _ => None
      end answer
  end.

(** The environments [Get] returned. *)
Definition fetched (tr : list Event) : list Environment := omap fetchedEnv tr.

Definition updateArgument (ev : Event) : option Environment :=
  match ev with
  | Called (RepoUpdate _ env _) _ => Some env
  | _ => None
  end.

(** The environments [Update] was called on. *)
Definition updated (tr : list Event) : list Environment := omap updateArgument tr.

Definition configArgument (ev : Event) : option EnvironmentConfig :=
  match ev with
  | Called (EnvUpdateConfig _ config) _ => Some config
  | _ => None
  end.

(** The configurations [UpdateConfig] was called with. *)
Definition configsApplied (tr : list Event) : list EnvironmentConfig :=
  omap configArgument tr.

(** Calls that only open the repository or read from it or from an
    environment. *)
Definition isRead (ev : Event) : bool :=
  match ev with
  | Called (RepositoryOpen _) _ => true
  | Called (RepoGet _ _ _) _ => true
  | Called (RepoList _) _ => true
  | Called (EnvFileRead _ _ _ _ _) _ => true
  | Called (EnvFileList _ _) _ => true
  | _ => false
  end.

Definition isAddService (ev : Event) : bool :=
  match ev with
  | Called (EnvAddService _ _ _) _ => true
  | _ => false
  end.

(** The execution opened the repository at [source] and, if that worked,
    asked it for the environment [envID], and made no other call. *)
Definition resolvedTo {W A} (r : Run W A) (source : string) (dag : DaggerClient)
    (envID : string) : Prop :=
  (exists err, trace r = [Called (RepositoryOpen source) (Err err)])
  \/ (exists repo answer,
        trace r = [Called (RepositoryOpen source) (Ok repo);
                   Called (RepoGet repo dag envID) answer]).

(** An accessor that only reads the session state. *)
Definition isGetter {X} (c : Session.call X) : bool :=
  match c with
  | Session.GetID | Session.GetSource => true
  | _ => false
  end.

(** The program calls no setter of the session state. *)
Fixpoint neverStores {A} (p : Prog A) : Prop :=
  match p with
  | Ret _ | Panic _ => True
  | Sess c k => isGetter c = true /\ forall x, neverStores (k x)
  | Ext _ k => forall x, neverStores (k x)
  end.

(** The program calls no accessor of the session state at all. *)
Fixpoint stateless {A} (p : Prog A) : Prop :=
  match p with
  | Ret _ | Panic _ => True
  | Sess _ _ => False
  | Ext _ k => forall x, stateless (k x)
  end.

(** The program does not panic, whatever the calls return. *)
Fixpoint neverPanics {A} (p : Prog A) : Prop :=
  match p with
  | Ret _ => True
  | Panic _ => False
  | Sess c k => forall x, neverPanics (k x)
  | Ext _ k => forall x, neverPanics (k x)
  end.

(** The input schema has a property [name]. *)
Definition hasProperty (t : Mcp.Tool) (name : string) : bool :=
  existsb (String.eqb name) (map fst (Properties t)).

End Observations.
End Observe.

(** ** Shell completion ([cmd/container-use/main.go], lines 55-62 and 98-132) *)
Module Completion.
Import Mcp Server Cli.
#[local] Open Scope prog_scope.

Section Suggest.
Context `{Handles}.

(** [humanize.RelTime a b "ago" "from now"] *)
Variable RelTime : Time -> Time -> string.

(** [humanize.Time]: the time relative to the clock's. *)
Definition humanizeTime (then_ : Time) : Prog string :=
  now <- ext TimeNow ;;
  Ret (RelTime then_ now).

(** [cobra.ShellCompDirectiveError] and [cobra.ShellCompDirectiveNoFileComp]. *)
Definition ShellCompDirectiveError : Z := 1.
Definition ShellCompDirectiveNoFileComp : Z := 4.

(** [cobra.CompletionWithDesc] *)
Definition CompletionWithDesc (choice description : string) : string :=
  choice +:+ String "009"%char EmptyString +:+ description.

(** [getTerminalWidth], given what [term.GetSize] returned. *)
Definition getTerminalWidth (size : result (Z * Z)) : Z :=
  match size with
  | Err _ =>
      (* Default to 120 columns if we can't detect terminal size *)
      120
  | Ok (width, _) => width
  end.

(** The string literal the loop appends, byte for byte as it stands in
    [main.go] at line 125: seven bytes, C3 A2 E2 82 AC C2 A6. *)
Definition ellipsis : string :=
  String "195"%char (String "162"%char (String "226"%char (String "130"%char
    (String "172"%char (String "194"%char (String "166"%char EmptyString)))))).

(** [len(s)], in bytes. *)
Definition len (s : string) : Z := Z.of_nat (String.length s).

(** [s[:n]]: [None] when the bounds check panics. *)
Definition sliceTo (s : string) (n : Z) : option string :=
  if (0 <=? n) && (n <=? len s) then Some (String.substring 0 (Z.to_nat n) s) else None.

(** The loop over [envs]; slicing out of range panics. *)
Fixpoint describeAll (maxTitleLength : Z) (envs : list EnvironmentInfo) :
    Prog (list string) :=
  match envs with
  | [] => Ret []
  | env :: rest =>
      let title := Title (InfoState env) in
      title <- (if len title >? maxTitleLength then
                  match sliceTo title maxTitleLength with
                  | Some head => Ret (head +:+ ellipsis)
                  | None => Panic "slice bounds out of range"
                  end
                else Ret title) ;;
      updated <- humanizeTime (UpdatedAt (InfoState env)) ;;
      let description := title +:+ " (updated " +:+ updated +:+ ")" in
      completions <- describeAll maxTitleLength rest ;;
      Ret (CompletionWithDesc (ID env) description :: completions)
  end.

(** The title as a completion shows it. *)
Definition shownTitle (maxTitleLength : Z) (title : string) : string :=
  if len title >? maxTitleLength
  then String.substring 0 (Z.to_nat maxTitleLength) title +:+ ellipsis
  else title.

(** The completion for [env] when the clock showed [now]. *)
Definition completionOf (maxTitleLength : Z) (env : EnvironmentInfo) (now : Time) : string :=
  CompletionWithDesc (ID env)
    (shownTitle maxTitleLength (Title (InfoState env)) +:+ " (updated " +:+
     RelTime (UpdatedAt (InfoState env)) now +:+ ")").

(** [suggestEnvironments], given what [term.GetSize] returns when asked; a
    [nil] slice is [None]. *)
Definition suggestEnvironments (size : result (Z * Z)) : Prog (option (list string) * Z) :=
  r <- ext (RepositoryOpen ".") ;;
  match r with
  | Err _ => Ret (None, ShellCompDirectiveError)
  | Ok repo =>
      l <- ext (RepoList repo) ;;
      match l with
      | Err _ => Ret (None, ShellCompDirectiveError)
      | Ok envs =>
          if (length envs =? 0)%nat then Ret (Some [], ShellCompDirectiveNoFileComp)
          else
            let terminalWidth := getTerminalWidth size in
            let maxTitleLength := calculateMaxTitleLength terminalWidth in
            completions <- describeAll maxTitleLength envs ;;
            Ret (Some completions, ShellCompDirectiveNoFileComp)
      end
  end.

End Suggest.
End Completion.

(** ** A world in which the source tree cannot be inspected

    As [Demo], except that [IsDirty] fails and [Delete] fails for the
    environment ["old-env"]; and some more requests. *)
Module Faulty.
Import Mcp Server McpServer.
#[local] Existing Instance Demo.handles.
#[local] Existing Instance Demo.library.

Definition oracle : Oracle Demo.World := fun X c =>
  match c in extcall X return Demo.World -> X * Demo.World with
  | RepoIsDirty _ => fun w => (Err "git status failed", w)
  | RepoDelete _ envID => fun w =>
      (if String.eqb envID "old-env" then Some "worktree is locked" else None, w)
  | c' => Demo.oracle _ c'
  end.

(** [environment_open] by ID alone. *)
Definition openByID : Request := <["environment_id" := VString "env-2"]> ∅.

(** [environment_create] over the current environment, without a source. *)
Definition replaceRequest : Request :=
  <["title" := VString "second try"]> (<["allow_replace" := VBool true]> ∅).

(** A call that names neither the environment nor its source. *)
Definition followUp : Request := <["target_file" := VString "a.txt"]> ∅.

(** [environment_file_write] without [contents]. *)
Definition noContents : Request :=
  <["environment_source" := VString "/repo"]>
    (<["environment_id" := VString "env-1"]> (<["target_file" := VString "a.txt"]> ∅)).

(** [environment_run_cmd] in the background, with ports 8080 and 8.5. *)
Definition serveRequest : Request :=
  <["environment_source" := VString "/repo"]>
    (<["environment_id" := VString "env-1"]>
       (<["command" := VString "serve"]>
          (<["background" := VBool true]>
             (<["ports" := VArray [VNumber (Qmake 8080 1); VNumber (Qmake 17 2)]]> ∅)))).

(** [environment_add_service] with an entry of [envs] that is not a string. *)
Definition serviceRequest : Request :=
  <["environment_source" := VString "/repo"]>
    (<["environment_id" := VString "env-1"]>
       (<["name" := VString "db"]>
          (<["image" := VString "postgres:16"]>
             (<["ports" := VArray [VNumber (Qmake 5432 1)]]>
                (<["envs" := VArray [VString "POSTGRES_DB=app"; VNumber (Qmake 3 1)]]> ∅))))).

End Faulty.

(** * Properties *)

(** ** Strings *)

Lemma append_assoc (a b c : string) : (a +:+ b) +:+ c = a +:+ b +:+ c.
Proof.
  induction a as [|ch a IH]; [reflexivity|].
  change (String ch ((a +:+ b) +:+ c) = String ch (a +:+ b +:+ c)).
  now rewrite IH.
Qed.

Lemma append_nil_r (a : string) : a +:+ "" = a.
Proof.
  induction a as [|ch a IH]; [reflexivity|].
  change (String ch (a +:+ "") = String ch a). now rewrite IH.
Qed.

Lemma contains_suffix (pre sub : string) : contains (pre +:+ sub) sub.
Proof. exists pre, "". now rewrite append_nil_r. Qed.

Lemma contains_prefix (sub post : string) : contains (sub +:+ post) sub.
Proof. exists "", post. reflexivity. Qed.

Lemma contains_after (pre s sub : string) : contains s sub -> contains (pre +:+ s) sub.
Proof.
  intros (p & q & ->). exists (pre +:+ p), q. now rewrite append_assoc.
Qed.

Lemma hasPrefix_append (sub post : string) : hasPrefix (sub +:+ post) sub = true.
Proof.
  induction sub as [|ch sub IH]; [reflexivity|].
  change (Ascii.eqb ch ch && hasPrefix (sub +:+ post) sub = true).
  now rewrite Ascii.eqb_refl, IH.
Qed.

Lemma containsb_here (s sub : string) : hasPrefix s sub = true -> containsb s sub = true.
Proof. intros Hp. destruct s; cbn; rewrite Hp; reflexivity. Qed.

(** The test finds every occurrence. *)
Lemma contains_containsb (s sub : string) : contains s sub -> containsb s sub = true.
Proof.
  intros (pre & post & ->). induction pre as [|ch pre IH].
  - change (containsb (sub +:+ post) sub = true).
    apply containsb_here, hasPrefix_append.
  - change (containsb (String ch (pre +:+ sub +:+ post)) sub = true).
    cbn. rewrite IH. apply orb_true_r.
Qed.

(** ** Session state *)
Section SessionFacts.
Import Session.

Lemma after_ID (h : list anyCall) (st : State) :
  currentEnvironmentID (after h st) = lastStoredID h (currentEnvironmentID st).
Proof.
  revert st. induction h as [|[X c] h IH]; intros st; [reflexivity|].
  cbn [after]. rewrite IH. destruct c; reflexivity.
Qed.

Lemma after_Source (h : list anyCall) (st : State) :
  currentEnvironmentSource (after h st) = lastStoredSource h (currentEnvironmentSource st).
Proof.
  revert st. induction h as [|[X c] h IH]; intros st; [reflexivity|].
  cbn [after]. rewrite IH. destruct c; reflexivity.
Qed.

(** C5. After any interleaving of setter and getter calls, started from any
    state, [getCurrentEnvironmentID] returns the error exactly when the last
    ID stored is the empty string and otherwise returns that ID; the same
    for [getCurrentEnvironmentSource] and the last source stored.  Getter
    calls inside the interleaving change nothing. *)
Theorem getters_follow_last_store (h : list anyCall) (st : State) :
  let lastID := lastStoredID h (currentEnvironmentID st) in
  let lastSource := lastStoredSource h (currentEnvironmentSource st) in
  getCurrentEnvironmentID (after h st)
    = (if String.eqb lastID "" then Err noCurrentEnvironment else Ok lastID)
  /\ getCurrentEnvironmentSource (after h st)
    = (if String.eqb lastSource "" then Err noCurrentEnvironment else Ok lastSource)
  /\ (isErr (getCurrentEnvironmentID (after h st)) = true <-> lastID = "")
  /\ (isErr (getCurrentEnvironmentSource (after h st)) = true <-> lastSource = "")
  /\ after (h ++ [Any GetID]) st = after h st
  /\ after (h ++ [Any GetSource]) st = after h st
  /\ fst (step GetID (after h st)) = getCurrentEnvironmentID (after h st)
  /\ fst (step GetSource (after h st)) = getCurrentEnvironmentSource (after h st).
Proof.
  cbn zeta. unfold getCurrentEnvironmentID, getCurrentEnvironmentSource.
  rewrite after_ID, after_Source.
  assert (Happ : forall c : anyCall, after (h ++ [c]) st = after [c] (after h st)).
  { intros c. clear. revert st. induction h as [|[X d] h IH]; intros st; [reflexivity|].
    cbn [app after]. apply IH. }
  assert (Hempty : forall s : string,
            isErr (if String.eqb s "" then Err noCurrentEnvironment else Ok s) = true
            <-> s = "").
  { intros s. destruct (String.eqb_spec s ""); cbn; split; congruence. }
  split; [reflexivity|]. split; [reflexivity|].
  split; [apply Hempty|]. split; [apply Hempty|].
  rewrite !Happ. cbn. unfold getCurrentEnvironmentID, getCurrentEnvironmentSource.
  rewrite after_ID, after_Source. repeat split.
Qed.

End SessionFacts.

(** ** Terminal width *)
Section TitleLength.
Import Mcp Cli.

Lemma wrapInt_id (z : Z) : minInt <= z <= maxInt -> wrapInt z = z.
Proof.
  unfold wrapInt, minInt, maxInt. intros Hz.
  rewrite Z.mod_small by lia. lia.
Qed.

(** C9, amended.  For every [terminalWidth] the result is at least 10 and
    at most 100, and for every [int] from [minInt + 40] on, where
    [terminalWidth - 40] does not overflow, it is [terminalWidth - 40]
    clamped below at 10 and above at 100. *)
Theorem calculateMaxTitleLength_clamps (terminalWidth : Z) :
  10 <= calculateMaxTitleLength terminalWidth <= 100
  /\ (minInt + 40 <= terminalWidth <= maxInt ->
      calculateMaxTitleLength terminalWidth = clampedTitleLength terminalWidth).
Proof.
  unfold calculateMaxTitleLength, clampedTitleLength. cbn zeta.
  replace (12 + 1 + 11 + 10 + 1 + 5) with 40 by reflexivity.
  split.
  - destruct (Z.ltb_spec (wrapInt (terminalWidth - 40)) 10); [lia|].
    destruct (Z.gtb_spec (wrapInt (terminalWidth - 40)) 100); lia.
  - intros Hrange. rewrite wrapInt_id by (unfold minInt, maxInt in *; lia).
    destruct (Z.ltb_spec (terminalWidth - 40) 10); [lia|].
    destruct (Z.gtb_spec (terminalWidth - 40) 100); lia.
Qed.

(** A terminal 120 columns wide leaves 80 for the title. *)
Lemma calculateMaxTitleLength_clamps_witness :
  calculateMaxTitleLength 120 = clampedTitleLength 120
  /\ clampedTitleLength 120 = 80.
Proof.
  split; [|reflexivity].
  apply (proj2 (calculateMaxTitleLength_clamps 120)).
  unfold minInt, maxInt. lia.
Defined.

(** C9 as stated fails at the smallest [int]: the subtraction wraps around
    to a large positive number and the result is 100, where
    [terminalWidth - 40] clamped is 10. *)
Lemma calculateMaxTitleLength_overflow :
  minInt = -9223372036854775808
  /\ calculateMaxTitleLength (-9223372036854775808) = 100
  /\ clampedTitleLength (-9223372036854775808) = 10
  /\ calculateMaxTitleLength (-9223372036854775808)
     <> clampedTitleLength (-9223372036854775808).
Proof. repeat split; try (vm_compute; congruence). Qed.

End TitleLength.
(** ** Executions *)
Section RunFacts.
Import Server.
Context `{Handles}.

Lemma andThen_emit {W A B} (ev : Event) (r : Run W A)
    (f : A -> Session.State -> W -> Run W B) :
  andThen (emit ev r) f = emit ev (andThen r f).
Proof. destruct r as [[a|] st tr w]; reflexivity. Qed.

(** Running [bind p f] is running [p], then [f] on what it returned. *)
Lemma run_bind {W A B} (o : Oracle W) (p : Prog A) (f : A -> Prog B) st w :
  run o (bind p f) st w = andThen (run o p st w) (fun a => run o (f a)).
Proof.
  revert st w. induction p as [a|msg|X c k IH|X c k IH]; intros st w; cbn.
  - unfold andThen; cbn. destruct (run o (f a) st w); reflexivity.
  - reflexivity.
  - apply IH.
  - rewrite IH. symmetry. apply andThen_emit.
Qed.

End RunFacts.

(** ** Responses and wrappers *)
Section Wrappers.
Import Environment Mcp Server McpServer.
Context `{Handles} `{!Library}.

(** C7. The response built from an [EnvironmentInfo] with id [I], title
    [T] and config [C] has id [I], title [T], config [C], remote_ref
    "container-use/" followed by [I], and the checkout, log and diff
    commands "container-use checkout I", "container-use log I" and
    "container-use diff I", each of which contains [I]. *)
Theorem environment_response_fields (I T : string) (C : EnvironmentConfig)
    (updated created : Time) :
  let resp :=
    environmentResponseFromEnvInfo (mkInfo I (Environment.mkState T C updated created)) in
  RespID resp = I
  /\ RespTitle resp = T
  /\ RespConfig resp = C
  /\ RemoteRef resp = "container-use/" +:+ I
  /\ CheckoutCommand resp = "container-use checkout " +:+ I
  /\ LogCommand resp = "container-use log " +:+ I
  /\ DiffCommand resp = "container-use diff " +:+ I
  /\ contains (CheckoutCommand resp) I
  /\ contains (LogCommand resp) I
  /\ contains (DiffCommand resp) I.
Proof.
  cbn. repeat split; apply contains_suffix.
Qed.

(** C8. The handler [wrapTool] builds never returns a Go error: when the
    inner handler returns the error [e], it returns the error result
    carrying [e]'s message; when the inner handler returns a result, it
    returns that result; it makes the same calls and leaves the same
    session state.  Every tool of [createTools] is such a wrapper, and no
    handler registered by [RunStdioServer] ever returns a Go error. *)
Theorem wrapTool_returns_no_error W (o : Oracle W) (tool : Tool) ctx request st w :
  let inner := run o (Handler tool ctx request) st w in
  let wrapped := run o (Handler (wrapTool tool) ctx request) st w in
  (forall e, outcome wrapped <> Some (Err e))
  /\ (forall e, outcome inner = Some (Err e) ->
        outcome wrapped = Some (Ok (NewToolResultError e)))
  /\ (forall response, outcome inner = Some (Ok response) ->
        outcome wrapped = Some (Ok response))
  /\ session wrapped = session inner
  /\ trace wrapped = trace inner
  /\ (forall singleTenant t, In t (createTools singleTenant) ->
        exists inner, t = wrapTool inner)
  /\ (forall dag singleTenant t, In t (registeredTools dag singleTenant) ->
        forall ctx' request' st' w' e,
          outcome (run o (Handler t ctx' request') st' w') <> Some (Err e)).
Proof.
  assert (Hwrap : forall (t : Tool) c rq s0 w0,
            let i := run o (Handler t c rq) s0 w0 in
            let r := run o (Handler (wrapTool t) c rq) s0 w0 in
            outcome r = match outcome i with
                        | Some (Ok response) => Some (Ok response)
                        | Some (Err e) => Some (Ok (NewToolResultError e))
                        | None => None
                        end
            /\ session r = session i /\ trace r = trace i).
  { intros t c rq s0 w0. cbn. rewrite run_bind. unfold andThen.
    destruct (run o (Handler t c rq) s0 w0) as [[[response|e]|] s1 tr w1]; cbn;
      rewrite ?app_nil_r; auto. }
  assert (Hcreated : forall singleTenant t, In t (createTools singleTenant) ->
            exists inner, t = wrapTool inner).
  { intros singleTenant t Hin. unfold createTools in Hin. cbn in Hin.
    repeat (destruct Hin as [<-|Hin]; [eexists; reflexivity|]). destruct Hin. }
  cbn zeta. destruct (Hwrap tool ctx request st w) as (Hout & Hsess & Htrace).
  split; [|split; [|split; [|split; [|split; [|split]]]]].
  - intros e. rewrite Hout. destruct (outcome (run o (Handler tool ctx request) st w)) as [[?|?]|]; discriminate.
  - intros e He. rewrite Hout, He. reflexivity.
  - intros response Hr. rewrite Hout, Hr. reflexivity.
  - exact Hsess.
  - exact Htrace.
  - exact Hcreated.
  - intros dag singleTenant t Hin ctx' request' st' w' e.
    unfold registeredTools in Hin. apply in_map_iff in Hin as (t0 & <- & Hin0).
    destruct (Hcreated _ _ Hin0) as (inner & ->).
    cbn [wrapToolWithClient Handler].
    destruct (Hwrap inner (mkCtx (Some singleTenant) (Some dag)) request' st' w') as (Hout' & _).
    cbn in Hout'. cbn. rewrite Hout'.
    destruct (outcome (run o (Handler inner _ request') st' w')) as [[?|?]|]; discriminate.
Qed.

End Wrappers.

(** ** The prune command *)
Section PruneFacts.
Import Environment Mcp Server Cli.
Context `{Handles} `{!Library}.

Lemma run_printAll W (o : Oracle W) (ids : list string) st w :
  exists w', run o (printAll ids) st w
             = mkRun (Some tt) st (prints (map (fun envID => "  - " +:+ envID +:+ nl) ids)) w'.
Proof.
  revert w. induction ids as [|envID ids IH]; intros w; cbn.
  - eexists; reflexivity.
  - destruct (o unit (Print ("  - " +:+ envID +:+ nl)) w) as [[] w1]. cbn.
    destruct (IH w1) as (w' & ->). eexists; reflexivity.
Qed.

Lemma olderThan_spec (cutoff : Time) (envs : list EnvironmentInfo) (envID : string) :
  In envID (olderThan cutoff envs) <->
  exists env, In env envs /\ ID env = envID
              /\ timeBefore (UpdatedAt (InfoState env)) cutoff = true.
Proof.
  induction envs as [|env envs IH]; cbn.
  - split; [tauto | intros (? & [] & _)].
  - destruct (timeBefore (UpdatedAt (InfoState env)) cutoff) eqn:Hb; cbn; rewrite IH.
    + split.
      * intros [<-|(e & ? & ? & ?)]; eauto 6.
      * intros (e & [<-|?] & ? & ?); eauto 6.
    + split.
      * intros (e & ? & ? & ?); eauto 6.
      * intros (e & [<-|?] & <- & ?); [congruence | eauto 6].
Qed.

Lemma printed_prints (texts : list string) : printed (prints texts) = texts.
Proof. induction texts as [|t texts IH]; cbn; [reflexivity | f_equal; exact IH]. Qed.

Lemma prints_read_or_print (texts : list string) :
  forallb isReadOrPrint (prints texts) = true.
Proof. induction texts as [|t texts IH]; cbn; [reflexivity | exact IH]. Qed.

Lemma read_or_print_no_delete (tr : list Event) :
  forallb isReadOrPrint tr = true -> forallb (fun ev => negb (isDelete ev)) tr = true.
Proof.
  induction tr as [|[X c a] tr IH]; cbn; [reflexivity|].
  intros [Hc Ht]%andb_prop. rewrite (IH Ht), andb_true_r.
  destruct c; cbn in *; congruence.
Qed.

(** Case analysis on the answer to the next call. *)
Ltac ask o :=
  match goal with
  | |- context [o ?X ?c ?w] =>
      is_var w; destruct (o X c w) as [? ?]; cbn [fst snd];
      repeat match goal with u : unit |- _ => destruct u end
  end.

(** The dry run from [RepoList] on; [before] are the calls made so far. *)
Ltac from_list o before duration :=
  cbn; ask o;
  match goal with
  | l : result (list EnvironmentInfo) |- _ => destruct l as [?envs|?err]
  end;
  [|cbn; split; [reflexivity|split; [reflexivity|left; eauto]]];
  match goal with
  | envs : list EnvironmentInfo, repo : Repository, st : Session.State |- _ =>
      cbn; destruct (length envs =? 0)%nat; cbn;
      [ask o; cbn; split; [reflexivity|split; [reflexivity|right; left; auto]]|];
      ask o; cbn;
      match goal with
      | now : Time |- _ =>
          let Hids := fresh "Hids" in
          destruct (olderThan (timeAdd now (wrapInt (- duration))) envs)
            as [|?envID ?ids] eqn:Hids; cbn;
          [ ask o; cbn; split; [reflexivity|split; [reflexivity|]]; right; right;
            exists repo, envs, now, duration, before;
            rewrite Hids; cbn; repeat split; auto; try tauto
          | ask o; cbn; ask o; cbn; rewrite run_bind;
            match goal with
            | |- context [run o (printAll ?ids) st ?w5] =>
                let w6 := fresh "w" in
                destruct (run_printAll _ o ids st w5) as (w6 & ->);
                cbn; rewrite app_nil_r;
                split; [apply (prints_read_or_print (map _ ids))|]
            end;
            split; [reflexivity|]; right; right;
            exists repo, envs, now, duration, before;
            rewrite Hids; cbn; repeat split; auto; try tauto ]
      end
  end.

(** C10. With [--dry-run] the prune command never calls [Delete]: it only
    opens the repository, reads the clock and the list of environments and
    prints; it returns; and once it has the list and the cutoff, what it
    prints is exactly the IDs of the environments last updated before the
    cutoff, under a header (or that there are none). *)
Theorem prune_dry_run_deletes_nothing W (o : Oracle W) (before : string) st w :
  let r := run o (pruneCmd before true) st w in
  forallb (fun ev => negb (isDelete ev)) (trace r) = true
  /\ forallb isReadOrPrint (trace r) = true
  /\ session r = st
  /\ ((exists err, outcome r = Some (Some err) /\ printed (trace r) = [])
      \/ (outcome r = Some None /\ printed (trace r) = ["No environments found." +:+ nl])
      \/ (exists repo envs now duration pre,
            let cutoff := timeAdd now (wrapInt (- duration)) in
            trace r = (pre ++ Called (RepoList repo) (Ok envs) :: Called TimeNow now
                         :: prints (dryRunReport duration (olderThan cutoff envs)))%list
            /\ printed (trace r) = dryRunReport duration (olderThan cutoff envs)
            /\ (before = "" -> duration = 7 * 24 * Hour)
            /\ outcome r = Some None)).
Proof.
  cbn zeta. set (r := run o (pruneCmd before true) st w).
  enough (Hmain : forallb isReadOrPrint (trace r) = true
          /\ session r = st
          /\ ((exists err, outcome r = Some (Some err) /\ printed (trace r) = [])
              \/ (outcome r = Some None
                  /\ printed (trace r) = ["No environments found." +:+ nl])
              \/ (exists repo envs now duration pre,
                    trace r
                    = (pre ++ Called (RepoList repo) (Ok envs) :: Called TimeNow now
                          :: prints (dryRunReport duration
                                       (olderThan (timeAdd now (wrapInt (- duration))) envs)))%list
                    /\ printed pre = []
                    /\ forallb isReadOrPrint pre = true
                    /\ (before = "" -> duration = 7 * 24 * Hour)
                    /\ outcome r = Some None))).
  { destruct Hmain as (Hr & Hs & Hcases).
    split; [now apply read_or_print_no_delete|]. split; [exact Hr|]. split; [exact Hs|].
    destruct Hcases as [Hc|[Hc|(repo & envs & now & duration & pre & Htr & Hpre & _ & Hd & Hout)]];
      [left; exact Hc | right; left; exact Hc|].
    right; right. exists repo, envs, now, duration, pre.
    split; [exact Htr|]. split; [|auto].
    rewrite Htr. clear -Hpre. induction pre as [|[X c a] pre IH]; cbn in *.
    - apply printed_prints.
    - destruct c; try (apply IH; exact Hpre); discriminate. }
  subst r. unfold pruneCmd, ext. cbn. ask o.
  match goal with r : result Repository |- _ => destruct r as [repo|err] end;
    [|cbn; split; [reflexivity|split; [reflexivity|left; eauto]]].
  cbn. destruct (String.eqb_spec before "") as [Hb|Hb].
  - from_list o [Called (RepositoryOpen ".") (Ok repo)] (7 * 24 * Hour).
  - cbn. ask o.
    match goal with r : result Time |- _ => destruct r as [targetTime|err] end;
      [|cbn; split; [reflexivity|split; [reflexivity|left; eauto]]].
    cbn. ask o.
    match goal with since : Z |- _ =>
      from_list o [Called (RepositoryOpen ".") (Ok repo);
                   Called (TparseParseNow RFC3339 ("now-" +:+ before)) (Ok targetTime);
                   Called (TimeSince targetTime) since] since
    end.
Qed.

End PruneFacts.

(** ** Tool handlers *)

#[local] Arguments Mcp.GetString : simpl never.
#[local] Arguments Mcp.RequireString : simpl never.
#[local] Arguments Mcp.GetBool : simpl never.
#[local] Arguments String.eqb : simpl never.
#[local] Arguments McpServer.marshalEnvironment : simpl never.
#[local] Arguments McpServer.alreadyExists : simpl never.
#[local] Arguments McpServer.dirtyWarning : simpl never.
#[local] Arguments McpServer.openEnvironment : simpl never.
#[local] Arguments Session.getCurrentEnvironmentID : simpl never.
#[local] Arguments Session.getCurrentEnvironmentSource : simpl never.

(** Case analysis on whatever blocks the evaluation of the goal. *)
Ltac split_scrutinee :=
  match goal with
  | |- context [match ?x with _ => _ end] =>
      lazymatch x with
      | fst ?p => destruct p eqn:?
      | snd ?p => destruct p eqn:?
      | _ => destruct x eqn:?
      end
  | |- context [fst ?p] => destruct p eqn:?
  | |- context [snd ?p] => destruct p eqn:?
  end.

Ltac explore := repeat (cbn; try split_scrutinee).


Section HandlerFacts.
Import Environment Mcp Server McpServer.
Context `{Handles} `{!Library}.

Lemma valueOf_RequireString (request : Request) (key : string) :
  valueOf (RequireString request key) = GetString request key "".
Proof.
  unfold RequireString, GetString.
  destruct (request !! key) as [[]|]; reflexivity.
Qed.

Lemma contains_alreadyExists (currentEnvID : string) :
  contains (alreadyExists currentEnvID) currentEnvID.
Proof. unfold alreadyExists. apply contains_after, contains_prefix. Qed.

(** C1, amended.  [environment_create] in single-tenant mode.  When a
    current environment ID is set and [allow_replace] is absent or false,
    the handler fails, [Create] is not called and the session state is
    left as it was; once the repository has opened and the title has been
    read, the error is the one that names the existing ID.  When
    [allow_replace] is true or no current ID is set, the handler goes on
    to call [Create], and on success the session state holds the new
    environment's ID and the call's [environment_source]. *)
Theorem create_respects_allow_replace W (o : Oracle W) ctx request st w :
  singleTenantOf ctx = true ->
  let r := run o (environmentCreateHandler ctx request) st w in
  let current := Session.currentEnvironmentID st in
  (current <> "" -> GetBool request "allow_replace" false = false ->
     (exists e, outcome r = Some (Err e))
     /\ forallb (fun ev => negb (isCreate ev)) (trace r) = true
     /\ session r = st
     /\ (forall repo title,
           outcome (run o (openRepository ctx request) st w) = Some (Ok repo) ->
           RequireString request "title" = Ok title ->
           outcome r = Some (Err (alreadyExists current))
           /\ contains (alreadyExists current) current))
  /\ (current = "" \/ GetBool request "allow_replace" false = true ->
      (forall repo title dag,
          outcome (run o (openRepository ctx request) st w) = Some (Ok repo) ->
          RequireString request "title" = Ok title ->
          daggerClientValue ctx = Some dag ->
          exists answer,
            In (Called (RepoCreate repo dag title (GetString request "explanation" "")
                          (GetString request "from_git_ref" "HEAD")) answer)
               (trace r))
      /\ (forall response, outcome r = Some (Ok response) ->
          exists repo dag title explanation gitRef env,
            In (Called (RepoCreate repo dag title explanation gitRef) (Ok env)) (trace r)
            /\ session r
               = Session.mkState (ID (Info env)) (GetString request "environment_source" ""))).
Proof.
  intros Hsingle. cbn zeta.
  unfold environmentCreateHandler, openRepository, sess, ext.
  rewrite Hsingle, valueOf_RequireString.
  split.
  - intros Hcur Hallow. rewrite Hallow.
    assert (Hget : Session.getCurrentEnvironmentID st = Ok (Session.currentEnvironmentID st)).
    { unfold Session.getCurrentEnvironmentID. apply String.eqb_neq in Hcur. now rewrite Hcur. }
    explore.
    all: repeat split; intros; simplify_eq; eauto using contains_alreadyExists; try congruence.
  - intros Hcase.
    assert (Hget : Session.getCurrentEnvironmentID st = Err Session.noCurrentEnvironment
                   \/ GetBool request "allow_replace" false = true).
    { destruct Hcase as [Hcur|Hallow]; [left|now right].
      unfold Session.getCurrentEnvironmentID. now rewrite Hcur. }
    clear Hcase. split.
    + intros repo title dag. destruct Hget as [Hget|Hallow]; [|rewrite Hallow]; explore.
      all: intros; simplify_eq; try congruence.
      all: eexists; cbn; eauto.
    + intros response. destruct Hget as [Hget|Hallow]; [|rewrite Hallow]; explore.
      all: intros; simplify_eq; try congruence.
      all: do 6 eexists; cbn; split; [eauto|reflexivity].
Qed.
Lemma contains_dirtyWarning (out source status : string) :
  contains (dirtyWarning out source status) out
  /\ contains (dirtyWarning out source status) status.
Proof.
  unfold dirtyWarning. split; [apply contains_prefix|].
  do 10 apply contains_after. apply contains_prefix.
Qed.

(** C6. When [environment_create] succeeds, its last two calls are
    [Create], which returned the new environment, and [IsDirty] on the
    source repository.  If [IsDirty] reported no uncommitted changes the
    result text is exactly the marshaled environment response; if it
    reported some, the text contains the marshaled response and a warning
    that includes the status [IsDirty] returned. *)
Theorem create_result_text W (o : Oracle W) ctx request st w response :
  let r := run o (environmentCreateHandler ctx request) st w in
  outcome r = Some (Ok response) ->
  exists pre repo dag title explanation gitRef env out dirty status,
    trace r = (pre ++ [Called (RepoCreate repo dag title explanation gitRef) (Ok env);
                       Called (RepoIsDirty repo) (Ok (dirty, status))])%list
    /\ marshalEnvironment env = Ok out
    /\ IsError response = false
    /\ (dirty = false -> Text response = out)
    /\ (dirty = true ->
          Text response
          = dirtyWarning out (GetString request "environment_source" "") status
          /\ contains (Text response) out
          /\ contains (Text response) status).
Proof.
  cbn zeta. unfold environmentCreateHandler, openRepository, sess, ext.
  explore.
  all: intros; simplify_eq.
  all: eexists [_]; do 9 eexists; cbn.
  all: split; [reflexivity|]; split; [eassumption|]; split; [reflexivity|].
  all: split; intros; simplify_eq; try reflexivity.
  all: split; [reflexivity|apply contains_dirtyWarning].
Qed.



Lemma getID_set (st : Session.State) :
  Session.currentEnvironmentID st <> "" ->
  Session.getCurrentEnvironmentID st = Ok (Session.currentEnvironmentID st).
Proof.
  intros Hne%String.eqb_neq. unfold Session.getCurrentEnvironmentID. now rewrite Hne.
Qed.

Lemma getSource_set (st : Session.State) :
  Session.currentEnvironmentSource st <> "" ->
  Session.getCurrentEnvironmentSource st = Ok (Session.currentEnvironmentSource st).
Proof.
  intros Hne%String.eqb_neq. unfold Session.getCurrentEnvironmentSource. now rewrite Hne.
Qed.


Lemma getSource_unset (st : Session.State) :
  Session.currentEnvironmentSource st = "" ->
  Session.getCurrentEnvironmentSource st = Err Session.noCurrentEnvironment.
Proof. intros Heq. unfold Session.getCurrentEnvironmentSource. now rewrite Heq. Qed.

Create HintDb handlers discriminated.
#[local] Hint Unfold environmentOpenHandler environmentUpdateMetadataHandler
  environmentConfigHandler environmentRunCmdHandler environmentFileReadHandler
  environmentFileListHandler environmentFileWriteHandler environmentFileEditHandler
  environmentFileDeleteHandler environmentAddServiceHandler
  environmentCheckpointHandler : handlers.






(** C2, amended.  [environment_run_cmd] calls [Update] directly after
    [Run] or [RunBackground], whether or not the command returned an
    error; once the environment is open it always gets that far unless
    the ports make it panic.  [environment_file_write] and
    [environment_file_edit] call [UpdateFile], and
    [environment_file_delete] calls [Update], directly after a file
    operation that succeeded; when the file operation returned an error it
    is the last call they make.  Call by call: a handler whose environment
    does not open, or which lacks a required argument, makes no further
    call and fails; otherwise [environment_run_cmd] makes exactly the two
    calls [Run] (or [RunBackground]) on the environment and [Update] on
    the repository and the environment the first returned, and reports
    [Update]'s error before the command's; each file tool calls its file
    operation, returns its error when it failed without any further call
    ([environment_file_edit] as an error result), and otherwise calls
    [UpdateFile] for that file ([Update] after a deletion) on the
    environment the file operation returned, and nothing else. *)
Theorem reconcile_after_mutation W (o : Oracle W) ctx request st w :
  (let cmd := run o (environmentRunCmdHandler ctx request) st w in
    alwaysReconciled (trace cmd) = true
    /\ (forall x, outcome (run o (openEnvironment ctx request) st w) = Some (Ok x) ->
        outcome cmd <> None ->
        existsb isMutation (trace cmd) = true /\ existsb isReconcile (trace cmd) = true)
    /\ reconciledOnSuccess (trace (run o (environmentFileWriteHandler ctx request) st w)) = true
    /\ reconciledOnSuccess (trace (run o (environmentFileEditHandler ctx request) st w)) = true
    /\ reconciledOnSuccess (trace (run o (environmentFileDeleteHandler ctx request) st w)) = true)
  /\
  (let op := run o (openEnvironment ctx request) st w in
    let cmd := run o (environmentRunCmdHandler ctx request) st w in
    let written := run o (environmentFileWriteHandler ctx request) st w in
    let edited := run o (environmentFileEditHandler ctx request) st w in
    let removed := run o (environmentFileDeleteHandler ctx request) st w in
    let explanation := GetString request "explanation" "" in
    let command := GetString request "command" "" in
    let shell := GetString request "shell" "sh" in
    let useEntrypoint := GetBool request "use_entrypoint" false in
    let committed (verb targetFile : string) (env : Environment) :=
      NewToolResultText
        ("file " +:+ targetFile +:+ " " +:+ verb +:+
         " successfully and committed to container-use/" +:+ ID (Info env) +:+ " remote ref") in
    (forall e, outcome op = Some (Err e) ->
       trace cmd = trace op /\ trace written = trace op
       /\ trace edited = trace op /\ trace removed = trace op
       /\ outcome cmd = Some (Err e) /\ outcome written = Some (Err e)
       /\ outcome removed = Some (Err e)
       /\ outcome edited
          = Some (Ok (NewToolResultErrorFromErr "unable to open the environment" e)))
    /\ (forall repo env, outcome op = Some (Ok (repo, env)) ->
        (GetBool request "background" false = false ->
           exists env1 runResult env2 updateError,
             trace cmd
             = (trace op ++ [Called (EnvRun env command shell useEntrypoint) (env1, runResult);
                             Called (RepoUpdate repo env1 explanation) (env2, updateError)])%list
             /\ outcome cmd
                = Some (match updateError, runResult with
                        | Some err, _ => Err ("failed to update repository: " +:+ err)
                        | None, Err runErr => Err ("failed to run command: " +:+ runErr)
                        | None, Ok stdout =>
                            Ok (NewToolResultText
                                  (stdout +:+ nl +:+ nl +:+
                                   "Any changes to the container workdir (" +:+
                                   Workdir (Config (InfoState (Info env2))) +:+
                                   ") have been committed and pushed to container-use/" +:+
                                   ID (Info env2) +:+ " remote ref"))
                        end))
        /\ (GetBool request "background" false = true ->
            (outcome cmd = None /\ trace cmd = trace op
             /\ exists portList,
                  request !! "ports" = Some (VArray portList) /\ portsOf portList = None)
            \/ exists ports env1 runResult env2 updateError,
                 trace cmd
                 = (trace op ++
                    [Called (EnvRunBackground env command shell ports useEntrypoint)
                       (env1, runResult);
                     Called (RepoUpdate repo env1 explanation) (env2, updateError)])%list
                 /\ (forall portList, request !! "ports" = Some (VArray portList) ->
                       portsOf portList = Some ports)
                 /\ ((forall portList, request !! "ports" <> Some (VArray portList)) ->
                     ports = [])
                 /\ outcome cmd
                    = Some (match updateError, runResult with
                            | Some err, _ => Err ("failed to update repository: " +:+ err)
                            | None, Err runErr => Err ("failed to run command: " +:+ runErr)
                            | None, Ok endpoints =>
                                match marshalEndpoints endpoints with
                                | Err err => Err err
                                | Ok out =>
                                    Ok (NewToolResultText
                                          (backgroundMessage out
                                             (Workdir (Config (InfoState (Info env2))))
                                             (ID (Info env2))))
                                end
                            end))
        /\ (isErr (RequireString request "target_file")
            || isErr (RequireString request "contents") = true ->
            trace written = trace op /\ exists e, outcome written = Some (Err e))
        /\ (forall targetFile contents,
              RequireString request "target_file" = Ok targetFile ->
              RequireString request "contents" = Ok contents ->
              exists env1 failure after,
                trace written
                = (trace op ++
                   Called (EnvFileWrite env explanation targetFile contents) (env1, failure)
                   :: after)%list
                /\ match failure with
                   | Some err =>
                       after = []
                       /\ outcome written = Some (Err ("failed to write file: " +:+ err))
                   | None =>
                       exists env2 updateError,
                         after = [Called (RepoUpdateFile repo env1 targetFile explanation)
                                    (env2, updateError)]
                         /\ outcome written
                            = Some (match updateError with
                                    | Some err =>
                                        Err ("unable to update the environment: " +:+ err)
                                    | None => Ok (committed "written" targetFile env2)
                                    end)
                   end)
        /\ (isErr (RequireString request "target_file")
            || isErr (RequireString request "search_text")
            || isErr (RequireString request "replace_text") = true ->
            trace edited = trace op /\ exists e, outcome edited = Some (Err e))
        /\ (forall targetFile search replace,
              RequireString request "target_file" = Ok targetFile ->
              RequireString request "search_text" = Ok search ->
              RequireString request "replace_text" = Ok replace ->
              exists env1 failure after,
                trace edited
                = (trace op ++
                   Called (EnvFileEdit env explanation targetFile search replace
                             (GetString request "which_match" ""))
                     (env1, failure)
                   :: after)%list
                /\ match failure with
                   | Some err =>
                       after = []
                       /\ outcome edited
                          = Some (Ok (NewToolResultErrorFromErr "failed to write file" err))
                   | None =>
                       exists env2 updateError,
                         after = [Called (RepoUpdateFile repo env1 targetFile explanation)
                                    (env2, updateError)]
                         /\ outcome edited
                            = Some (Ok (match updateError with
                                        | Some err =>
                                            NewToolResultErrorFromErr
                                              "unable to update the environment" err
                                        | None => committed "edited" targetFile env2
                                        end))
                   end)
        /\ (isErr (RequireString request "target_file") = true ->
            trace removed = trace op /\ exists e, outcome removed = Some (Err e))
        /\ (forall targetFile,
              RequireString request "target_file" = Ok targetFile ->
              exists env1 failure after,
                trace removed
                = (trace op ++
                   Called (EnvFileDelete env explanation targetFile) (env1, failure)
                   :: after)%list
                /\ match failure with
                   | Some err =>
                       after = []
                       /\ outcome removed = Some (Err ("failed to delete file: " +:+ err))
                   | None =>
                       exists env2 updateError,
                         after = [Called (RepoUpdate repo env1 explanation)
                                    (env2, updateError)]
                         /\ outcome removed
                            = Some (match updateError with
                                    | Some err => Err ("failed to update env: " +:+ err)
                                    | None => Ok (committed "deleted" targetFile env2)
                                    end)
                   end))).
Proof.
  split.
  {
  cbn zeta.
  unfold environmentRunCmdHandler, environmentFileWriteHandler, environmentFileEditHandler,
    environmentFileDeleteHandler, parsePorts, openEnvironment, openRepository, sess, ext.
  split; [|split; [|split; [|split]]].
  - explore; first [reflexivity | cbn in *; congruence].
  - intros x. explore; intros; simplify_eq; try congruence; auto.
  - explore; first [reflexivity | cbn in *; congruence].
  - explore; first [reflexivity | cbn in *; congruence].
  - explore; first [reflexivity | cbn in *; congruence].
  }
  cbn zeta.
  unfold environmentRunCmdHandler, environmentFileWriteHandler, environmentFileEditHandler,
    environmentFileDeleteHandler, parsePorts, ext.
  rewrite !run_bind.
  destruct (run o (openEnvironment ctx request) st w) as [out s tr w1].
  unfold andThen. cbn [outcome session trace world].
  split.
  - intros e ->. cbn. rewrite !app_nil_r. repeat split.
  - intros repo env ->. cbn [fst snd].
    repeat apply conj.
    + intros ->. explore.
      all: do 4 eexists; split; reflexivity.
    + intros ->.
      destruct (request !! "ports") as [[| | | |portList|]|] eqn:Hports;
        [| | | |destruct (portsOf portList) as [ports|] eqn:Hp| |].
      6: { left. cbn. rewrite app_nil_r. eauto. }
      all: right; explore.
      all: do 5 eexists; split; [reflexivity|];
           split; [intros ? [= <-]; try assumption|];
           split; [first [reflexivity | intros Hno; now destruct (Hno portList)]|].
      all: repeat match goal with Hm : marshalEndpoints _ = _ |- _ => rewrite Hm end;
           reflexivity.
    + destruct (RequireString request "target_file"); cbn;
        [destruct (RequireString request "contents"); cbn|];
        try discriminate; intros _; rewrite app_nil_r; eauto.
    + intros targetFile contents -> ->. explore.
      all: repeat first [reflexivity | split | eexists | progress cbn].
    + destruct (RequireString request "target_file"); cbn;
        [destruct (RequireString request "search_text"); cbn;
         [destruct (RequireString request "replace_text"); cbn| ]|];
        try discriminate; intros _; rewrite app_nil_r; eauto.
    + intros targetFile search replace -> -> ->. explore.
      all: repeat first [reflexivity | split | eexists | progress cbn].
    + destruct (RequireString request "target_file"); cbn;
        try discriminate; intros _; rewrite app_nil_r; eauto.
    + intros targetFile ->. explore.
      all: repeat first [reflexivity | split | eexists | progress cbn].
Qed.

End HandlerFacts.

(** ** The properties at work in the small world *)
Section Instances.
Import Environment Mcp Server McpServer Cli.
#[local] Existing Instance Demo.handles.
#[local] Existing Instance Demo.library.

(** The scenario of [TestSingleTenantEnvironmentStorage]. *)
Example storage_test :
  let h := [Session.Any (Session.SetID "test-env-id");
            Session.Any (Session.SetSource "/test/source/path")] in
  Session.getCurrentEnvironmentID (Session.after h Session.initial) = Ok "test-env-id"
  /\ Session.getCurrentEnvironmentSource (Session.after h Session.initial)
     = Ok "/test/source/path"
  /\ Session.getCurrentEnvironmentID
       (Session.after (h ++ [Session.Any (Session.SetBoth "new-env-id" "/new/source/path")])
          Session.initial) = Ok "new-env-id"
  /\ isErr (Session.getCurrentEnvironmentID
              (Session.after (h ++ [Session.Any (Session.SetBoth "" "")]) Session.initial))
     = true.
Proof. repeat split. Qed.

(** Without [--dry-run] the same command does delete. *)
Example prune_deletes :
  existsb isDelete (trace (run Demo.oracle (pruneCmd "" false) Session.initial Demo.quiet))
  = true.
Proof. vm_compute. reflexivity. Qed.

(** C1 as stated fails when the repository cannot be opened: the handler
    fails before it looks at the session state, with an error that does
    not name the current environment. *)
Lemma create_fails_before_guard :
  singleTenantOf Demo.singleTenantCtx = true
  /\ Session.currentEnvironmentID Demo.busy = "env-1"
  /\ GetBool Demo.createRequest "allow_replace" false = false
  /\ outcome (run Demo.oracle (environmentCreateHandler Demo.singleTenantCtx Demo.createRequest)
                Demo.busy Demo.noRepository)
     = Some (Err "unable to open repository: not a git repository")
  /\ ~ contains "unable to open repository: not a git repository" "env-1".
Proof.
  repeat split; try (vm_compute; reflexivity).
  intros Hc%contains_containsb. vm_compute in Hc. discriminate.
Qed.

(** A second [environment_create] in a busy session is refused and names
    the existing environment; with [allow_replace] it replaces it. *)
Lemma create_respects_allow_replace_witness :
  outcome (run Demo.oracle (environmentCreateHandler Demo.singleTenantCtx Demo.createRequest)
             Demo.busy Demo.quiet)
  = Some (Err (alreadyExists "env-1"))
  /\ exists repo dag title explanation gitRef env,
       In (Called (RepoCreate repo dag title explanation gitRef) (Ok env))
          (trace (run Demo.oracle
                    (environmentCreateHandler Demo.singleTenantCtx
                       (<["allow_replace" := VBool true]> Demo.createRequest))
                    Demo.busy Demo.quiet))
       /\ session (run Demo.oracle
                     (environmentCreateHandler Demo.singleTenantCtx
                        (<["allow_replace" := VBool true]> Demo.createRequest))
                     Demo.busy Demo.quiet)
          = Session.mkState (ID (Info env)) "/repo".
Proof.
  split.
  - destruct (create_respects_allow_replace Demo.World Demo.oracle Demo.singleTenantCtx
                Demo.createRequest Demo.busy Demo.quiet eq_refl) as [Hguard _].
    destruct Hguard as (_ & _ & _ & Hreach); [discriminate | reflexivity |].
    apply (Hreach "/repo" "fix bug"); reflexivity.
  - destruct (create_respects_allow_replace Demo.World Demo.oracle Demo.singleTenantCtx
                (<["allow_replace" := VBool true]> Demo.createRequest)
                Demo.busy Demo.quiet eq_refl) as [_ Hreplace].
    destruct Hreplace as [_ Hset]; [right; reflexivity|].
    apply (Hset (NewToolResultText "{id:fresh-env}")). vm_compute. reflexivity.
Defined.

(** C2 as stated fails for [environment_file_write]: when [FileWrite]
    returns an error the handler returns it, and neither [UpdateFile] nor
    [Update] is called. *)
Lemma file_write_failure_not_reconciled :
  existsb cameBackWithError
    (trace (run Demo.oracle (environmentFileWriteHandler Demo.multiTenantCtx Demo.writeRequest)
              Session.initial Demo.readOnly)) = true
  /\ existsb isReconcile
       (trace (run Demo.oracle (environmentFileWriteHandler Demo.multiTenantCtx Demo.writeRequest)
                 Session.initial Demo.readOnly)) = false
  /\ alwaysReconciled
       (trace (run Demo.oracle (environmentFileWriteHandler Demo.multiTenantCtx Demo.writeRequest)
                 Session.initial Demo.readOnly)) = false
  /\ outcome (run Demo.oracle (environmentFileWriteHandler Demo.multiTenantCtx Demo.writeRequest)
                Session.initial Demo.readOnly)
     = Some (Err "failed to write file: read-only file system").
Proof. vm_compute. repeat split. Qed.

(** A command that fails is still followed by [Update]. *)
Lemma reconcile_after_mutation_witness :
  existsb cameBackWithError
    (trace (run Demo.oracle (environmentRunCmdHandler Demo.multiTenantCtx Demo.writeRequest)
              Session.initial Demo.failing)) = true
  /\ alwaysReconciled
       (trace (run Demo.oracle (environmentRunCmdHandler Demo.multiTenantCtx Demo.writeRequest)
                 Session.initial Demo.failing)) = true
  /\ existsb isMutation
       (trace (run Demo.oracle (environmentRunCmdHandler Demo.multiTenantCtx Demo.writeRequest)
                 Session.initial Demo.failing)) = true
  /\ existsb isReconcile
       (trace (run Demo.oracle (environmentRunCmdHandler Demo.multiTenantCtx Demo.writeRequest)
                 Session.initial Demo.failing)) = true
  /\ exists env1 runResult env2 updateError,
       trace (run Demo.oracle (environmentRunCmdHandler Demo.multiTenantCtx Demo.writeRequest)
                Session.initial Demo.failing)
       = (trace (run Demo.oracle (openEnvironment Demo.multiTenantCtx Demo.writeRequest)
                   Session.initial Demo.failing)
          ++ [Called (EnvRun (Demo.environment "env-1" "demo" 0) "" "sh" false)
                (env1, runResult);
              Called (RepoUpdate "/repo" env1 "") (env2, updateError)])%list.
Proof.
  split; [vm_compute; reflexivity|].
  destruct (proj1 (reconcile_after_mutation Demo.World Demo.oracle Demo.multiTenantCtx
              Demo.writeRequest Session.initial Demo.failing))
    as (Hall & Hreached & _).
  split; [exact Hall|].
  destruct (proj2 (reconcile_after_mutation Demo.World Demo.oracle Demo.multiTenantCtx
                     Demo.writeRequest Session.initial Demo.failing)) as (_ & Hopen).
  destruct (Hopen "/repo" (Demo.environment "env-1" "demo" 0)) as (Hforeground & _);
    [vm_compute; reflexivity|].
  destruct (Hforeground eq_refl) as (env1 & runResult & env2 & updateError & Htrace & _).
  split; [|split].
  - apply (Hreached ("/repo", Demo.environment "env-1" "demo" 0)).
    + vm_compute. reflexivity.
    + vm_compute. discriminate.
  - apply (Hreached ("/repo", Demo.environment "env-1" "demo" 0)).
    + vm_compute. reflexivity.
    + vm_compute. discriminate.
  - exists env1, runResult, env2, updateError. exact Htrace.
Defined.





(** With a dirty source tree the result carries the response and the
    status. *)
Lemma create_result_text_witness :
  exists pre repo dag title explanation gitRef env out dirty status,
    trace (run Demo.oracle (environmentCreateHandler Demo.singleTenantCtx Demo.createRequest)
             Session.initial Demo.dirty)
    = (pre ++ [Called (RepoCreate repo dag title explanation gitRef) (Ok env);
               Called (RepoIsDirty repo) (Ok (dirty, status))])%list
    /\ marshalEnvironment env = Ok out
    /\ IsError (NewToolResultText (dirtyWarning "{id:fresh-env}" "/repo" " M main.go")) = false
    /\ (dirty = false ->
        Text (NewToolResultText (dirtyWarning "{id:fresh-env}" "/repo" " M main.go")) = out)
    /\ (dirty = true ->
        Text (NewToolResultText (dirtyWarning "{id:fresh-env}" "/repo" " M main.go"))
        = dirtyWarning out (GetString Demo.createRequest "environment_source" "") status
        /\ contains
             (Text (NewToolResultText (dirtyWarning "{id:fresh-env}" "/repo" " M main.go")))
             out
        /\ contains
             (Text (NewToolResultText (dirtyWarning "{id:fresh-env}" "/repo" " M main.go")))
             status).
Proof.
  apply (create_result_text Demo.World Demo.oracle Demo.singleTenantCtx Demo.createRequest
           Session.initial Demo.dirty).
  vm_compute. reflexivity.
Defined.

(** A failed write reaches the client as an error result, not as an
    error. *)
Lemma wrapTool_returns_no_error_witness :
  outcome (run Demo.oracle
             (Handler (wrapTool (createEnvironmentFileWriteTool false))
                Demo.multiTenantCtx Demo.writeRequest)
             Session.initial Demo.readOnly)
  = Some (Ok (NewToolResultError "failed to write file: read-only file system")).
Proof.
  destruct (wrapTool_returns_no_error Demo.World Demo.oracle
              (createEnvironmentFileWriteTool false) Demo.multiTenantCtx Demo.writeRequest
              Session.initial Demo.readOnly) as (_ & Herr & _).
  apply Herr. vm_compute. reflexivity.
Defined.

(** The dry run over two environments, one of them a week old. *)
Lemma prune_dry_run_deletes_nothing_witness :
  forallb (fun ev => negb (isDelete ev))
    (trace (run Demo.oracle (pruneCmd "" true) Session.initial Demo.quiet)) = true
  /\ printed (trace (run Demo.oracle (pruneCmd "" true) Session.initial Demo.quiet))
     = ["Would prune 1 environment(s) older than 604800000000000ns:" +:+ nl;
        "  - old-env" +:+ nl].
Proof.
  split.
  - exact (proj1 (prune_dry_run_deletes_nothing Demo.World Demo.oracle ""
                    Session.initial Demo.quiet)).
  - vm_compute. reflexivity.
Defined.

End Instances.

(** * Further properties

    ** The prune command, without [--dry-run] *)

Ltac answer o :=
  match goal with
  | |- context [o ?X ?c ?w] =>
      is_var w; destruct (o X c w) as [? ?]; cbn [fst snd];
      repeat match goal with u : unit |- _ => destruct u end
  end.

Section PruneRun.
Import Environment Mcp Server Cli Observe.
Context `{Handles} `{!Library}.

Lemma wrapInt_add (a b : Z) : wrapInt (wrapInt a + b) = wrapInt (a + b).
Proof.
  unfold wrapInt.
  replace ((a + 2 ^ 63) mod 2 ^ 64 - 2 ^ 63 + b + 2 ^ 63)
    with ((a + 2 ^ 63) mod 2 ^ 64 + b) by lia.
  rewrite Z.add_mod_idemp_l by lia. do 2 f_equal. lia.
Qed.

Lemma wrapInt_idem (a : Z) : wrapInt (wrapInt a) = wrapInt a.
Proof. pose proof (wrapInt_add a 0) as E. rewrite !Z.add_0_r in E. exact E. Qed.

Lemma deleted_app (tr1 tr2 : list Event) :
  deleted (tr1 ++ tr2) = (deleted tr1 ++ deleted tr2)%list.
Proof. unfold deleted. apply omap_app. Qed.

Lemma successes_app (tr1 tr2 : list Event) :
  successes (tr1 ++ tr2) = (successes tr1 + successes tr2)%nat.
Proof. unfold successes. rewrite List.filter_app, length_app. reflexivity. Qed.

Lemma printed_app (tr1 tr2 : list Event) :
  printed (tr1 ++ tr2) = (printed tr1 ++ printed tr2)%list.
Proof.
  induction tr1 as [|[X c a] tr1 IH]; [reflexivity|].
  destruct c; cbn; rewrite ?IH; reflexivity.
Qed.

(** The deleting loop: one [Delete] per ID, in order, each followed by
    the line that reports it; the count it returns is the number of calls
    that returned no error, as a Go [int]. *)
Lemma run_deleteAll W (o : Oracle W) repo (ids : list string) (n : Z) st w :
  wrapInt n = n ->
  let r := run o (deleteAll repo ids n) st w in
  outcome r = Some (wrapInt (n + Z.of_nat (successes (trace r))))
  /\ session r = st
  /\ deleted (trace r) = map (pair repo) ids
  /\ printed (trace r) = omap deleteLine (trace r)
  /\ forallb deletesOrPrints (trace r) = true.
Proof.
  cbn zeta. revert n w.
  induction ids as [|envID rest IH]; intros n w Hn.
  - cbn. rewrite Z.add_0_r, Hn. repeat split.
  - cbn. answer o.
    match goal with d : option error |- _ => destruct d as [err|] end; cbn; answer o.
    + pose proof (IH n w1 Hn) as IH'.
      destruct (run o (deleteAll repo rest n) st w1) as [out s tr w'].
      cbn in IH' |- *. destruct IH' as (Ho & Hs & Hd & Hp & Hf).
      rewrite Ho, Hs, Hd, Hp, Hf. repeat split.
    + assert (Hn' : wrapInt (wrapInt (n + 1)) = wrapInt (n + 1)).
      { apply wrapInt_idem. }
      pose proof (IH (wrapInt (n + 1)) w1 Hn') as IH'.
      destruct (run o (deleteAll repo rest (wrapInt (n + 1))) st w1) as [out s tr w'].
      cbn in IH' |- *. destruct IH' as (Ho & Hs & Hd & Hp & Hf).
      rewrite Ho, Hs, Hd, Hp, Hf, wrapInt_add. repeat split.
      do 2 f_equal. unfold successes. cbn. lia.
Qed.

(** [prune] without [--dry-run], from [List] on; [before] are the calls
    made so far. *)
Ltac real_from_list o before duration :=
  cbn; answer o;
  match goal with
  | l : result (list EnvironmentInfo) |- _ => destruct l as [?envs|?err]
  end;
  [|cbn; split; [reflexivity|left; eauto]];
  match goal with
  | envs : list EnvironmentInfo, repo : Repository, st : Session.State |- _ =>
      cbn; destruct (length envs =? 0)%nat; cbn;
      [answer o; cbn; split; [reflexivity|right; left; auto]|];
      answer o; cbn;
      match goal with
      | now : Time |- _ =>
          let Hids := fresh "Hids" in
          destruct (olderThan (timeAdd now (wrapInt (- duration))) envs)
            as [|?envID ?ids] eqn:Hids;
          [ cbn; answer o; cbn; split; [reflexivity|]; right; right;
            exists repo, envs, now, duration, before;
            eexists; split; [reflexivity|];
            rewrite Hids; cbn; repeat split; auto; try tauto
          | rewrite <- Hids;
            destruct (length (olderThan (timeAdd now (wrapInt (- duration))) envs) =? 0)%nat
              eqn:Hlen;
            [rewrite Hids in Hlen; discriminate|];
            cbn; answer o; rewrite run_bind;
            match goal with
            | |- context [run o (deleteAll repo ?l 0) st ?w5] =>
                let Hloop := fresh "Hloop" in
                let Hd := fresh "Hd" in
                let Hp := fresh "Hp" in
                let Hf := fresh "Hf" in
                pose proof (run_deleteAll _ o repo l 0 st w5 eq_refl) as Hloop;
                destruct (run o (deleteAll repo l 0) st w5) as [?out ?s ?tr ?w];
                cbn in Hloop; destruct Hloop as (-> & -> & Hd & Hp & Hf);
                unfold andThen; cbn; answer o; cbn;
                split; [reflexivity|]; right; right;
                exists repo, envs, now, duration, before;
                eexists; split; [reflexivity|];
                split; [reflexivity|]; split; [reflexivity|]; split; [tauto|];
                split; [reflexivity|];
                split; [cbn; rewrite forallb_app, Hf; reflexivity|];
                split; [cbn; rewrite omap_app; cbn; rewrite app_nil_r; exact Hd|];
                split;
                [ cbn; rewrite omap_app, Hd, Hids; intro; discriminate
                | intros _; eexists; cbn;
                  rewrite printed_app, omap_app, Hp, List.filter_app, length_app; cbn;
                  rewrite Nat.add_0_r, app_nil_r; reflexivity ]
            end ]
      end
  end.

Lemma prune_real_shape W (o : Oracle W) (before : string) st w :
  let r := run o (pruneCmd before false) st w in
  session r = st
  /\ ((exists err, outcome r = Some (Some err)
                   /\ forallb isReadOrPrint (trace r) = true /\ printed (trace r) = [])
      \/ (outcome r = Some None
          /\ forallb isReadOrPrint (trace r) = true
          /\ printed (trace r) = ["No environments found." +:+ nl])
      \/ (exists repo envs now duration pre rest,
            trace r = (pre ++ Called (RepoList repo) (Ok envs) :: Called TimeNow now
                         :: rest)%list
            /\ forallb isReadOrPrint pre = true
            /\ printed pre = []
            /\ (before = "" -> duration = 7 * 24 * Hour)
            /\ outcome r = Some None
            /\ forallb deletesOrPrints rest = true
            /\ deleted rest
               = map (pair repo) (olderThan (timeAdd now (wrapInt (- duration))) envs)
            /\ (deleted rest = [] ->
                  rest = prints ["No environments older than " +:+
                                 durationString duration +:+ " found." +:+ nl])
            /\ (deleted rest <> [] ->
                  exists header,
                    printed rest
                    = header :: (omap deleteLine rest ++
                        ["Successfully deleted " +:+
                         decimal (wrapInt (Z.of_nat (successes rest))) +:+
                         " environment(s)." +:+ nl])%list))).
Proof.
  cbn zeta. unfold pruneCmd, ext. cbn. answer o.
  match goal with r : result Repository |- _ => destruct r as [repo|err] end;
    [|cbn; split; [reflexivity|left; eauto]].
  cbn. destruct (String.eqb_spec before "") as [Hb|Hb].
  - real_from_list o [Called (RepositoryOpen ".") (Ok repo)] (7 * 24 * Hour).
  - cbn. answer o.
    match goal with r : result Time |- _ => destruct r as [targetTime|err] end;
      [|cbn; split; [reflexivity|left; eauto]].
    cbn. answer o.
    match goal with since : Z |- _ =>
      real_from_list o [Called (RepositoryOpen ".") (Ok repo);
                        Called (TparseParseNow RFC3339 ("now-" +:+ before)) (Ok targetTime);
                        Called (TimeSince targetTime) since] since
    end.
Qed.

Lemma read_or_print_deleted (tr : list Event) :
  forallb isReadOrPrint tr = true ->
  deleted tr = [] /\ omap deleteLine tr = [] /\ successes tr = 0%nat.
Proof.
  induction tr as [|[X c a] tr IH]; [repeat split|].
  destruct c; cbn; try discriminate; exact IH.
Qed.

(** X1. Without [--dry-run], [prune] calls [Delete] on the repository it
    listed, once for each environment last updated before the cutoff and
    for no other, in the order of the list; it calls [Delete] on nothing
    when it fails or finds no environment. *)
Theorem prune_deletes_the_old_environments W (o : Oracle W) (before : string) st w :
  let r := run o (pruneCmd before false) st w in
  (deleted (trace r) = []
   /\ ((exists err, outcome r = Some (Some err))
       \/ printed (trace r) = ["No environments found." +:+ nl]))
  \/ (exists repo envs now duration pre rest,
        trace r = (pre ++ Called (RepoList repo) (Ok envs) :: Called TimeNow now
                     :: rest)%list
        /\ deleted (trace r)
           = map (pair repo) (olderThan (timeAdd now (wrapInt (- duration))) envs)
        /\ (before = "" -> duration = 7 * 24 * Hour)
        /\ outcome r = Some None).
Proof.
  cbn zeta.
  destruct (prune_real_shape W o before st w) as (_ & [Hc|[Hc|Hc]]).
  - destruct Hc as (err & Ho & Hr & _). left.
    split; [apply read_or_print_deleted, Hr | left; eauto].
  - destruct Hc as (_ & Hr & Hp). left.
    split; [apply read_or_print_deleted, Hr | right; exact Hp].
  - destruct Hc as (repo & envs & now & duration & pre & rest
                    & Htr & Hpre & _ & Hb & Ho & _ & Hd & _).
    right. exists repo, envs, now, duration, pre, rest.
    repeat split; auto.
    rewrite Htr, deleted_app. destruct (read_or_print_deleted pre Hpre) as (-> & _).
    exact Hd.
Qed.

(** X2. When [prune] called [Delete] at all, it returns no error, whatever
    the calls returned; it prints a header, one line for each call, which
    says whether that call failed, and a last line with the number of
    calls that returned no error. *)
Theorem prune_reports_every_deletion W (o : Oracle W) (before : string) st w :
  let r := run o (pruneCmd before false) st w in
  deleted (trace r) <> [] ->
  outcome r = Some None
  /\ exists header,
       printed (trace r)
       = header :: (omap deleteLine (trace r) ++
           ["Successfully deleted " +:+
            decimal (wrapInt (Z.of_nat (successes (trace r)))) +:+
            " environment(s)." +:+ nl])%list.
Proof.
  cbn zeta. intros Hdel.
  destruct (prune_real_shape W o before st w) as (_ & [Hc|[Hc|Hc]]).
  - destruct Hc as (err & _ & Hr & _).
    destruct Hdel. apply read_or_print_deleted, Hr.
  - destruct Hc as (_ & Hr & _).
    destruct Hdel. apply read_or_print_deleted, Hr.
  - destruct Hc as (repo & envs & now & duration & pre & rest
                    & Htr & Hpre & Hsilent & _ & Ho & _ & _ & _ & Hlines).
    destruct (read_or_print_deleted pre Hpre) as (Hd0 & Hl0 & Hs0).
    assert (Hrest : deleted rest <> []).
    { intros Hrest. apply Hdel. rewrite Htr, deleted_app, Hd0. exact Hrest. }
    destruct (Hlines Hrest) as (header & Hprinted).
    split; [exact Ho|]. exists header.
    rewrite Htr, printed_app, omap_app, successes_app, Hsilent, Hl0, Hs0.
    exact Hprinted.
Qed.

(** The two runs of [prune], from [List] on. *)
Ltac both_from_list o duration :=
  cbn; answer o;
  match goal with
  | l : result (list EnvironmentInfo) |- _ => destruct l as [?envs|?err]
  end;
  [|reflexivity];
  match goal with
  | envs : list EnvironmentInfo, repo : Repository, st : Session.State |- _ =>
      cbn; destruct (length envs =? 0)%nat; cbn;
      [try answer o; reflexivity|];
      answer o; cbn;
      match goal with
      | now : Time |- _ =>
          destruct (length (olderThan (timeAdd now (wrapInt (- duration))) envs) =? 0)%nat;
          [ cbn; try answer o; reflexivity
          | cbn; answer o; answer o; rewrite !run_bind;
            match goal with
            | |- context [run o (deleteAll repo ?l 0) st ?w5] =>
                let Hloop := fresh "Hloop" in
                let Hd := fresh "Hd" in
                pose proof (run_deleteAll _ o repo l 0 st w5 eq_refl) as Hloop;
                destruct (run o (deleteAll repo l 0) st w5) as [?out ?s ?tr ?w];
                cbn in Hloop; destruct Hloop as (-> & -> & Hd & _);
                match goal with
                | |- context [run o (printAll ?l') st ?w5'] =>
                    let w7 := fresh "w" in
                    destruct (run_printAll _ o l' st w5') as (w7 & ->)
                end;
                unfold andThen; cbn; answer o; cbn;
                rewrite app_nil_r, omap_app, Hd; cbn; rewrite app_nil_r, printed_prints;
                rewrite map_map; reflexivity
            end ]
      end
  end.

(** X3. A dry run announces what the real run deletes: started in the
    same world, the lines the dry run prints after its first are the IDs,
    in order, that the run without [--dry-run] calls [Delete] on. *)
Theorem prune_dry_run_previews_the_run W (o : Oracle W) (before : string) st w :
  let real := run o (pruneCmd before false) st w in
  let dry := run o (pruneCmd before true) st w in
  map (fun d => "  - " +:+ snd d +:+ nl) (deleted (trace real)) = tail (printed (trace dry)).
Proof.
  cbn zeta. unfold pruneCmd, ext. cbn. answer o.
  match goal with r : result Repository |- _ => destruct r as [repo|err] end;
    [|reflexivity].
  cbn. destruct (String.eqb_spec before "") as [Hb|Hb].
  - both_from_list o (7 * 24 * Hour).
  - cbn. answer o.
    match goal with r : result Time |- _ => destruct r as [targetTime|err] end;
      [|reflexivity].
    cbn. answer o.
    match goal with since : Z |- _ => both_from_list o since end.
Qed.

End PruneRun.

(** ** Shell completion *)
Section CompletionFacts.
Import Environment Mcp Server Cli Observe Completion.
Context `{Handles}.
Variable RelTime : Time -> Time -> string.

Lemma calculateMaxTitleLength_range (terminalWidth : Z) :
  10 <= calculateMaxTitleLength terminalWidth <= 100.
Proof.
  unfold calculateMaxTitleLength. cbn zeta.
  destruct (Z.ltb_spec (wrapInt (terminalWidth - (12 + 1 + 11 + 10 + 1 + 5))) 10); [lia|].
  destruct (Z.gtb_spec (wrapInt (terminalWidth - (12 + 1 + 11 + 10 + 1 + 5))) 100); lia.
Qed.

(** The loop reads the clock once for each environment and does not
    panic: a title is only cut when it is longer than the cut. *)
Lemma run_describeAll W (o : Oracle W) (maxTitleLength : Z) envs st w :
  0 <= maxTitleLength ->
  exists clock w',
    run o (describeAll RelTime maxTitleLength envs) st w
    = mkRun (Some (zip_with (completionOf RelTime maxTitleLength) envs clock)) st
        (map (fun now => Called TimeNow now) clock) w'
    /\ length clock = length envs.
Proof.
  intros Hm. revert w. induction envs as [|env envs IH]; intros w.
  - exists [], w. split; reflexivity.
  - cbn [describeAll]. unfold humanizeTime, ext, sliceTo.
    destruct (len (Title (InfoState env)) >? maxTitleLength) eqn:Hgt.
    + replace ((0 <=? maxTitleLength) && (maxTitleLength <=? len (Title (InfoState env))))
        with true by (symmetry; apply andb_true_iff; split; lia).
      cbn. answer o. rewrite run_bind.
      destruct (IH w0) as (clock & w' & -> & Hlen).
      match goal with now : Time |- _ => exists (now :: clock), w' end.
      split; [|cbn; now rewrite Hlen].
      cbn. unfold completionOf, shownTitle. rewrite Hgt, app_nil_r. reflexivity.
    + cbn. answer o. rewrite run_bind.
      destruct (IH w0) as (clock & w' & -> & Hlen).
      match goal with now : Time |- _ => exists (now :: clock), w' end.
      split; [|cbn; now rewrite Hlen].
      cbn. unfold completionOf, shownTitle. rewrite Hgt, app_nil_r. reflexivity.
Qed.

(** X4. [suggestEnvironments] never panics and leaves the session state
    alone.  When the repository cannot be opened or listed it makes no
    further call and returns no completion with the error directive.
    Otherwise it reads the clock once for each environment and returns, in
    the order of the list, one completion for each: the ID, a tab, the
    title (cut to the maximum title length for the terminal's width and
    followed by the seven bytes of the source's literal when it is
    longer), and the time of the last update relative to the clock. *)
Theorem suggestEnvironments_completions W (o : Oracle W) (size : result (Z * Z)) st w :
  let r := run o (suggestEnvironments RelTime size) st w in
  let maxTitleLength := calculateMaxTitleLength (getTerminalWidth size) in
  session r = st
  /\ ((outcome r = Some (None, ShellCompDirectiveError)
       /\ ((exists err, trace r = [Called (RepositoryOpen ".") (Err err)])
           \/ (exists repo err,
                 trace r = [Called (RepositoryOpen ".") (Ok repo);
                            Called (RepoList repo) (Err err)])))
      \/ (exists repo envs clock,
            trace r = Called (RepositoryOpen ".") (Ok repo)
                      :: Called (RepoList repo) (Ok envs)
                      :: map (fun now => Called TimeNow now) clock
            /\ length clock = length envs
            /\ outcome r
               = Some (Some (zip_with (completionOf RelTime maxTitleLength) envs clock),
                       ShellCompDirectiveNoFileComp))).
Proof.
  cbn zeta. unfold suggestEnvironments, ext. cbn. answer o.
  match goal with r : result Repository |- _ => destruct r as [repo|err] end;
    [|cbn; split; [reflexivity|left; eauto]].
  cbn. answer o.
  match goal with l : result (list EnvironmentInfo) |- _ => destruct l as [envs|err] end;
    [|cbn; split; [reflexivity|left; eauto 6]].
  destruct envs as [|env envs].
  - cbn. split; [reflexivity|]. right. exists repo, [], []. repeat split.
  - cbn [length Nat.eqb]. rewrite run_bind.
    pose proof (calculateMaxTitleLength_range (getTerminalWidth size)) as Hrange.
    match goal with
    | |- context [run o (describeAll ?f ?m ?l) st ?w1] =>
        destruct (run_describeAll W o m l st w1) as (clock & w' & -> & Hlen); [lia|]
    end.
    cbn. split; [reflexivity|]. right. exists repo, (env :: envs), clock.
    rewrite app_nil_r. repeat split. exact Hlen.
Qed.

Lemma length_substring (s : string) (n : nat) :
  (n <= String.length s)%nat -> String.length (String.substring 0 n s) = n.
Proof.
  revert n. induction s as [|ch s IH]; intros [|n] Hn; cbn in *; try lia.
  rewrite IH; lia.
Qed.

Lemma length_append (s1 s2 : string) :
  String.length (s1 +:+ s2) = (String.length s1 + String.length s2)%nat.
Proof.
  induction s1 as [|ch s1 IH]; [reflexivity|].
  change (S (String.length (s1 +:+ s2)) = S (String.length s1 + String.length s2)).
  now rewrite IH.
Qed.

(** X5. The title a completion shows is the environment's own when that
    is at most the maximum title length in bytes, and otherwise its first
    bytes up to that length followed by the seven bytes of the literal in
    the source; so it is never longer than 107 bytes, whatever the
    terminal. *)
Theorem completion_title_length (size : result (Z * Z)) (title : string) :
  let maxTitleLength := calculateMaxTitleLength (getTerminalWidth size) in
  let shown := shownTitle maxTitleLength title in
  (len title <= maxTitleLength -> shown = title)
  /\ (len title > maxTitleLength ->
      shown = String.substring 0 (Z.to_nat maxTitleLength) title +:+ ellipsis
      /\ len shown = maxTitleLength + 7)
  /\ len ellipsis = 7
  /\ len shown <= 107.
Proof.
  cbn zeta. pose proof (calculateMaxTitleLength_range (getTerminalWidth size)) as Hrange.
  set (m := calculateMaxTitleLength (getTerminalWidth size)) in *.
  unfold shownTitle.
  assert (Hcut : len title > m ->
                 len (String.substring 0 (Z.to_nat m) title +:+ ellipsis) = m + 7).
  { intros Hlong. unfold len in *. rewrite length_append, length_substring by lia.
    cbn. lia. }
  destruct (Z.gtb_spec (len title) m) as [Hlong|Hshort].
  - split; [lia|]. split; [intros _; split; [reflexivity | apply Hcut; lia]|].
    split; [reflexivity|]. rewrite Hcut; lia.
  - split; [reflexivity|]. split; [lia|]. split; [reflexivity | lia].
Qed.

End CompletionFacts.

(** ** The session state and the tools *)

Create HintDb tool_handlers discriminated.
#[local] Hint Unfold McpServer.environmentOpenHandler McpServer.environmentUpdateMetadataHandler
  McpServer.environmentConfigHandler McpServer.environmentRunCmdHandler McpServer.environmentFileReadHandler
  McpServer.environmentFileListHandler McpServer.environmentFileWriteHandler McpServer.environmentFileEditHandler
  McpServer.environmentFileDeleteHandler McpServer.environmentAddServiceHandler
  McpServer.environmentCheckpointHandler McpServer.environmentCreateHandler McpServer.environmentListHandler : tool_handlers.

(** The handler of a tool of [createTools], after [McpServer.wrapTool]. *)
Ltac wrapped_handler :=
  cbn [McpServer.Handler McpServer.wrapTool McpServer.createEnvironmentOpenTool McpServer.createEnvironmentCreateTool
       McpServer.createEnvironmentUpdateMetadataTool McpServer.createEnvironmentConfigTool
       McpServer.createEnvironmentListTool McpServer.createEnvironmentRunCmdTool McpServer.createEnvironmentFileReadTool
       McpServer.createEnvironmentFileListTool McpServer.createEnvironmentFileWriteTool
       McpServer.createEnvironmentFileEditTool McpServer.createEnvironmentFileDeleteTool
       McpServer.createEnvironmentAddServiceTool McpServer.createEnvironmentCheckpointTool];
  autounfold with tool_handlers.

Ltac effects :=
  repeat first
    [ exact I
    | reflexivity
    | progress cbn
    | progress intros
    | split
    | match goal with
      | |- context [match ?x with _ => _ end] => destruct x eqn:?
      end ].

Section SessionUse.
Import Environment Mcp Server McpServer Observe.
Context `{Handles} `{!Library}.

Lemma neverStores_bind {A B} (p : Prog A) (f : A -> Prog B) :
  neverStores p -> (forall a, neverStores (f a)) -> neverStores (bind p f).
Proof.
  intros Hp Hf. induction p as [a|msg|X c k IH|X c k IH]; cbn in *; auto.
  - destruct Hp as [Hc Hk]. split; auto.
Qed.

Lemma stateless_bind {A B} (p : Prog A) (f : A -> Prog B) :
  stateless p -> (forall a, stateless (f a)) -> stateless (bind p f).
Proof.
  intros Hp Hf. induction p as [a|msg|X c k IH|X c k IH]; cbn in *; auto.
Qed.

Lemma stateless_neverStores {A} (p : Prog A) : stateless p -> neverStores p.
Proof.
  induction p as [a|msg|X c k IH|X c k IH]; cbn; auto. intros [].
Qed.

(** A program that calls no setter leaves the session state as it was. *)
Lemma neverStores_session {A} W (o : Oracle W) (p : Prog A) st w :
  neverStores p -> session (run o p st w) = st.
Proof.
  revert st w. induction p as [a|msg|X c k IH|X c k IH]; intros st w Hp; cbn in *; auto.
  - destruct Hp as [Hc Hk]. rewrite IH by auto. destruct c; cbn in *; congruence.
Qed.

(** A program that calls no accessor makes the same calls and returns the
    same value whatever the session state. *)
Lemma stateless_run {A} W (o : Oracle W) (p : Prog A) st st' w :
  stateless p ->
  run o p st' w
  = mkRun (outcome (run o p st w)) st' (trace (run o p st w)) (world (run o p st w)).
Proof.
  revert w. induction p as [a|msg|X c k IH|X c k IH]; intros w Hp; cbn in *;
    try reflexivity; try contradiction.
  rewrite IH by auto. reflexivity.
Qed.

Lemma openRepository_stateless ctx request :
  singleTenantOf ctx = false -> stateless (openRepository ctx request).
Proof. intros Hm. unfold openRepository, ext. rewrite Hm. effects. Qed.

Lemma openRepository_neverStores ctx request : neverStores (openRepository ctx request).
Proof. unfold openRepository, ext, sess. effects. Qed.

Lemma openEnvironment_stateless ctx request :
  singleTenantOf ctx = false -> stateless (openEnvironment ctx request).
Proof.
  intros Hm. unfold openEnvironment.
  apply stateless_bind; [now apply openRepository_stateless|].
  rewrite Hm. unfold ext. effects.
Qed.

Lemma openEnvironment_neverStores ctx request : neverStores (openEnvironment ctx request).
Proof.
  unfold openEnvironment.
  apply neverStores_bind; [apply openRepository_neverStores|].
  unfold ext, sess. effects.
Qed.

Lemma createTools_neverStores (singleTenant : bool) (tool : Tool) ctx request :
  In tool (createTools singleTenant) ->
  Name (ToolDefinition tool) <> "environment_open" ->
  Name (ToolDefinition tool) <> "environment_create" ->
  neverStores (Handler tool ctx request).
Proof.
  intros Hin Hopen Hcreate. unfold createTools in Hin. cbn [In] in Hin.
  destruct singleTenant.
  all:
  repeat (destruct Hin as [<-|Hin];
          [first
             [ exfalso; apply Hopen; reflexivity
             | exfalso; apply Hcreate; reflexivity
             | wrapped_handler;
               apply neverStores_bind; [|intros [?|?]; exact I];
               apply neverStores_bind;
               [first [apply openEnvironment_neverStores | apply openRepository_neverStores]|];
               unfold parsePorts, ext; effects ]|]).
  all: destruct Hin.
Qed.

Lemma createTools_stateless (singleTenant : bool) (tool : Tool) ctx request :
  In tool (createTools singleTenant) ->
  singleTenantOf ctx = false ->
  stateless (Handler tool ctx request).
Proof.
  intros Hin Hm. unfold createTools in Hin. cbn [In] in Hin.
  repeat (destruct Hin as [<-|Hin];
          [wrapped_handler;
           apply stateless_bind; [|intros [?|?]; exact I];
           apply stateless_bind;
           [first [now apply openEnvironment_stateless | now apply openRepository_stateless]|];
           rewrite ?Hm; unfold parsePorts, ext; effects|]).
  destruct Hin.
Qed.

Lemma registeredTools_inner (dag : DaggerClient) (singleTenant : bool) (tool : Tool) :
  In tool (registeredTools dag singleTenant) ->
  exists inner,
    In inner (createTools singleTenant)
    /\ Name (ToolDefinition tool) = Name (ToolDefinition inner)
    /\ forall ctx request,
         Handler tool ctx request
         = Handler inner (mkCtx (Some singleTenant) (Some dag)) request.
Proof.
  unfold registeredTools. intros (inner & <- & Hin)%in_map_iff.
  exists inner. repeat split. exact Hin.
Qed.

(** X6. Of the registered tools only [environment_open] and
    [environment_create] ever change the session state: after a call of
    any other tool it is what it was, whether the call succeeded, failed
    or panicked. *)
Theorem only_open_and_create_store W (o : Oracle W) (dag : DaggerClient)
    (singleTenant : bool) (tool : Tool) ctx request st w :
  In tool (registeredTools dag singleTenant) ->
  Name (ToolDefinition tool) <> "environment_open" ->
  Name (ToolDefinition tool) <> "environment_create" ->
  session (run o (Handler tool ctx request) st w) = st.
Proof.
  intros (inner & Hin & Hname & ->)%registeredTools_inner Hopen Hcreate.
  rewrite Hname in *. apply neverStores_session.
  now apply createTools_neverStores with singleTenant.
Qed.

(** X7. In multi-tenant mode no registered tool reads or writes the
    session state: whatever the state, a call makes the same calls,
    returns the same result and leaves the state as it was. *)
Theorem multi_tenant_ignores_session W (o : Oracle W) (dag : DaggerClient)
    (tool : Tool) ctx request st st' w :
  In tool (registeredTools dag false) ->
  let r := run o (Handler tool ctx request) st w in
  let r' := run o (Handler tool ctx request) st' w in
  outcome r' = outcome r /\ trace r' = trace r /\ world r' = world r
  /\ session r = st /\ session r' = st'.
Proof.
  intros (inner & Hin & _ & Heq)%registeredTools_inner. cbn zeta. rewrite Heq.
  assert (Hs : stateless (Handler inner (mkCtx (Some false) (Some dag)) request)).
  { now apply createTools_stateless with false. }
  rewrite (stateless_run W o _ st st' w Hs). cbn.
  repeat split. apply neverStores_session, stateless_neverStores, Hs.
Qed.

End SessionUse.

(** ** What [environment_create] and [environment_open] leave in the session *)
Section CurrentEnvironment.
Import Environment Mcp Server McpServer Observe.
Context `{Handles} `{!Library}.

(** X8. In single-tenant mode the session state changes as soon as
    [Create] (for [environment_create]) or [Get] (for [environment_open])
    has returned an environment, also when the handler fails afterwards:
    it then holds that environment's ID and the call's
    [environment_source]; until then it is untouched. *)
Theorem session_follows_create_and_open W (o : Oracle W) ctx request st w :
  singleTenantOf ctx = true ->
  let stored (envs : list Environment) :=
    match envs with
    | env :: _ =>
        Session.mkState (ID (Info env)) (GetString request "environment_source" "")
    | [] => st
    end in
  let c := run o (environmentCreateHandler ctx request) st w in
  let p := run o (environmentOpenHandler ctx request) st w in
  session c = stored (created (trace c))
  /\ session p = stored (fetched (trace p)).
Proof.
  intros Hsingle. cbn zeta.
  unfold environmentCreateHandler, environmentOpenHandler, openEnvironment, openRepository,
    EnvironmentToCallResult, sess, ext.
  rewrite Hsingle, valueOf_RequireString.
  split; explore; reflexivity.
Qed.

(** Without a source in the call or in the session nothing is opened. *)
Lemma openRepository_without_source W (o : Oracle W) ctx request st w :
  singleTenantOf ctx = true ->
  GetString request "environment_source" "" = "" ->
  Session.currentEnvironmentSource st = "" ->
  run o (openRepository ctx request) st w
  = mkRun (Some (Err Session.noCurrentEnvironment)) st [] w.
Proof.
  intros Hsingle Hsrc Hcur%getSource_unset.
  unfold openRepository, sess. rewrite Hsingle, Hsrc, String.eqb_refl.
  cbn. rewrite Hcur. reflexivity.
Qed.

Lemma openEnvironment_without_source W (o : Oracle W) ctx request st w :
  singleTenantOf ctx = true ->
  GetString request "environment_source" "" = "" ->
  Session.currentEnvironmentSource st = "" ->
  run o (openEnvironment ctx request) st w
  = mkRun (Some (Err Session.noCurrentEnvironment)) st [] w.
Proof.
  intros Hsingle Hsrc Hcur. unfold openEnvironment.
  rewrite run_bind, openRepository_without_source by assumption. reflexivity.
Qed.

(** X9. In single-tenant mode [environment_open] and
    [environment_create] store the call's [environment_source] even when
    the call had none and the repository was found through the session
    state: after such a call has succeeded the stored source is empty, and
    every tool called without [environment_source] fails with an error
    result before it makes any call. *)
Theorem source_forgotten_without_argument W (o : Oracle W) ctx request st w handler :
  singleTenantOf ctx = true ->
  GetString request "environment_source" "" = "" ->
  In handler [environmentOpenHandler; environmentCreateHandler] ->
  let r := run o (handler ctx request) st w in
  forall response, outcome r = Some (Ok response) ->
  Session.currentEnvironmentSource (session r) = ""
  /\ forall tool ctx' request' w',
       In tool (createTools true) ->
       singleTenantOf ctx' = true ->
       GetString request' "environment_source" "" = "" ->
       let r' := run o (Handler tool ctx' request') (session r) w' in
       trace r' = []
       /\ session r' = session r
       /\ exists response',
            outcome r' = Some (Ok response')
            /\ IsError response' = true
            /\ (Text response' = Session.noCurrentEnvironment
                \/ Text response'
                   = "unable to open the environment: " +:+ Session.noCurrentEnvironment).
Proof.
  intros Hsingle Hsrc Hhandler. cbn zeta. intros response Hout.
  assert (Hcur : Session.currentEnvironmentSource
                   (session (run o (handler ctx request) st w)) = "").
  { revert Hout. destruct Hhandler as [<-|[<-|[]]].
    - unfold environmentOpenHandler, openEnvironment, openRepository,
        EnvironmentToCallResult, sess, ext.
      rewrite Hsingle, valueOf_RequireString, Hsrc.
      explore; intros; simplify_eq; reflexivity.
    - unfold environmentCreateHandler, openRepository, sess, ext.
      rewrite Hsingle, valueOf_RequireString, Hsrc.
      explore; intros; simplify_eq; reflexivity. }
  split; [exact Hcur|].
  intros tool ctx' request' w' Hin Hsingle' Hsrc'. cbn zeta.
  unfold createTools in Hin. cbn [In] in Hin.
  repeat (destruct Hin as [<-|Hin];
          [wrapped_handler;
           rewrite !run_bind;
           rewrite ?openEnvironment_without_source, ?openRepository_without_source
             by assumption;
           cbn; eauto 8|]).
  destruct Hin.
Qed.

(** X10. In single-tenant mode, after [environment_create] has succeeded
    with a source in the call and an environment with an ID in return, a
    tool called without [environment_source] and [environment_id] opens
    the repository at that source and asks it for that environment; so it
    is after [environment_open]. *)
Theorem follow_up_uses_current_environment W (o : Oracle W) ctx request st w dag :
  singleTenantOf ctx = true ->
  daggerClientValue ctx = Some dag ->
  GetString request "environment_source" "" <> "" ->
  let c := run o (environmentCreateHandler ctx request) st w in
  let p := run o (environmentOpenHandler ctx request) st w in
  let followUp {A} (r : Run W A) (env : Environment) :=
    ID (Info env) <> "" ->
    forall request' w',
      GetString request' "environment_source" "" = "" ->
      GetString request' "environment_id" "" = "" ->
      resolvedTo (run o (openEnvironment ctx request') (session r) w')
        (GetString request "environment_source" "") dag (ID (Info env)) in
  (forall response, outcome c = Some (Ok response) ->
     exists env, created (trace c) = [env] /\ followUp c env)
  /\ (forall response, outcome p = Some (Ok response) ->
     exists env, fetched (trace p) = [env] /\ followUp p env).
Proof.
  intros Hsingle Hdag Hsrc. cbn zeta.
  assert (Hnext : forall env request' w',
            ID (Info env) <> "" ->
            GetString request' "environment_source" "" = "" ->
            GetString request' "environment_id" "" = "" ->
            resolvedTo
              (run o (openEnvironment ctx request')
                 (Session.mkState (ID (Info env)) (GetString request "environment_source" ""))
                 w')
              (GetString request "environment_source" "") dag (ID (Info env))).
  { intros env request' w' Hid Hsrc' Hid'.
    unfold resolvedTo, openEnvironment, openRepository, sess, ext.
    rewrite Hsingle, Hdag, Hsrc', Hid', String.eqb_refl. cbn.
    rewrite getSource_set by (cbn; assumption). cbn.
    answer o.
    match goal with r : result Repository |- _ => destruct r as [repo|err] end;
      cbn; [|left; eauto].
    rewrite getID_set by (cbn; assumption). cbn.
    answer o.
    match goal with r : result Environment |- _ => destruct r end; cbn; right; eauto. }
  pose proof Hsrc as Hsrcb%String.eqb_neq.
  assert (Hc : forall response,
            outcome (run o (environmentCreateHandler ctx request) st w) = Some (Ok response) ->
            exists env,
              created (trace (run o (environmentCreateHandler ctx request) st w)) = [env]
              /\ session (run o (environmentCreateHandler ctx request) st w)
                 = Session.mkState (ID (Info env)) (GetString request "environment_source" "")).
  { intros response.
    unfold environmentCreateHandler, openRepository, sess, ext.
    rewrite Hsingle, Hdag, valueOf_RequireString, Hsrcb.
    explore; intros; simplify_eq.
    all: eexists; split; reflexivity. }
  assert (Hp : forall response,
            outcome (run o (environmentOpenHandler ctx request) st w) = Some (Ok response) ->
            exists env,
              fetched (trace (run o (environmentOpenHandler ctx request) st w)) = [env]
              /\ session (run o (environmentOpenHandler ctx request) st w)
                 = Session.mkState (ID (Info env)) (GetString request "environment_source" "")).
  { intros response.
    unfold environmentOpenHandler, openEnvironment, openRepository,
      EnvironmentToCallResult, sess, ext.
    rewrite Hsingle, Hdag, valueOf_RequireString, Hsrcb.
    explore; intros; simplify_eq.
    all: eexists; split; reflexivity. }
  split; intros response Hout.
  - destruct (Hc response Hout) as (env & Hcreated & ->).
    exists env. split; [exact Hcreated|]. intros. now apply Hnext.
  - destruct (Hp response Hout) as (env & Hfetched & ->).
    exists env. split; [exact Hfetched|]. intros. now apply Hnext.
Qed.

End CurrentEnvironment.

(** ** Opening the environment *)
Section OpenEnvironment.
Import Environment Mcp Server McpServer Observe.
Context `{Handles} `{!Library}.

(** [openRepository] returns, having at most opened the repository, and
    leaves the session state alone; in multi-tenant mode it fails without
    [environment_source]. *)
Lemma run_openRepository W (o : Oracle W) ctx request st w :
  exists out tr w',
    run o (openRepository ctx request) st w = mkRun (Some out) st tr w'
    /\ forallb isRead tr = true
    /\ (singleTenantOf ctx = false -> request !! "environment_source" = None ->
        exists e, out = Err e).
Proof.
  unfold openRepository, RequireString, sess, ext.
  destruct (singleTenantOf ctx);
    [|destruct (request !! "environment_source") as [[]|]]; explore.
  all: do 3 eexists; split; [reflexivity|]; split; [reflexivity|].
  all: intros ? ?; first [discriminate | eauto].
Qed.

(** [openEnvironment] returns, having only read, and leaves the session
    state alone; what it returns is the environment it got; in
    multi-tenant mode it fails without [environment_source] or
    [environment_id]. *)
Lemma run_openEnvironment W (o : Oracle W) ctx request st w :
  exists out tr w',
    run o (openEnvironment ctx request) st w = mkRun (Some out) st tr w'
    /\ forallb isRead tr = true
    /\ fetched tr = match out with Ok x => [snd x] | Err _ => [] end
    /\ (singleTenantOf ctx = false ->
        request !! "environment_source" = None \/ request !! "environment_id" = None ->
        exists e, out = Err e).
Proof.
  unfold openEnvironment, openRepository, RequireString, sess, ext.
  destruct (singleTenantOf ctx).
  { explore; do 3 eexists; repeat split; discriminate. }
  destruct (request !! "environment_source") as [[]|];
    destruct (request !! "environment_id") as [[]|]; explore.
  all: do 3 eexists; split; [reflexivity|]; split; [reflexivity|]; split; [reflexivity|].
  all: intros _ [|]; first [discriminate | eauto].
Qed.

(** A trace of reads holds no call of the other kinds. *)
Lemma read_only_trace (tr : list Event) :
  forallb isRead tr = true ->
  updated tr = [] /\ configsApplied tr = [] /\ created tr = []
  /\ forallb (fun ev => negb (isMutation ev)) tr = true
  /\ forallb (fun ev => negb (isReconcile ev)) tr = true
  /\ forallb (fun ev => negb (isAddService ev)) tr = true.
Proof.
  induction tr as [|[X c a] tr IH]; [repeat split|].
  destruct c; cbn; try discriminate; exact IH.
Qed.

End OpenEnvironment.

(** Runs the handler up to the end of [openEnvironment]. *)
Ltac enter o :=
  rewrite !run_bind;
  match goal with
  | |- context [Server.run o (McpServer.openEnvironment ?ctx ?request) ?st ?w] =>
      let Hread := fresh "Hread" in
      let out := fresh "out" in
      let tr := fresh "tr" in
      let w1 := fresh "w" in
      let Hfetched := fresh "Hfetched" in
      let Hmulti := fresh "Hmulti" in
      destruct (run_openEnvironment _ o ctx request st w)
        as (out & tr & w1 & -> & Hread & Hfetched & Hmulti);
      unfold Server.andThen; cbn [Server.outcome Server.session Server.trace Server.world];
      destruct out as [[?repo ?env]|?e]; cbn [fst snd]
  end.

(** Runs the handler up to the end of [openRepository]. *)
Ltac enter_repository o :=
  rewrite !run_bind;
  match goal with
  | |- context [Server.run o (McpServer.openRepository ?ctx ?request) ?st ?w] =>
      let Hread := fresh "Hread" in
      let out := fresh "out" in
      let tr := fresh "tr" in
      let w1 := fresh "w" in
      let Hmulti := fresh "Hmulti" in
      destruct (run_openRepository _ o ctx request st w)
        as (out & tr & w1 & -> & Hread & Hmulti);
      unfold Server.andThen; cbn [Server.outcome Server.session Server.trace Server.world];
      destruct out as [?repo|?e]
  end.

(** ** Panics *)

Section Panics.
Import Environment Mcp Server McpServer Observe.
Context `{Handles} `{!Library}.

Lemma neverPanics_bind {A B} (p : Prog A) (f : A -> Prog B) :
  neverPanics p -> (forall a, neverPanics (f a)) -> neverPanics (bind p f).
Proof.
  intros Hp Hf. induction p as [a|msg|X c k IH|X c k IH]; cbn in *; auto.
Qed.

Lemma neverPanics_outcome {A} W (o : Oracle W) (p : Prog A) st w :
  neverPanics p -> exists a, outcome (run o p st w) = Some a.
Proof.
  revert st w. induction p as [a|msg|X c k IH|X c k IH]; intros st w Hp; cbn in *;
    eauto; contradiction.
Qed.

Lemma openRepository_neverPanics ctx request : neverPanics (openRepository ctx request).
Proof. unfold openRepository, ext, sess. effects. Qed.

Lemma openEnvironment_neverPanics ctx request : neverPanics (openEnvironment ctx request).
Proof.
  unfold openEnvironment.
  apply neverPanics_bind; [apply openRepository_neverPanics|].
  unfold ext, sess. effects.
Qed.

Lemma createTools_neverPanics (singleTenant : bool) (tool : Tool) ctx request :
  In tool (createTools singleTenant) ->
  ~ In (Name (ToolDefinition tool))
      ["environment_config"; "environment_run_cmd"; "environment_add_service"] ->
  neverPanics (Handler tool ctx request).
Proof.
  intros Hin Hname. unfold createTools in Hin. cbn [In] in Hin.
  destruct singleTenant.
  all: repeat (destruct Hin as [<-|Hin];
          [first
             [ exfalso; apply Hname; cbn; tauto
             | wrapped_handler;
               apply neverPanics_bind; [|intros [?|?]; exact I];
               apply neverPanics_bind;
               [first [apply openEnvironment_neverPanics | apply openRepository_neverPanics]|];
               unfold ext, sess; effects ]|]).
  all: destruct Hin.
Qed.

(** X11. Every registered tool but [environment_config],
    [environment_run_cmd] and [environment_add_service] returns a result
    for every request, in every session state and whatever the calls it
    makes return: it does not panic and returns no Go error. *)
Theorem tools_always_return W (o : Oracle W) (dag : DaggerClient) (singleTenant : bool)
    (tool : Tool) ctx request st w :
  In tool (registeredTools dag singleTenant) ->
  ~ In (Name (ToolDefinition tool))
      ["environment_config"; "environment_run_cmd"; "environment_add_service"] ->
  exists response, outcome (run o (Handler tool ctx request) st w) = Some (Ok response).
Proof.
  intros (inner & Hin & Hname & ->)%registeredTools_inner Hnot. rewrite Hname in Hnot.
  pose proof (createTools_neverPanics singleTenant inner
                (mkCtx (Some singleTenant) (Some dag)) request Hin Hnot) as Hnp.
  destruct (neverPanics_outcome W o _ st w Hnp) as ([response|e] & Hout); [eauto|].
  exfalso. revert Hout. clear Hnp Hnot Hname.
  unfold createTools in Hin. cbn [In] in Hin.
  repeat (destruct Hin as [<-|Hin];
          [cbn [Handler wrapTool]; rewrite run_bind; unfold andThen;
           destruct (outcome (run o _ st w)) as [[?|?]|]; cbn; discriminate|]).
  destruct Hin.
Qed.

(** X12. The three tools that can panic do so before they change
    anything: when [environment_run_cmd] panics, the command was to run in
    the background and [ports] holds something that is not a number; when
    [environment_add_service] panics, [ports] does; when
    [environment_config] panics, [setup_commands] or [envs] holds
    something that is not a string; and all the handler has done by then
    is open the repository and get the environment. *)
Theorem panics_come_before_changes W (o : Oracle W) ctx request st w :
  let cmd := run o (environmentRunCmdHandler ctx request) st w in
  let svc := run o (environmentAddServiceHandler ctx request) st w in
  let cfg := run o (environmentConfigHandler ctx request) st w in
  let badPorts :=
    exists portList, request !! "ports" = Some (VArray portList) /\ portsOf portList = None in
  (outcome cmd = None ->
     GetBool request "background" false = true /\ badPorts
     /\ forallb isRead (trace cmd) = true)
  /\ (outcome svc = None -> badPorts /\ forallb isRead (trace svc) = true)
  /\ (outcome cfg = None ->
      (exists newConfig key l,
          request !! "config" = Some (VObject newConfig)
          /\ (key = "setup_commands" \/ key = "envs")
          /\ newConfig !! key = Some (VArray l)
          /\ assertStrings l = None)
      /\ forallb isRead (trace cfg) = true).
Proof.
  cbn zeta.
  unfold environmentRunCmdHandler, environmentAddServiceHandler, environmentConfigHandler,
    parsePorts, ext.
  split; [|split].
  - enter o; explore; rewrite ?forallb_app, ?Hread; intros; simplify_eq; eauto.
  - enter o; explore; rewrite ?forallb_app, ?Hread; intros; simplify_eq; eauto.
  - enter o; explore; rewrite ?forallb_app, ?Hread; intros; simplify_eq; eauto 10.
Qed.

End Panics.

(** ** Metadata and configuration *)
Section Metadata.
Import Environment Mcp Server McpServer Observe.
Context `{Handles} `{!Library}.

(** X13. [environment_update_metadata] calls [Update] once the
    environment is open, and only then: on the environment it got, with
    the title replaced by the [title] argument when that is a non-empty
    string and nothing else changed; an empty title leaves the title as it
    is.  On success the text is a fixed line followed by the marshaled
    response of the environment [Update] returned. *)
Theorem update_metadata_replaces_the_title W (o : Oracle W) ctx request st w :
  let r := run o (environmentUpdateMetadataHandler ctx request) st w in
  let title := GetString request "title" "" in
  (fetched (trace r) = [] -> updated (trace r) = [] /\ exists e, outcome r = Some (Err e))
  /\ (forall env rest, fetched (trace r) = env :: rest ->
      rest = []
      /\ updated (trace r) = [if String.eqb title "" then env else setTitle env title]
      /\ forall sent, updated (trace r) = [sent] ->
           Title (InfoState (Info sent))
           = (if String.eqb title "" then Title (InfoState (Info env)) else title)
           /\ ID (Info sent) = ID (Info env)
           /\ Config (InfoState (Info sent)) = Config (InfoState (Info env))
           /\ Services sent = Services env)
  /\ (forall response, outcome r = Some (Ok response) ->
      exists pre repo sent env' out,
        trace r = (pre ++ [Called (RepoUpdate repo sent (GetString request "explanation" ""))
                             (env', None)])%list
        /\ marshalEnvironment env' = Ok out
        /\ response = NewToolResultText
                        ("Environment metadata updated successfully." +:+ nl +:+ out)).
Proof.
  cbn zeta. unfold environmentUpdateMetadataHandler, ext.
  enter o.
  - destruct (read_only_trace _ Hread) as (Hupdated & _).
    cbn. answer o.
    match goal with p : Environment * option error |- _ => destruct p as [env' [uerr|]] end;
      cbn [fst snd]; [|destruct (marshalEnvironment env') as [out|merr] eqn:Hm]; cbn.
    all: unfold fetched, updated in *; rewrite !omap_app, Hfetched, Hupdated; cbn.
    all: rewrite negb_if.
    all: split; [discriminate|]; split; [|intros; simplify_eq; eauto 10].
    all: intros env0 rest [= <- <-]; split; [reflexivity|]; split; [reflexivity|].
    all: intros sent [= <-]; destruct (String.eqb _ ""); repeat split.
  - destruct (read_only_trace _ Hread) as (Hupdated & _).
    cbn. rewrite app_nil_r, Hfetched, Hupdated.
    split; [eauto|]. split; [discriminate|]. discriminate.
Qed.

Lemma assertStrings_stringsOf (l : list Value) (strs : list string) :
  assertStrings l = Some strs -> stringsOf l = strs.
Proof.
  revert strs. induction l as [|v l IH]; intros strs; cbn.
  - now intros [= <-].
  - destruct v; try discriminate.
    destruct (assertStrings l) as [strs'|]; [|discriminate].
    intros [= <-]. now rewrite (IH strs').
Qed.

(** One of the two array fields of the configuration object: the strings
    replace the old value, and an element that is not a string panics. *)
Lemma run_strings_stage {A B} W (o : Oracle W) (m : gmap string Value) (key : string)
    (old : list string) (f : list string -> A) (d : A) (msg : string)
    (k : A -> Prog B) st w :
  d = f old ->
  let stage :=
    match m !! key with
    | Some (VArray l) =>
        match assertStrings l with
        | Some strs => Ret (f strs)
        | None => Panic msg
        end
    | _ => Ret d
    end in
  run o (bind stage k) st w = run o (k (f (GetStringSlice m key old))) st w
  \/ run o (bind stage k) st w = mkRun None st [] w.
Proof.
  intros ->. cbn zeta. unfold GetStringSlice.
  destruct (m !! key) as [[| | | |l|]|]; cbn; auto.
  destruct (assertStrings l) as [strs|] eqn:Hl; cbn; [left|right; reflexivity].
  now rewrite (assertStrings_stringsOf _ _ Hl).
Qed.

(** The next statement of the handler is one of those two stages. *)
Ltac strings_stage o newConfig key uc Heta :=
  match goal with
  | |- context [Server.run o (Server.bind ?s ?k) ?st ?w] =>
      let Heq := fresh "Heq" in
      let E := fresh "E" in
      destruct (run_strings_stage _ o newConfig key _ _ uc McpServer.notAString k st w Heta)
        as [Heq|Heq];
      match type of Heq with
      | _ = ?rhs =>
          assert (E : Server.run o (Server.bind s k) st w = rhs) by exact Heq;
          rewrite E; clear E Heq
      end
  end.

(** X14. [environment_config] calls [UpdateConfig] at most once, and only
    when the environment is open and [config] is an object.  The
    configuration it passes has the working directory of the environment's
    own; its base image, setup commands and environment variables are the
    object's [base_image], [setup_commands] and [envs] where these are a
    string and arrays, and the environment's own where they are absent or
    of another type.  [Update] is only called on an environment that
    [UpdateConfig] returned without error. *)
Theorem environment_config_applies W (o : Oracle W) ctx request st w :
  let r := run o (environmentConfigHandler ctx request) st w in
  ((forall newConfig, request !! "config" <> Some (VObject newConfig)) ->
     configsApplied (trace r) = [] /\ updated (trace r) = []
     /\ exists e, outcome r = Some (Err e))
  /\ (forall cfg rest, configsApplied (trace r) = cfg :: rest ->
      rest = []
      /\ exists env newConfig,
           fetched (trace r) = [env]
           /\ request !! "config" = Some (VObject newConfig)
           /\ Workdir cfg = Workdir (Config (InfoState (Info env)))
           /\ BaseImage cfg
              = GetString newConfig "base_image" (BaseImage (Config (InfoState (Info env))))
           /\ SetupCommands cfg
              = GetStringSlice newConfig "setup_commands"
                  (SetupCommands (Config (InfoState (Info env))))
           /\ Env cfg
              = GetStringSlice newConfig "envs" (Env (Config (InfoState (Info env)))))
  /\ (forall sent, In sent (updated (trace r)) ->
      exists env cfg, In (Called (EnvUpdateConfig env cfg) (sent, None)) (trace r)).
Proof.
  cbn zeta. unfold environmentConfigHandler, ext.
  enter o.
  - destruct (read_only_trace _ Hread) as (Hupdated & Hconfigs & _).
    destruct (request !! "config") as [[|b|q|s|l|newConfig]|] eqn:Hconfig.
    all: try (cbn; unfold fetched, updated, configsApplied in *;
              rewrite ?app_nil_r, ?Hupdated, ?Hconfigs;
              split; [eauto|]; split; [discriminate|]; intros ? []).
    cbv beta iota zeta.
    set (old := Copy (Config (InfoState (Info env)))).
    set (uc0 := match newConfig !! "base_image" with
                | Some (VString baseImage) =>
                    mkConfig baseImage (SetupCommands old) (Env old) (Workdir old)
                | _ => old
                end).
    assert (Hbase : uc0 = mkConfig (GetString newConfig "base_image" (BaseImage old))
                            (SetupCommands old) (Env old) (Workdir old)).
    { unfold uc0, GetString. destruct old.
      destruct (newConfig !! "base_image") as [[]|]; reflexivity. }
    clearbody uc0.
    assert (Heta : forall c : EnvironmentConfig,
              c = mkConfig (BaseImage c) (SetupCommands c) (Env c) (Workdir c))
      by (intros []; reflexivity).
    strings_stage o newConfig "setup_commands" uc0
      (Heta uc0 : uc0 = (fun strs => mkConfig (BaseImage uc0) strs (Env uc0) (Workdir uc0))
                          (SetupCommands uc0)).
    2: { cbn. unfold fetched, updated, configsApplied in *.
         rewrite ?app_nil_r, ?Hupdated, ?Hconfigs.
         split; [intros Hno; destruct (Hno newConfig); reflexivity|].
         split; [discriminate|]. intros ? []. }
    cbv beta.
    set (uc1 := mkConfig (BaseImage uc0)
                  (GetStringSlice newConfig "setup_commands" (SetupCommands uc0))
                  (Env uc0) (Workdir uc0)).
    strings_stage o newConfig "envs" uc1
      (eq_refl : uc1 = (fun strs => mkConfig (BaseImage uc1) (SetupCommands uc1) strs
                                      (Workdir uc1)) (Env uc1)).
    2: { cbn. unfold fetched, updated, configsApplied in *.
         rewrite ?app_nil_r, ?Hupdated, ?Hconfigs.
         split; [intros Hno; destruct (Hno newConfig); reflexivity|].
         split; [discriminate|]. intros ? []. }
    cbv beta. subst uc1 uc0. cbn [BaseImage SetupCommands Env Workdir].
    explore.
    all: unfold fetched, updated, configsApplied in *;
         rewrite !omap_app, ?Hupdated, ?Hconfigs, ?Hfetched; cbn.
    all: split; [intros Hno; destruct (Hno newConfig); reflexivity|].
    all: split; [|intros sent Hin; repeat destruct Hin as [<-|Hin]; try destruct Hin;
                   do 2 eexists; apply in_or_app; right; cbn; eauto].
    all: intros cfg rest [= <- <-]; split; [reflexivity|].
    all: do 2 eexists; repeat split.
  - destruct (read_only_trace _ Hread) as (Hupdated & Hconfigs & _).
    cbn. rewrite app_nil_r, Hupdated, Hconfigs.
    split; [eauto|]. split; [discriminate|]. intros ? [].
Qed.

End Metadata.

(** ** Reading tools *)
Section Reading.
Import Environment Mcp Server McpServer Observe.
Context `{Handles} `{!Library}.

(** X15. [environment_open], [environment_list], [environment_file_read]
    and [environment_file_list] only read: whatever the request, the calls
    they make are among opening the repository, getting or listing
    environments, and reading or listing files. *)
Theorem reading_tools_only_read W (o : Oracle W) (dag : DaggerClient) (singleTenant : bool)
    (tool : Tool) ctx request st w :
  In tool (registeredTools dag singleTenant) ->
  In (Name (ToolDefinition tool))
    ["environment_open"; "environment_list"; "environment_file_read";
     "environment_file_list"] ->
  forallb isRead (trace (run o (Handler tool ctx request) st w)) = true.
Proof.
  intros (inner & Hin & Hname & ->)%registeredTools_inner Hreads. rewrite Hname in Hreads.
  unfold createTools in Hin. cbn [In] in Hin.
  destruct singleTenant.
  all: repeat (destruct Hin as [<-|Hin];
         [first
            [ exfalso; cbn in Hreads; intuition discriminate
            | wrapped_handler; unfold ext;
              first [enter o | enter_repository o];
              explore; rewrite ?forallb_app, ?Hread; reflexivity ]|]).
  all: destruct Hin.
Qed.

(** X16. When [environment_list] succeeds, its last call is [List], and
    its text is the marshaled list of one response for each environment
    [List] returned, in that order and with no services, followed by a
    fixed warning. *)
Theorem environment_list_text W (o : Oracle W) ctx request st w response :
  let r := run o (environmentListHandler ctx request) st w in
  outcome r = Some (Ok response) ->
  exists pre repo envInfos out,
    trace r = (pre ++ [Called (RepoList repo) (Ok envInfos)])%list
    /\ marshalResponses (map environmentResponseFromEnvInfo envInfos) = Ok out
    /\ map RespID (map environmentResponseFromEnvInfo envInfos) = map ID envInfos
    /\ Forall (fun resp => RespServices resp = [])
         (map environmentResponseFromEnvInfo envInfos)
    /\ response
       = NewToolResultText
           (out +:+ nl +:+ nl +:+
            "DO NOT change environments without explicit permission from the user").
Proof.
  cbn zeta. unfold environmentListHandler, ext.
  enter_repository o; explore; intros; simplify_eq.
  do 4 eexists. split; [reflexivity|]. split; [eassumption|].
  split; [now rewrite map_map|]. split; [|reflexivity].
  apply Forall_map, Forall_forall. reflexivity.
Qed.

End Reading.

(** ** Required arguments *)
Section RequiredArguments.
Import Environment Mcp Server McpServer Observe.
Context `{Handles} `{!Library}.

Lemma requires_In (t : Mcp.Tool) (key : string) :
  requires t key = true -> In key (Required t).
Proof.
  unfold requires. intros (k & Hin & Heq%String.eqb_eq)%existsb_exists. now subst.
Qed.

Lemma RequireString_missing (request : Request) (key : string) :
  request !! key = None -> exists e, RequireString request key = Err e.
Proof. intros Hnone. unfold RequireString. rewrite Hnone. eauto. Qed.

(** What [wrapTool] makes of a handler that failed having only read. *)
Lemma wrapTool_error_result W (o : Oracle W) (tool : Tool) ctx request st w :
  (forallb isRead (trace (run o (Handler tool ctx request) st w)) = true
   /\ ((exists e, outcome (run o (Handler tool ctx request) st w) = Some (Err e))
       \/ (exists response,
             outcome (run o (Handler tool ctx request) st w) = Some (Ok response)
             /\ IsError response = true))) ->
  forallb isRead (trace (run o (Handler (wrapTool tool) ctx request) st w)) = true
  /\ exists response,
       outcome (run o (Handler (wrapTool tool) ctx request) st w) = Some (Ok response)
       /\ IsError response = true.
Proof.
  cbn [Handler wrapTool]. rewrite run_bind. unfold andThen.
  intros [Hread [(e & ->)|(response & -> & Herror)]]; cbn; rewrite app_nil_r; eauto.
Qed.

(** The handler stops at the argument that is missing. *)
Ltac only_reads :=
  cbn; rewrite ?app_nil_r, ?forallb_app;
  repeat match goal with Hr : forallb isRead _ = true |- _ => rewrite Hr; clear Hr end;
  eauto 6.

Ltac refuted Hmode Hnone :=
  match goal with
  | Hm : _ -> _ -> exists e, Ok _ = Err e |- _ =>
      first [ destruct (Hm Hmode (or_introl Hnone)) as (? & [=])
            | destruct (Hm Hmode (or_intror Hnone)) as (? & [=])
            | destruct (Hm Hmode Hnone) as (? & [=]) ]
  end.

Ltac missing o Hmode Hnone :=
  match type of Hnone with
  | _ !! ?key = None =>
      let e := fresh "e" in
      let He := fresh "He" in
      destruct (RequireString_missing _ key Hnone) as (e & He);
      apply wrapTool_error_result;
      wrapped_handler; unfold ext;
      first [enter o | enter_repository o];
      [ first [refuted Hmode Hnone | rewrite ?He, ?Hnone; explore; only_reads]
      | only_reads ]
  end.

(** X17. A call that lacks an argument its tool's schema marks as
    required returns an error result and changes nothing: the handler has
    at most opened the repository and got the environment.  In
    single-tenant mode this holds for every required argument but
    [environment_source] and [environment_id], which the session state can
    supply. *)
Theorem required_arguments_are_enforced W (o : Oracle W) (singleTenant : bool)
    (tool : Tool) (key : string) ctx request st w :
  In tool (createTools singleTenant) ->
  singleTenantOf ctx = singleTenant ->
  requires (ToolDefinition tool) key = true ->
  (singleTenant = true -> key <> "environment_source" /\ key <> "environment_id") ->
  request !! key = None ->
  let r := run o (Handler tool ctx request) st w in
  forallb isRead (trace r) = true
  /\ exists response, outcome r = Some (Ok response) /\ IsError response = true.
Proof.
  intros Hin Hmode Hreq%requires_In Hkey Hnone. cbn zeta.
  unfold createTools in Hin. cbn [In] in Hin.
  destruct singleTenant.
  - destruct (Hkey eq_refl) as [Hsrc Hid]. clear Hkey.
    repeat (destruct Hin as [<-|Hin];
            [cbn in Hreq;
             repeat (destruct Hreq as [<-|Hreq]; [first [congruence | missing o Hmode Hnone]|]);
             destruct Hreq|]).
    destruct Hin.
  - clear Hkey.
    repeat (destruct Hin as [<-|Hin];
            [cbn in Hreq;
             repeat (destruct Hreq as [<-|Hreq]; [missing o Hmode Hnone|]);
             destruct Hreq|]).
    destruct Hin.
Qed.

End RequiredArguments.

(** ** Commands and services *)
Section Commands.
Import Environment Mcp Server McpServer Observe.
Context `{Handles} `{!Library}.

(** X18. Once the environment is open, [environment_run_cmd] without
    [background] makes exactly two more calls: [Run], on the environment it
    got, with the [command] (default empty), the [shell] (default "sh") and
    [use_entrypoint] of the request, and [Update], on the environment [Run]
    returned.  An error of [Update] is reported rather than one of the
    command; without either the text is the command's output followed by a
    note that names the working directory and the ID of the environment
    [Update] returned. *)
Theorem run_cmd_in_the_foreground W (o : Oracle W) ctx request st w :
  let r := run o (environmentRunCmdHandler ctx request) st w in
  GetBool request "background" false = false ->
  forall env rest, fetched (trace r) = env :: rest ->
  exists pre repo env1 runResult env2 updateError,
    trace r
    = (pre ++ [Called (EnvRun env (GetString request "command" "")
                         (GetString request "shell" "sh")
                         (GetBool request "use_entrypoint" false))
                 (env1, runResult);
               Called (RepoUpdate repo env1 (GetString request "explanation" ""))
                 (env2, updateError)])%list
    /\ forallb isRead pre = true
    /\ outcome r
       = Some (match updateError, runResult with
               | Some err, _ => Err ("failed to update repository: " +:+ err)
               | None, Err runErr => Err ("failed to run command: " +:+ runErr)
               | None, Ok stdout =>
                   Ok (NewToolResultText
                         (stdout +:+ nl +:+ nl +:+
                          "Any changes to the container workdir (" +:+
                          Workdir (Config (InfoState (Info env2))) +:+
                          ") have been committed and pushed to container-use/" +:+
                          ID (Info env2) +:+ " remote ref"))
               end).
Proof.
  cbn zeta. intros Hfg. unfold environmentRunCmdHandler, ext. rewrite Hfg.
  enter o.
  - cbn. answer o. answer o.
    repeat match goal with p : (_ * _)%type |- _ => destruct p end. cbn [fst snd].
    unfold fetched in *. rewrite omap_app, Hfetched.
    intros env0 rest [= <- _].
    match goal with
    | u : option error, c : result string |- _ => destruct u, c
    end; cbn; do 6 eexists; (split; [reflexivity|]); split; auto.
  - cbn. rewrite app_nil_r. unfold fetched in *. rewrite Hfetched. discriminate.
Qed.

Lemma wrapInt_range (z : Z) : minInt <= wrapInt z <= maxInt.
Proof.
  unfold wrapInt, minInt, maxInt.
  pose proof (Z.mod_pos_bound (z + 2 ^ 63) (2 ^ 64) ltac:(lia)). lia.
Qed.

(** The conversion gives an [int]: the integer part where that is one. *)
Lemma intOf_spec (outside : Q -> Z) (v : Q) :
  minInt <= intOf outside v <= maxInt
  /\ (minInt <= truncate v <= maxInt -> intOf outside v = truncate v).
Proof.
  unfold intOf.
  destruct (Z.leb_spec minInt (truncate v)); destruct (Z.leb_spec (truncate v) maxInt); cbn.
  all: split; [first [lia | apply wrapInt_range] | first [reflexivity | lia]].
Qed.

(** The ports of a request: each a JSON number, converted to an [int]. *)
Lemma portsOf_numbers (portList : list Value) (ports : list Z) :
  portsOf portList = Some ports ->
  Forall2 (fun v port =>
               exists q, v = VNumber q /\ port = intOf intOutside q
                         /\ minInt <= port <= maxInt
                         /\ (minInt <= truncate q <= maxInt -> port = truncate q))
              portList ports.
Proof.
  revert ports. induction portList as [|v portList IH]; intros ports; cbn.
  - intros [= <-]. constructor.
  - destruct v; try discriminate.
    destruct (portsOf portList) as [ports'|]; [|discriminate].
    intros [= <-]. constructor; [|now apply IH].
    eexists. split; [reflexivity|]. split; [reflexivity|]. apply intOf_spec.
Qed.

Lemma run_parsePorts {B} W (o : Oracle W) (request : Request) (k : list Z -> Prog B) st w :
  (exists ports,
      run o (bind (parsePorts request) k) st w = run o (k ports) st w
      /\ (forall portList, request !! "ports" = Some (VArray portList) ->
            Forall2 (fun v port =>
               exists q, v = VNumber q /\ port = intOf intOutside q
                         /\ minInt <= port <= maxInt
                         /\ (minInt <= truncate q <= maxInt -> port = truncate q))
              portList ports)
      /\ ((forall portList, request !! "ports" <> Some (VArray portList)) -> ports = []))
  \/ run o (bind (parsePorts request) k) st w = mkRun None st [] w.
Proof.
  unfold parsePorts.
  destruct (request !! "ports") as [[| | | |portList|]|] eqn:Hports; cbn.
  5: destruct (portsOf portList) as [ports|] eqn:Hp; cbn; [|now right].
  all: left; eexists; split; [reflexivity|]; split; [intros ? [= <-]|]; auto.
  - now apply portsOf_numbers.
  - intros Hno. now destruct (Hno portList).
Qed.

(** X19. With [background], and unless [ports] makes it panic,
    [environment_run_cmd] likewise makes two calls once the environment is
    open: [RunBackground] with the ports of the request, each a JSON number
    converted to an [int] (none when [ports] is absent or not an array),
    and [Update] on the environment [RunBackground] returned.  A port is
    the integer part of its number when that is an [int]; outside this
    range Go leaves the conversion to the implementation, and all that
    holds is that the port is some [int].  An error of [Update] is reported
    rather than one of the command. *)
Theorem run_cmd_in_the_background W (o : Oracle W) ctx request st w :
  let r := run o (environmentRunCmdHandler ctx request) st w in
  GetBool request "background" false = true ->
  outcome r <> None ->
  forall env rest, fetched (trace r) = env :: rest ->
  exists pre repo ports env1 runResult env2 updateError,
    trace r
    = (pre ++ [Called (EnvRunBackground env (GetString request "command" "")
                         (GetString request "shell" "sh") ports
                         (GetBool request "use_entrypoint" false))
                 (env1, runResult);
               Called (RepoUpdate repo env1 (GetString request "explanation" ""))
                 (env2, updateError)])%list
    /\ forallb isRead pre = true
    /\ (forall portList, request !! "ports" = Some (VArray portList) ->
          Forall2 (fun v port =>
               exists q, v = VNumber q /\ port = intOf intOutside q
                         /\ minInt <= port <= maxInt
                         /\ (minInt <= truncate q <= maxInt -> port = truncate q))
              portList ports)
    /\ ((forall portList, request !! "ports" <> Some (VArray portList)) -> ports = [])
    /\ outcome r
       = Some (match updateError, runResult with
               | Some err, _ => Err ("failed to update repository: " +:+ err)
               | None, Err runErr => Err ("failed to run command: " +:+ runErr)
               | None, Ok endpoints =>
                   match marshalEndpoints endpoints with
                   | Err err => Err err
                   | Ok out =>
                       Ok (NewToolResultText
                             (backgroundMessage out
                                (Workdir (Config (InfoState (Info env2))))
                                (ID (Info env2))))
                   end
               end).
Proof.
  cbn zeta. intros Hbg. unfold environmentRunCmdHandler, ext. rewrite Hbg.
  enter o.
  - cbv beta iota zeta.
    match goal with
    | |- context [run o (bind (parsePorts request) ?k) ?st' ?w'] =>
        destruct (run_parsePorts W o request k st' w')
          as [(ports & -> & Hnumbers & Hnone)| ->]
    end; [|cbn; congruence].
    cbn. answer o. answer o.
    repeat match goal with p : (_ * _)%type |- _ => destruct p end. cbn [fst snd].
    unfold fetched in *. rewrite omap_app, Hfetched.
    intros _ env0 rest [= <- _].
    match goal with
    | u : option error, c : result EndpointMappings |- _ => destruct u, c
    end; cbn; try destruct (marshalEndpoints _) eqn:Hm; cbn;
      do 7 eexists; (split; [reflexivity|]); repeat split; auto;
      rewrite Hm; reflexivity.
  - cbn. rewrite app_nil_r. unfold fetched in *. rewrite Hfetched. discriminate.
Qed.

(** X20. Once the environment is open and unless [ports] makes it panic,
    [environment_add_service] needs [name] and [image]; it then calls
    [AddService] with them, the [command] (default empty), the ports and
    the strings of [envs], and calls [Update] only when the service was
    added: a failure to add the service is the last call.  A port is the
    integer part of its JSON number when that is an [int], and some [int]
    that depends on the implementation otherwise. *)
Theorem add_service_configuration W (o : Oracle W) ctx request st w :
  let r := run o (environmentAddServiceHandler ctx request) st w in
  outcome r <> None ->
  forall env rest, fetched (trace r) = env :: rest ->
  (forall e, RequireString request "name" = Err e \/ RequireString request "image" = Err e ->
     forallb isRead (trace r) = true /\ exists e', outcome r = Some (Err e'))
  /\ (forall serviceName image,
        RequireString request "name" = Ok serviceName ->
        RequireString request "image" = Ok image ->
        exists pre ports env1 added after,
          trace r
          = (pre ++ Called (EnvAddService env (GetString request "explanation" "")
                              (mkServiceConfig serviceName image
                                 (GetString request "command" "") ports
                                 (GetStringSlice request "envs" [])))
                      (env1, added) :: after)%list
          /\ forallb isRead pre = true
          /\ (forall portList, request !! "ports" = Some (VArray portList) ->
                Forall2 (fun v port =>
               exists q, v = VNumber q /\ port = intOf intOutside q
                         /\ minInt <= port <= maxInt
                         /\ (minInt <= truncate q <= maxInt -> port = truncate q))
              portList ports)
          /\ match added with
             | Err err =>
                 after = [] /\ outcome r = Some (Err ("failed to add service: " +:+ err))
             | Ok service =>
                 exists repo answer,
                   after = [Called (RepoUpdate repo env1 (GetString request "explanation" ""))
                              answer]
             end).
Proof.
  cbn zeta. unfold environmentAddServiceHandler, ext.
  enter o.
  - destruct (RequireString request "name") as [serviceName|e1] eqn:Hname; cbn [bind];
      [destruct (RequireString request "image") as [image|e2] eqn:Himage; cbn [bind]|].
    + match goal with
      | |- context [run o (bind (parsePorts request) ?k) ?st' ?w'] =>
          destruct (run_parsePorts W o request k st' w')
            as [(ports & -> & Hnumbers & Hnone)| ->]
      end; [|cbn; congruence].
      cbn. answer o.
      match goal with p : (Environment * result Service)%type |- _ => destruct p as [env1 [service|err]] end;
        cbn [fst snd].
      * cbn. answer o.
        unfold fetched in *. rewrite omap_app, Hfetched.
        intros _ env0 rest [= <- _]. split; [intros ? [|]; discriminate|].
        intros ? ? [= <-] [= <-]. do 5 eexists. split; [reflexivity|].
        repeat split; eauto.
        match goal with p : (Environment * option error)%type |- _ => destruct p as [? [?|]] end;
          cbn; [|destruct (marshalService service)]; eauto.
      * cbn. unfold fetched in *. rewrite omap_app, Hfetched.
        intros _ env0 rest [= <- _]. split; [intros ? [|]; discriminate|].
        intros ? ? [= <-] [= <-]. do 5 eexists. split; [reflexivity|].
        repeat split; eauto.
    + cbn. rewrite app_nil_r, Hread. intros _ env0 rest _.
      split; [eauto|]. intros ? ? _ [=].
    + cbn. rewrite app_nil_r, Hread. intros _ env0 rest _.
      split; [eauto|]. intros ? ? [=].
  - cbn. rewrite app_nil_r. unfold fetched in *. rewrite Hfetched. discriminate.
Qed.

End Commands.

(** ** File tools and schemas *)
Section Files.
Import Environment Mcp Server McpServer Observe.
Context `{Handles} `{!Library}.

(** X21. When [environment_file_write], [environment_file_edit] or
    [environment_file_delete] succeeds, its last two calls are the file
    operation, on the environment it got and with the arguments of the
    request, and the reconciliation, on the environment the file operation
    returned: [UpdateFile] for the written or edited file, [Update] of the
    whole environment after a deletion.  The text names the file and the ID
    of the environment the reconciliation returned. *)
Theorem file_tools_commit_what_they_changed W (o : Oracle W) ctx request st w response :
  let explanation := GetString request "explanation" "" in
  let committed (verb targetFile : string) (env : Environment) :=
    NewToolResultText
      ("file " +:+ targetFile +:+ " " +:+ verb +:+
       " successfully and committed to container-use/" +:+ ID (Info env) +:+ " remote ref") in
  let written := run o (environmentFileWriteHandler ctx request) st w in
  let edited := run o (environmentFileEditHandler ctx request) st w in
  let removed := run o (environmentFileDeleteHandler ctx request) st w in
  (outcome written = Some (Ok response) ->
     exists pre repo env targetFile contents env1 env2,
       trace written
       = (pre ++ [Called (EnvFileWrite env explanation targetFile contents) (env1, None);
                  Called (RepoUpdateFile repo env1 targetFile explanation) (env2, None)])%list
       /\ fetched (trace written) = [env]
       /\ RequireString request "target_file" = Ok targetFile
       /\ RequireString request "contents" = Ok contents
       /\ response = committed "written" targetFile env2)
  /\ (outcome edited = Some (Ok response) -> IsError response = false ->
      exists pre repo env targetFile search replace env1 env2,
        trace edited
        = (pre ++ [Called (EnvFileEdit env explanation targetFile search replace
                             (GetString request "which_match" ""))
                     (env1, None);
                   Called (RepoUpdateFile repo env1 targetFile explanation) (env2, None)])%list
        /\ fetched (trace edited) = [env]
        /\ RequireString request "target_file" = Ok targetFile
        /\ RequireString request "search_text" = Ok search
        /\ RequireString request "replace_text" = Ok replace
        /\ response = committed "edited" targetFile env2)
  /\ (outcome removed = Some (Ok response) ->
      exists pre repo env targetFile env1 env2,
        trace removed
        = (pre ++ [Called (EnvFileDelete env explanation targetFile) (env1, None);
                   Called (RepoUpdate repo env1 explanation) (env2, None)])%list
        /\ fetched (trace removed) = [env]
        /\ RequireString request "target_file" = Ok targetFile
        /\ response = committed "deleted" targetFile env2).
Proof.
  cbn zeta.
  unfold environmentFileWriteHandler, environmentFileEditHandler,
    environmentFileDeleteHandler, ext.
  split; [|split].
  - enter o; explore; intros; simplify_eq.
    do 7 eexists. split; [reflexivity|]. unfold fetched in *.
    rewrite omap_app, Hfetched. repeat split; eauto.
  - enter o; explore; intros; simplify_eq; try discriminate.
    do 8 eexists. split; [reflexivity|]. unfold fetched in *.
    rewrite omap_app, Hfetched. repeat split; eauto.
  - enter o; explore; intros; simplify_eq.
    do 6 eexists. split; [reflexivity|]. unfold fetched in *.
    rewrite omap_app, Hfetched. repeat split; eauto.
Qed.

(** X22. [environment_file_edit] reports failures as error results of
    its own.  When the environment does not open, the result is an error
    result whose text is "unable to open the environment: " and the
    error, and nothing more is called.  Once it is open, the first of
    [target_file], [search_text] and [replace_text] that is missing makes
    the handler return [RequireString]'s error as a Go error, again
    without a further call.  Otherwise [FileEdit] is called: when it
    fails it is the last call and the result is an error result with the
    text "failed to write file: " and the error; when it succeeds
    [UpdateFile] is called, and its failure gives an error result with
    the text "unable to update the environment: " and the error. *)
Theorem file_edit_reports_its_errors W (o : Oracle W) ctx request st w :
  let op := run o (openEnvironment ctx request) st w in
  let r := run o (environmentFileEditHandler ctx request) st w in
  let explanation := GetString request "explanation" "" in
  (forall e, outcome op = Some (Err e) ->
     trace r = trace op
     /\ outcome r = Some (Ok (mkCallToolResult ("unable to open the environment: " +:+ e) true)))
  /\ (forall repo env, outcome op = Some (Ok (repo, env)) ->
      (forall e, RequireString request "target_file" = Err e ->
         trace r = trace op /\ outcome r = Some (Err e))
      /\ (forall targetFile e,
            RequireString request "target_file" = Ok targetFile ->
            RequireString request "search_text" = Err e ->
            trace r = trace op /\ outcome r = Some (Err e))
      /\ (forall targetFile search e,
            RequireString request "target_file" = Ok targetFile ->
            RequireString request "search_text" = Ok search ->
            RequireString request "replace_text" = Err e ->
            trace r = trace op /\ outcome r = Some (Err e))
      /\ (forall targetFile search replace,
            RequireString request "target_file" = Ok targetFile ->
            RequireString request "search_text" = Ok search ->
            RequireString request "replace_text" = Ok replace ->
            exists env1 failure after,
              trace r
              = (trace op ++
                 Called (EnvFileEdit env explanation targetFile search replace
                           (GetString request "which_match" ""))
                   (env1, failure)
                 :: after)%list
              /\ match failure with
                 | Some err =>
                     after = []
                     /\ outcome r
                        = Some (Ok (mkCallToolResult ("failed to write file: " +:+ err) true))
                 | None =>
                     exists env2 updateError,
                       after = [Called (RepoUpdateFile repo env1 targetFile explanation)
                                  (env2, updateError)]
                       /\ match updateError with
                          | Some err =>
                              outcome r
                              = Some (Ok (mkCallToolResult
                                            ("unable to update the environment: " +:+ err)
                                            true))
                          | None =>
                              outcome r
                              = Some (Ok (mkCallToolResult
                                            ("file " +:+ targetFile +:+
                                             " edited successfully and committed to container-use/"
                                             +:+ ID (Info env2) +:+ " remote ref")
                                            false))
                          end
                 end)).
Proof.
  cbn zeta. unfold environmentFileEditHandler, ext.
  rewrite run_bind.
  destruct (run o (openEnvironment ctx request) st w) as [out s tr w1].
  unfold andThen. cbn [outcome session trace world].
  split.
  - intros e ->. cbn. rewrite app_nil_r. split; reflexivity.
  - intros repo env ->. cbn [fst snd].
    repeat apply conj.
    + intros e ->. cbn. rewrite app_nil_r. split; reflexivity.
    + intros targetFile e -> ->. cbn. rewrite app_nil_r. split; reflexivity.
    + intros targetFile search e -> -> ->. cbn. rewrite app_nil_r. split; reflexivity.
    + intros targetFile search replace -> -> ->. explore.
      all: repeat first [reflexivity | split | eexists | progress cbn].
Qed.

(** X23. The schemas of the tools.  The thirteen tools have different
    names, the same in both modes, and each has an optional [explanation].
    In multi-tenant mode every tool requires [environment_source], and
    every tool but [environment_create] and [environment_list] requires
    [environment_id].  In single-tenant mode [environment_open] still
    requires both, and the other tools that work on an environment declare
    neither.  [allow_replace] is a property of [environment_create] in
    single-tenant mode only. *)
Theorem tool_schemas (singleTenant : bool) :
  let definitions := map ToolDefinition (createTools singleTenant) in
  map Name definitions
  = ["environment_open"; "environment_create"; "environment_update_metadata";
     "environment_config"; "environment_list"; "environment_run_cmd";
     "environment_file_read"; "environment_file_list"; "environment_file_write";
     "environment_file_edit"; "environment_file_delete"; "environment_add_service";
     "environment_checkpoint"]
  /\ NoDup (map Name definitions)
  /\ (forall t, In t definitions ->
        hasProperty t "explanation" = true /\ requires t "explanation" = false)
  /\ (forall t, In t definitions ->
        hasProperty t "allow_replace"
        = singleTenant && String.eqb (Name t) "environment_create")
  /\ (forall t, In t definitions ->
        Name t = "environment_create" \/ Name t = "environment_list" ->
        requires t "environment_source" = true /\ hasProperty t "environment_id" = false)
  /\ (forall t, In t definitions ->
        Name t <> "environment_create" -> Name t <> "environment_list" ->
        if singleTenant && negb (String.eqb (Name t) "environment_open")
        then hasProperty t "environment_source" = false
             /\ hasProperty t "environment_id" = false
        else requires t "environment_source" = true
             /\ requires t "environment_id" = true).
Proof.
  cbn zeta. destruct singleTenant.
  all: split; [reflexivity|].
  all: split; [cbn; apply (bool_decide_unpack _); vm_compute; exact I|].
  all: (split; [|split; [|split]]); intros t Hin; cbn in Hin;
       repeat (destruct Hin as [<-|Hin]; [vm_compute; intuition congruence|]); destruct Hin.
Qed.

End Files.

(** ** Further instances *)
Section MoreInstances.
Import Environment Mcp Server McpServer Cli Observe.
#[local] Existing Instance Demo.handles.
#[local] Existing Instance Demo.library.

(** [prune] returns no error although the one deletion failed, and says
    that it deleted nothing. *)
Lemma prune_reports_every_deletion_witness :
  deleted (trace (run Faulty.oracle (pruneCmd "" false) Session.initial Demo.quiet))
  = [(".", "old-env")]
  /\ successes (trace (run Faulty.oracle (pruneCmd "" false) Session.initial Demo.quiet))
     = 0%nat
  /\ outcome (run Faulty.oracle (pruneCmd "" false) Session.initial Demo.quiet) = Some None
  /\ exists header,
       printed (trace (run Faulty.oracle (pruneCmd "" false) Session.initial Demo.quiet))
       = [header;
          "Failed to delete environment 'old-env': worktree is locked" +:+ nl;
          "Successfully deleted 0 environment(s)." +:+ nl].
Proof.
  split; [vm_compute; reflexivity|]. split; [vm_compute; reflexivity|].
  destruct (prune_reports_every_deletion Demo.World Faulty.oracle "" Session.initial
              Demo.quiet) as (Hout & header & Hprinted).
  - vm_compute. discriminate.
  - split; [exact Hout|]. exists header. rewrite Hprinted. vm_compute. reflexivity.
Defined.

(** Writing a file in a busy session leaves the session as it was. *)
Lemma only_open_and_create_store_witness :
  session (run Demo.oracle
             (Handler (wrapToolWithClient (wrapTool (createEnvironmentFileWriteTool true))
                         tt true)
                (mkCtx None None) Demo.writeRequest)
             Demo.busy Demo.quiet)
  = Demo.busy.
Proof.
  apply (only_open_and_create_store Demo.World Demo.oracle tt true).
  - unfold registeredTools. apply in_map_iff. eexists. split; [reflexivity|].
    unfold createTools. cbn [In]. auto 20.
  - vm_compute. discriminate.
  - vm_compute. discriminate.
Defined.

(** In multi-tenant mode [environment_open] runs alike in a fresh and in
    a busy session, and leaves both alone. *)
Lemma multi_tenant_ignores_session_witness :
  outcome (run Demo.oracle
             (Handler (wrapToolWithClient (wrapTool createEnvironmentOpenTool) tt false)
                (mkCtx None None) Demo.writeRequest)
             Demo.busy Demo.quiet)
  = outcome (run Demo.oracle
               (Handler (wrapToolWithClient (wrapTool createEnvironmentOpenTool) tt false)
                  (mkCtx None None) Demo.writeRequest)
               Session.initial Demo.quiet)
  /\ session (run Demo.oracle
                (Handler (wrapToolWithClient (wrapTool createEnvironmentOpenTool) tt false)
                   (mkCtx None None) Demo.writeRequest)
                Demo.busy Demo.quiet)
     = Demo.busy.
Proof.
  destruct (@multi_tenant_ignores_session Demo.handles Demo.library Demo.World Demo.oracle tt
              (@wrapToolWithClient Demo.handles (wrapTool createEnvironmentOpenTool) tt false)
              (mkCtx None None) Demo.writeRequest Session.initial Demo.busy Demo.quiet)
    as (Hout & _ & _ & _ & Hsession).
  - unfold registeredTools. apply in_map_iff. eexists. split; [reflexivity|].
    unfold createTools. cbn [In]. auto 20.
  - split; [exact Hout | exact Hsession].
Defined.

(** [environment_create] fails because the source tree cannot be
    inspected, and the session is in the new environment all the same. *)
Lemma session_follows_create_and_open_witness :
  outcome (run Faulty.oracle (environmentCreateHandler Demo.singleTenantCtx Demo.createRequest)
             Session.initial Demo.quiet)
  = Some (Err "unable to check if environment is dirty: git status failed")
  /\ session (run Faulty.oracle
                (environmentCreateHandler Demo.singleTenantCtx Demo.createRequest)
                Session.initial Demo.quiet)
     = Session.mkState "fresh-env" "/repo".
Proof.
  split; [vm_compute; reflexivity|].
  rewrite (proj1 (session_follows_create_and_open Demo.World Faulty.oracle
                    Demo.singleTenantCtx Demo.createRequest Session.initial Demo.quiet
                    eq_refl)).
  vm_compute. reflexivity.
Defined.

(** Opening another environment by its ID alone works in a busy session,
    and the next call without a source finds none. *)
Lemma source_forgotten_without_argument_witness :
  outcome (run Demo.oracle (environmentOpenHandler Demo.singleTenantCtx Faulty.openByID)
             Demo.busy Demo.quiet)
  = Some (Ok (NewToolResultText "{id:env-2}"))
  /\ session (run Demo.oracle (environmentOpenHandler Demo.singleTenantCtx Faulty.openByID)
                Demo.busy Demo.quiet)
     = Session.mkState "env-2" ""
  /\ trace (run Demo.oracle
              (Handler (wrapTool (createEnvironmentFileReadTool true)) Demo.singleTenantCtx
                 Faulty.followUp)
              (session (run Demo.oracle
                          (environmentOpenHandler Demo.singleTenantCtx Faulty.openByID)
                          Demo.busy Demo.quiet))
              Demo.quiet)
     = [].
Proof.
  split; [vm_compute; reflexivity|]. split; [vm_compute; reflexivity|].
  destruct (source_forgotten_without_argument Demo.World Demo.oracle Demo.singleTenantCtx
              Faulty.openByID Demo.busy Demo.quiet environmentOpenHandler eq_refl eq_refl
              (or_introl eq_refl) (NewToolResultText "{id:env-2}"))
    as (_ & Hnext).
  - vm_compute. reflexivity.
  - apply (Hnext (wrapTool (createEnvironmentFileReadTool true)) Demo.singleTenantCtx
             Faulty.followUp Demo.quiet).
    + unfold createTools. cbn [In]. auto 20.
    + reflexivity.
    + reflexivity.
Defined.

(** After [environment_create], a call with no source and no ID works on
    the environment just created. *)
Lemma follow_up_uses_current_environment_witness :
  resolvedTo
    (run Demo.oracle (openEnvironment Demo.singleTenantCtx Faulty.followUp)
       (session (run Demo.oracle
                   (environmentCreateHandler Demo.singleTenantCtx Demo.createRequest)
                   Session.initial Demo.quiet))
       Demo.quiet)
    "/repo" tt "fresh-env".
Proof.
  destruct (@follow_up_uses_current_environment Demo.handles Demo.library Demo.World
              Demo.oracle Demo.singleTenantCtx
              Demo.createRequest Session.initial Demo.quiet tt eq_refl eq_refl)
    as (Hcreate & _).
  - vm_compute. discriminate.
  - destruct (Hcreate (NewToolResultText "{id:fresh-env}")) as (env & Hcreated & Hfollow).
    + vm_compute. reflexivity.
    + vm_compute in Hcreated. injection Hcreated as <-.
      apply Hfollow; [vm_compute; discriminate | reflexivity | reflexivity].
Defined.

(** [environment_list] returns an error result when there is no
    repository. *)
Lemma tools_always_return_witness :
  exists response,
    outcome (run Demo.oracle
               (Handler (wrapToolWithClient (wrapTool (createEnvironmentListTool true)) tt true)
                  (mkCtx None None) Demo.openRequest)
               Session.initial Demo.noRepository)
    = Some (Ok response).
Proof.
  apply (tools_always_return Demo.World Demo.oracle tt true).
  - unfold registeredTools. apply in_map_iff. eexists. split; [reflexivity|].
    unfold createTools. cbn [In]. auto 20.
  - vm_compute. intuition discriminate.
Defined.

Lemma reading_tools_only_read_witness :
  forallb isRead
    (trace (run Demo.oracle
              (Handler (wrapToolWithClient (wrapTool (createEnvironmentFileReadTool false))
                          tt false)
                 (mkCtx None None) Demo.writeRequest)
              Session.initial Demo.quiet))
  = true.
Proof.
  apply (reading_tools_only_read Demo.World Demo.oracle tt false).
  - unfold registeredTools. apply in_map_iff. eexists. split; [reflexivity|].
    unfold createTools. cbn [In]. auto 20.
  - vm_compute. auto.
Defined.

(** The two environments of the demonstration world, listed. *)
Lemma environment_list_text_witness :
  exists pre repo envInfos out,
    trace (run Demo.oracle (environmentListHandler Demo.multiTenantCtx Demo.openRequest)
             Session.initial Demo.quiet)
    = (pre ++ [Called (RepoList repo) (Ok envInfos)])%list
    /\ marshalResponses (map environmentResponseFromEnvInfo envInfos) = Ok out
    /\ "old-env,new-env" +:+ nl +:+ nl +:+
       "DO NOT change environments without explicit permission from the user"
       = out +:+ nl +:+ nl +:+
         "DO NOT change environments without explicit permission from the user".
Proof.
  destruct (environment_list_text Demo.World Demo.oracle Demo.multiTenantCtx Demo.openRequest
              Session.initial Demo.quiet
              (NewToolResultText
                 ("old-env,new-env" +:+ nl +:+ nl +:+
                  "DO NOT change environments without explicit permission from the user")))
    as (pre & repo & envInfos & out & Htrace & Hout & _ & _ & Htext).
  - vm_compute. reflexivity.
  - exists pre, repo, envInfos, out. split; [exact Htrace|]. split; [exact Hout|].
    now injection Htext.
Defined.

(** [environment_file_write] without [contents] fails having only read. *)
Lemma required_arguments_are_enforced_witness :
  outcome (run Demo.oracle
             (Handler (wrapTool (createEnvironmentFileWriteTool false)) Demo.multiTenantCtx
                Faulty.noContents)
             Session.initial Demo.quiet)
  = Some (Ok (NewToolResultError ("required argument " +:+ quoted "contents" +:+ " not found")))
  /\ forallb isRead
       (trace (run Demo.oracle
                 (Handler (wrapTool (createEnvironmentFileWriteTool false))
                    Demo.multiTenantCtx Faulty.noContents)
                 Session.initial Demo.quiet))
     = true.
Proof.
  split; [vm_compute; reflexivity|].
  apply (required_arguments_are_enforced Demo.World Demo.oracle false
           (wrapTool (createEnvironmentFileWriteTool false)) "contents").
  - unfold createTools. cbn [In]. auto 20.
  - reflexivity.
  - vm_compute. reflexivity.
  - discriminate.
  - vm_compute. reflexivity.
Defined.

(** A command that fails and is committed all the same: the error is the
    command's. *)
Lemma run_cmd_in_the_foreground_witness :
  exists pre repo env1 runResult env2 updateError,
    trace (run Demo.oracle (environmentRunCmdHandler Demo.multiTenantCtx Demo.writeRequest)
             Session.initial Demo.failing)
    = (pre ++ [Called (EnvRun (Demo.environment "env-1" "demo" 0) "" "sh" false)
                 (env1, runResult);
               Called (RepoUpdate repo env1 "") (env2, updateError)])%list
    /\ forallb isRead pre = true.
Proof.
  destruct (run_cmd_in_the_foreground Demo.World Demo.oracle Demo.multiTenantCtx
              Demo.writeRequest Session.initial Demo.failing eq_refl
              (Demo.environment "env-1" "demo" 0) [])
    as (pre & repo & env1 & runResult & env2 & updateError & Htrace & Hpre & _).
  - vm_compute. reflexivity.
  - exists pre, repo, env1, runResult, env2, updateError. split; [exact Htrace | exact Hpre].
Defined.

(** The ports 8080 and 8.5 reach [RunBackground] as 8080 and 8. *)
Lemma run_cmd_in_the_background_witness :
  exists pre repo env1 runResult env2 updateError,
    trace (run Demo.oracle (environmentRunCmdHandler Demo.multiTenantCtx Faulty.serveRequest)
             Session.initial Demo.quiet)
    = (pre ++ [Called (EnvRunBackground (Demo.environment "env-1" "demo" 0) "serve" "sh"
                         [8080; 8] false)
                 (env1, runResult);
               Called (RepoUpdate repo env1 "") (env2, updateError)])%list.
Proof.
  destruct (run_cmd_in_the_background Demo.World Demo.oracle Demo.multiTenantCtx
              Faulty.serveRequest Session.initial Demo.quiet eq_refl)
    with (env := Demo.environment "env-1" "demo" 0) (rest := @nil Environment)
    as (pre & repo & ports & env1 & runResult & env2 & updateError & Htrace & _ & Hports & _).
  - vm_compute. discriminate.
  - vm_compute. reflexivity.
  - specialize (Hports _ eq_refl).
    apply Forall2_cons_inv_l in Hports
      as (port1 & ports1 & (q1 & [= <-] & -> & _) & Hports & ->).
    apply Forall2_cons_inv_l in Hports
      as (port2 & ports2 & (q2 & [= <-] & -> & _) & Hports & ->).
    apply Forall2_nil_inv_l in Hports as ->.
    exists pre, repo, env1, runResult, env2, updateError. exact Htrace.
Defined.

(** A service with one port; the entry of [envs] that is not a string is
    dropped. *)
Lemma add_service_configuration_witness :
  exists pre env1 added after,
    trace (run Demo.oracle (environmentAddServiceHandler Demo.multiTenantCtx
                              Faulty.serviceRequest)
             Session.initial Demo.quiet)
    = (pre ++ Called (EnvAddService (Demo.environment "env-1" "demo" 0) ""
                        (mkServiceConfig "db" "postgres:16" "" [5432] ["POSTGRES_DB=app"]))
                (env1, added) :: after)%list.
Proof.
  destruct (add_service_configuration Demo.World Demo.oracle Demo.multiTenantCtx
              Faulty.serviceRequest Session.initial Demo.quiet)
    with (env := Demo.environment "env-1" "demo" 0) (rest := @nil Environment)
    as (_ & Hcall).
  - vm_compute. discriminate.
  - vm_compute. reflexivity.
  - destruct (Hcall "db" "postgres:16" eq_refl eq_refl)
      as (pre & ports & env1 & added & after & Htrace & _ & Hports & _).
    specialize (Hports _ eq_refl).
    apply Forall2_cons_inv_l in Hports
      as (port1 & ports1 & (q1 & [= <-] & -> & _) & Hports & ->).
    apply Forall2_nil_inv_l in Hports as ->.
    exists pre, env1, added, after. exact Htrace.
Defined.

End MoreInstances.
